(** * acmeapi: a shallow embedding of the ACME client of [acmeapi/api.go]

    The Go package talks to an ACME server over HTTP.  The embedding keeps
    the code's names and control flow:

    - Go values keep their shape: a [string] is a [string], a byte slice is
      a [list byte], an [int] is a [Z], a slice that the code compares with
      [nil] is an [option (list _)] ([None] is the nil slice), a pointer
      that may be nil is an [option];
    - a Go function returning [(v, err)] returns a pair whose second
      component is an [option Error] ([None] is the nil error);
    - everything outside the package (the HTTP transport, the JOSE signer,
      [encoding/json], [net/url], the Link header parser, [time.Parse],
      the clock) is a [Variable] of the section that uses it, so every
      theorem holds for all behaviours of the server and of the libraries;
    - methods on [*Client] thread a state [St] holding the client, the
      outside world and the list of HTTP requests dispatched so far.

    [RespondToChallenge] is left out: it hands the client itself to the
    JSON decoder as the target of the response. *)

From Stdlib Require Import ZArith Lia List Bool.
From Stdlib Require Import Strings.String Strings.Ascii Strings.Byte.
From stdpp Require Import base option list strings gmap.

Open Scope string_scope.
Open Scope Z_scope.

(** ** Basic Go data *)

Module Go.

(** [s == t] on Go strings. *)
Definition streq (s t : string) : bool := String.eqb s t.

(** The bytes of a Go string, as numbers. *)
Definition bytes_of (s : string) : list Z :=
  map (fun c => Z.of_N (N_of_ascii c)) (list_ascii_of_string s).

(** Unsigned 64 bit and signed 64 bit wrap-around. *)
Definition wrap_u64 (x : Z) : Z := x mod 2 ^ 64.
Definition wrap_i64 (x : Z) : Z := (x + 2 ^ 63) mod 2 ^ 64 - 2 ^ 63.

End Go.

(** ** time *)

Module time.

(** An instant, in nanoseconds since the zero value [time.Time{}].
    The monotonic reading and the location of a Go [Time] play no part
    in this package. *)
Definition Time := Z.

(** [time.Time{}] *)
Definition zero : Time := 0.

(** [time.Duration] is an [int64] count of nanoseconds. *)
Definition Duration := Z.

Definition Second : Duration := 1000000000.

Definition RFC1123 : string := "Mon, 02 Jan 2006 15:04:05 MST".

(** [time.Duration(n) * time.Second], an [int64] multiplication. *)
Definition seconds (n : Z) : Duration := Go.wrap_i64 (n * Second).

(** [t.Add(d)] *)
Definition Add (t : Time) (d : Duration) : Time := t + d.

(** [t.After(u)] *)
Definition After (t u : Time) : bool := u <? t.

Definition minDuration : Duration := - 2 ^ 63.
Definition maxDuration : Duration := 2 ^ 63 - 1.

(** [t.Sub(u)]: the difference, saturated to the range of [Duration]. *)
Definition Sub (t u : Time) : Duration :=
  if maxDuration <? t - u then maxDuration
  else if t - u <? minDuration then minDuration
  else t - u.

End time.

(** ** strconv.ParseUint *)

Module strconv.

Inductive NumError := ErrSyntax | ErrRange.

Definition maxUint64 : Z := 2 ^ 64 - 1.

(** The value of one byte as a digit, if it is a digit or a letter. *)
Definition digit_of (d : Z) : option Z :=
  if (48 <=? d) && (d <=? 57) then Some (d - 48)
  else if (97 <=? d) && (d <=? 122) then Some (d - 97 + 10)
  else if (65 <=? d) && (d <=? 90) then Some (d - 65 + 10)
  else None.

(** The loop of [ParseUint] over the bytes left to read, [n] being the
    number read so far. *)
Fixpoint ParseUint_loop (base cutoff maxVal : Z) (ds : list Z) (n : Z)
  : NumError + Z :=
  match ds with
  | [] => inr n
  | d :: ds' =>
      match digit_of d with
      | None => inl ErrSyntax
      | Some v =>
          if base <=? v then inl ErrSyntax
          else if cutoff <=? n then inl ErrRange
          else
            let n' := Go.wrap_u64 (n * base) in
            let n1 := Go.wrap_u64 (n' + v) in
            if (n1 <? n') || (maxVal <? n1) then inl ErrRange
            else ParseUint_loop base cutoff maxVal ds' n1
      end
  end.

(** [cutoff] is the smallest number such that [cutoff * base] is more than
    [maxUint64]; [maxVal] is the largest number of [bitSize] bits. *)
Definition cutoff (base : Z) : Z := maxUint64 / base + 1.

Definition maxVal (bitSize : Z) : Z := 2 ^ bitSize - 1.

(** [strconv.ParseUint(s, base, bitSize)] for [2 <= base <= 36] and
    [0 < bitSize <= 64], the only way this package calls it. *)
Definition ParseUint (s : string) (base bitSize : Z) : NumError + Z :=
  if Go.streq s "" then inl ErrSyntax
  else ParseUint_loop base (cutoff base) (maxVal bitSize) (Go.bytes_of s) 0.

(** What the words "a decimal integer" mean: a non-empty string of the
    digits 0 to 9, and the number it writes. *)
Definition is_digit (d : Z) : Prop := 48 <= d <= 57.

Definition decimal (s : string) : Prop :=
  s <> "" /\ Forall is_digit (Go.bytes_of s).

Definition value_from (n : Z) (ds : list Z) : Z :=
  fold_left (fun acc d => acc * 10 + (d - 48)) ds n.

Definition decimal_value (s : string) : Z := value_from 0 (Go.bytes_of s).

End strconv.

(** ** Status *)

Definition Status := string.

Definition StatusUnknown : Status := "unknown".
Definition StatusPending : Status := "pending".
Definition StatusProcessing : Status := "processing".
Definition StatusValid : Status := "valid".
Definition StatusInvalid : Status := "invalid".
Definition StatusRevoked : Status := "revoked".

(** Go's [switch s { case a, b, ...: }]: is [s] one of the listed strings? *)
Fixpoint switch_case (s : string) (cases : list string) : bool :=
  match cases with
  | [] => false
  | c :: cases' => if Go.streq s c then true else switch_case s cases'
  end.

(** [func (s Status) Valid() bool] *)
Definition Valid (s : Status) : bool :=
  if switch_case s ["unknown"; "pending"; "processing"; "valid"; "invalid"; "revoked"]
  then true else false.

(** [func (s Status) Final() bool] *)
Definition Final (s : Status) : bool :=
  if switch_case s ["valid"; "invalid"; "revoked"]
  then true else false.

(** ** net/http values *)

Module http.

(** [http.Header], a [map[string][]string]. *)
Abbreviation Header := (gmap string (list string)).

(** [h.Get(key)]: the first value stored under [key], or the empty
    string.  Every key this package asks for is already in canonical
    form. *)
Definition Get (h : Header) (key : string) : string :=
  match h !! key with
  | Some (v :: _) => v
  | _ => ""
  end.

(** [h.Set(key, value)] *)
Definition Set_ (h : Header) (key value : string) : Header :=
  <[key := [value]]> h.

(** An [*http.Response] as this package reads it.  [Body] is what
    reading the body stream to its end gives: the bytes, or the message
    of a read error. *)
Record Response := {
  StatusCode : Z;
  Header_ : Header;
  Body : string + list byte
}.

(** An [*http.Request] as this package builds it; [ReqBody] is [None]
    for a nil reader. *)
Record Request := {
  Method : string;
  URL : string;
  ReqHeader : Header;
  ReqBody : option string
}.

End http.

Abbreviation Response := http.Response.
Abbreviation Request := http.Request.

(** ** Errors

    One constructor per error value the package makes, with the text of
    the Go message; [ErrLib] is an error value handed over by a library
    (encoding/json, the transport, the signer, the context, a reader). *)

Inductive Error :=
| ErrLib (msg : string)
| ErrNotValidStatus (ss : string)         (* "not a valid status: %#v" *)
| ErrInvalidURL (u : string)              (* "invalid URL: %#v" *)
| ErrAccountKey                           (* "account key must be specified" *)
| ErrUnsupportedCurve (name : string)     (* "unsupported ECDSA curve: %s" *)
| ErrUnsupportedKeyType (T : string)      (* "unsupported private key type: %T" *)
| httpError (Res : Response) (ProblemBody : list byte)
| ErrUnexpectedContentType (ct : string)  (* "unexpected content type: %#v" *)
| ErrDirectory                            (* "directory does not provide required endpoints" *)
| ErrUnexpectedStatusCode (code : Z)      (* "unexpected status code: %v" *)
| AgreementError (URI : string)
| ErrNoChallenges                         (* "no challenges offered" *)
| ErrCombinations                         (* "one or more combinations are malformed" *)
| ErrExpected201 (res : Response)         (* "expected status code 201 and valid Location header: %#v" *)
| ErrInvalidURI (loc : string)            (* "invalid URI: %#v" *)
| ErrInvalidUpURI                         (* "invalid URI" *)
| ErrCertificateType (ct : string)        (* "Certificate returned with unexpected type: %v" *)
| ErrUpCertificateType (ct : string).     (* "unexpected certificate type: %v" *)

(** The error kinds of the specification that the claims name. *)
Definition UnsupportedKey (e : Error) : Prop :=
  match e with
  | ErrUnsupportedCurve _ | ErrUnsupportedKeyType _ => True
  | _ => False
  end.

Definition Malformed (e : Error) : Prop :=
  match e with
  | ErrNoChallenges | ErrCombinations | ErrNotValidStatus _ => True
  | _ => False
  end.

(** [ioutil.ReadAll(res.Body)] *)
Definition ReadAll (res : Response) : list byte * option Error :=
  match http.Body res with
  | inl msg => ([], Some (ErrLib msg))
  | inr b => (b, None)
  end.

(** ** Keys and algorithm selection *)

(** The dynamic type behind a non-nil [crypto.PrivateKey], as far as
    this package looks at it: an [*rsa.PrivateKey], which it does not look
    into; an [*ecdsa.PrivateKey] with the name of its curve
    ([v.Curve.Params().Name]); an [*ecdsa.PrivateKey] that has no curve to
    ask, being a nil pointer or having a nil [Curve]; or a value of
    another type, with the name [%T] prints.  [d] stands for the key
    material. *)
Inductive PrivateKey :=
| rsa_PrivateKey (d : Z)
| ecdsa_PrivateKey (Name : string) (d : Z)
| ecdsa_PrivateKey_without_curve
| other_PrivateKey (T : string).

(** [jose.SignatureAlgorithm] is a string type. *)
Definition SignatureAlgorithm := string.

Module jose.
Definition RS256 : SignatureAlgorithm := "RS256".
Definition ES256 : SignatureAlgorithm := "ES256".
Definition ES384 : SignatureAlgorithm := "ES384".
Definition ES512 : SignatureAlgorithm := "ES512".
End jose.

(** How a function without effects ends: it returns, or it panics on a
    nil pointer. *)
Inductive Result (A : Type) :=
| Returns (a : A)
| Panics.

Arguments Returns {A} a.
Arguments Panics {A}.

(** [func algorithmFromKey(key crypto.PrivateKey) (jose.SignatureAlgorithm, error)];
    [None] is the nil interface, whose [%T] is ["<nil>"].  Line 268,
    [v.Curve.Params().Name], panics on an ECDSA key without a curve. *)
Definition algorithmFromKey (key : option PrivateKey)
  : Result (SignatureAlgorithm * option Error) :=
  match key with
  | Some (rsa_PrivateKey _) => Returns (jose.RS256, None)
  | Some (ecdsa_PrivateKey name _) =>
      if Go.streq name "P-256" then Returns (jose.ES256, None)
      else if Go.streq name "P-384" then Returns (jose.ES384, None)
      else if Go.streq name "P-521" then Returns (jose.ES512, None)
      else Returns ("", Some (ErrUnsupportedCurve name))
  | Some ecdsa_PrivateKey_without_curve => Panics
  | Some (other_PrivateKey T) => Returns ("", Some (ErrUnsupportedKeyType T))
  | None => Returns ("", Some (ErrUnsupportedKeyType "<nil>"))
  end.

(** ** The data model *)

Abbreviation Time := time.Time.

Record directoryInfo := {
  NewReg : string;
  RecoverReg : string;
  NewAuthz : string;
  NewCert : string;
  RevokeCert : string
}.

Record regInfo := {
  ri_Resource : string;
  ri_Contact : list string;
  ri_Key : option string;
  ri_AgreementURI : string;
  ri_AuthorizationsURI : string;
  ri_CertificatesURI : string
}.

Record revokeReq := {
  rr_Resource : string;
  rr_Certificate : list byte
}.

Record Identifier := {
  id_Type : string;
  id_Value : string
}.

Record Challenge := {
  ch_URI : string;
  ch_Resource : string;
  ch_Type : string;
  ch_Status : Status;
  ch_Validated : Time;
  ch_Token : string;
  ch_N : Z;
  ch_Certs : list (list byte);
  ch_retryAt : Time
}.

(** [Challenges] is a slice of pointers, so an element may be nil;
    [Combinations] is compared with nil, so it is an option. *)
Record Authorization := {
  az_URI : string;
  az_Resource : string;
  az_Identifier : Identifier;
  az_Status : Status;
  az_Expires : Time;
  az_Challenges : list (option Challenge);
  az_Combinations : option (list (list Z));
  az_retryAt : Time
}.

Record Certificate := {
  crt_URI : string;
  crt_Resource : string;
  crt_Certificate : list byte;
  crt_ExtraCertificates : list (list byte);
  crt_CSR : list byte;
  crt_retryAt : Time
}.

(** Modelled from the spec: the type [nonceSource] of the client's nonce
    pool and its method [AddNonce] are declared in a file of the package
    that is not at hand.  The spec describes the pool as an unordered
    collection of opaque strings on which adding is idempotent: a finite
    set of strings. *)
Definition nonceSource := gset string.

Definition AddNonce (ns : nonceSource) (n : string) : nonceSource := {[ n ]} ∪ ns.

Record AccountInfo := {
  AccountKey : option PrivateKey;
  AgreementURIs : gset string;
  RegistrationURI : string;
  ContactURIs : list string
}.

(** [HTTPClient] is the transport, which lives in the outside world;
    [initOnce] is not used by this file. *)
Record Client := {
  c_AccountInfo : AccountInfo;
  c_DirectoryURL : string;
  c_dir : option directoryInfo;
  c_nonceSource : nonceSource
}.

Definition LELiveURL : string := "https://acme-v01.api.letsencrypt.org/directory".
Definition LEStagingURL : string := "https://acme-staging.api.letsencrypt.org/directory".
Definition DefaultDirectoryURL : string := LEStagingURL.

(** Field updates, written [x.f = v] in Go. *)
Definition set_RegistrationURI (u : string) (c : Client) : Client :=
  {| c_AccountInfo :=
       {| AccountKey := AccountKey (c_AccountInfo c);
          AgreementURIs := AgreementURIs (c_AccountInfo c);
          RegistrationURI := u;
          ContactURIs := ContactURIs (c_AccountInfo c) |};
     c_DirectoryURL := c_DirectoryURL c;
     c_dir := c_dir c;
     c_nonceSource := c_nonceSource c |}.

Definition set_DirectoryURL (u : string) (c : Client) : Client :=
  {| c_AccountInfo := c_AccountInfo c;
     c_DirectoryURL := u;
     c_dir := c_dir c;
     c_nonceSource := c_nonceSource c |}.

Definition set_dir (d : option directoryInfo) (c : Client) : Client :=
  {| c_AccountInfo := c_AccountInfo c;
     c_DirectoryURL := c_DirectoryURL c;
     c_dir := d;
     c_nonceSource := c_nonceSource c |}.

Definition set_nonceSource (ns : nonceSource) (c : Client) : Client :=
  {| c_AccountInfo := c_AccountInfo c;
     c_DirectoryURL := c_DirectoryURL c;
     c_dir := c_dir c;
     c_nonceSource := ns |}.

Definition set_ri_AgreementURI (u : string) (r : regInfo) : regInfo :=
  {| ri_Resource := ri_Resource r;
     ri_Contact := ri_Contact r;
     ri_Key := ri_Key r;
     ri_AgreementURI := u;
     ri_AuthorizationsURI := ri_AuthorizationsURI r;
     ri_CertificatesURI := ri_CertificatesURI r |}.

Definition set_az_URI (u : string) (az : Authorization) : Authorization :=
  {| az_URI := u;
     az_Resource := az_Resource az;
     az_Identifier := az_Identifier az;
     az_Status := az_Status az;
     az_Expires := az_Expires az;
     az_Challenges := az_Challenges az;
     az_Combinations := az_Combinations az;
     az_retryAt := az_retryAt az |}.

Definition set_az_Combinations (cs : option (list (list Z))) (az : Authorization)
  : Authorization :=
  {| az_URI := az_URI az;
     az_Resource := az_Resource az;
     az_Identifier := az_Identifier az;
     az_Status := az_Status az;
     az_Expires := az_Expires az;
     az_Challenges := az_Challenges az;
     az_Combinations := cs;
     az_retryAt := az_retryAt az |}.

Definition set_az_retryAt (t : Time) (az : Authorization) : Authorization :=
  {| az_URI := az_URI az;
     az_Resource := az_Resource az;
     az_Identifier := az_Identifier az;
     az_Status := az_Status az;
     az_Expires := az_Expires az;
     az_Challenges := az_Challenges az;
     az_Combinations := az_Combinations az;
     az_retryAt := t |}.

Definition set_ch_retryAt (t : Time) (ch : Challenge) : Challenge :=
  {| ch_URI := ch_URI ch;
     ch_Resource := ch_Resource ch;
     ch_Type := ch_Type ch;
     ch_Status := ch_Status ch;
     ch_Validated := ch_Validated ch;
     ch_Token := ch_Token ch;
     ch_N := ch_N ch;
     ch_Certs := ch_Certs ch;
     ch_retryAt := t |}.

Definition set_crt_URI (u : string) (crt : Certificate) : Certificate :=
  {| crt_URI := u;
     crt_Resource := crt_Resource crt;
     crt_Certificate := crt_Certificate crt;
     crt_ExtraCertificates := crt_ExtraCertificates crt;
     crt_CSR := crt_CSR crt;
     crt_retryAt := crt_retryAt crt |}.

Definition set_crt_Certificate (der : list byte) (crt : Certificate) : Certificate :=
  {| crt_URI := crt_URI crt;
     crt_Resource := crt_Resource crt;
     crt_Certificate := der;
     crt_ExtraCertificates := crt_ExtraCertificates crt;
     crt_CSR := crt_CSR crt;
     crt_retryAt := crt_retryAt crt |}.

Definition set_crt_ExtraCertificates (ders : list (list byte)) (crt : Certificate)
  : Certificate :=
  {| crt_URI := crt_URI crt;
     crt_Resource := crt_Resource crt;
     crt_Certificate := crt_Certificate crt;
     crt_ExtraCertificates := ders;
     crt_CSR := crt_CSR crt;
     crt_retryAt := crt_retryAt crt |}.

Definition set_crt_retryAt (t : Time) (crt : Certificate) : Certificate :=
  {| crt_URI := crt_URI crt;
     crt_Resource := crt_Resource crt;
     crt_Certificate := crt_Certificate crt;
     crt_ExtraCertificates := crt_ExtraCertificates crt;
     crt_CSR := crt_CSR crt;
     crt_retryAt := t |}.

(** The values this package hands to [json.Marshal]. *)
Inductive Payload :=
| P_regInfo (ri : regInfo)
| P_Authorization (az : Authorization)
| P_Certificate (crt : Certificate)
| P_revokeReq (rq : revokeReq)
| P_RawMessage (m : list byte).

(** ** What [encoding/json] finds in an authorization document

    A member of a JSON object is absent, [null], or has a value.  Decoding
    into an existing struct leaves the fields of absent members alone;
    [null] is a no-op for a string or a struct and makes a slice nil; an
    array makes a new, non-nil slice, also when the array is empty. *)

Inductive JField (A : Type) :=
| JAbsent
| JNull
| JValue (a : A).

Arguments JAbsent {A}.
Arguments JNull {A}.
Arguments JValue {A} a.

(** The members of the document that have a field in [Authorization]
    ([URI] has the tag [json:"-"] and [retryAt] is not exported).  The
    challenge objects are given as decoding leaves them. *)
Record AuthorizationJSON := {
  j_resource : option string;
  j_identifier_type : option string;
  j_identifier_value : option string;
  j_status : option Status;
  j_expires : option Time;
  j_challenges : JField (list (option Challenge));
  j_combinations : JField (list (list Z))
}.

Definition decode_into_Authorization (j : AuthorizationJSON) (az : Authorization)
  : Authorization :=
  {| az_URI := az_URI az;
     az_Resource := default (az_Resource az) (j_resource j);
     az_Identifier :=
       {| id_Type := default (id_Type (az_Identifier az)) (j_identifier_type j);
          id_Value := default (id_Value (az_Identifier az)) (j_identifier_value j) |};
     az_Status := default (az_Status az) (j_status j);
     az_Expires := default (az_Expires az) (j_expires j);
     az_Challenges :=
       match j_challenges j with
       | JAbsent => az_Challenges az
       | JNull => []
       | JValue l => l
       end;
     az_Combinations :=
       match j_combinations j with
       | JAbsent => az_Combinations az
       | JNull => None
       | JValue l => Some l
       end;
     az_retryAt := az_retryAt az |}.

(** ** Contexts

    A [context.Context] as the package uses it: the instant from which
    [<-ctx.Done()] is ready ([None]: never) and the error [ctx.Err()]
    reports from then on. *)
Record Context := {
  Done_at : option Time;
  Err : Error
}.

Definition cancelled (ctx : Context) (now : Time) : bool :=
  match Done_at ctx with
  | Some d => d <=? now
  | None => false
  end.

(** ** The environment of the package

    The libraries the package calls and the world it runs in.  A theorem
    about the package holds for every environment.

    - [World] is the state of everything outside the process: the servers,
      the network, the clock.
    - [ctxhttp_Do ctx req w] is [ctxhttp.Do(ctx, c.HTTPClient, req)]: the
      response or the transport's error (which includes a cancelled
      context), and the world afterwards.
    - [jose_NewSigner] and [jose_Sign] are [jose.NewSigner(kalg, key)] and
      [signer.Sign(b)] followed by [sig.FullSerialize()]; signing takes a
      nonce from the client's nonce source, which may ask the server for
      one.
    - [json_Decode_T body x] is [json.NewDecoder(body).Decode(&x)]: the
      error, if any, and what is left in [x].  For an [Authorization] the
      result is given as the members found in the document, see
      [decode_into_Authorization]; a failed decode leaves any value.
    - [url_Parse], [url_Scheme], [url_ResolveReference] and [url_String]
      are [url.Parse] ([None] when it returns an error), the field
      [Scheme] and the methods [ResolveReference] and [String] of a
      parsed URL; [link_ParseResponse] is [link.ParseResponse], the links
      of a response by their [rel].
    - [time_Now w] is what [time.Now()] returns in the world [w];
      [time_Parse] is [time.Parse]; [after_wait t w] is the world at the
      instant [t] at which a blocked [select] wakes up.
    - [TestingNoTLS] is the package variable of that name, which the
      package only reads. *)

Record Link := {
  link_URI : string;
  link_Rel : string
}.

Class Env := {
  World : Type;
  TestingNoTLS : bool;
  url_URL : Type;
  url_Parse : string -> option url_URL;
  url_Scheme : url_URL -> string;
  url_ResolveReference : url_URL -> url_URL -> url_URL;
  url_String : url_URL -> string;
  link_ParseResponse : Response -> gmap string Link;
  json_Unmarshal_string : list byte -> Error + string;
  json_Marshal : Payload -> Error + list byte;
  json_Decode_directoryInfo :
    string + list byte -> option directoryInfo -> option Error * option directoryInfo;
  json_Decode_regInfo :
    string + list byte -> option regInfo -> option Error * option regInfo;
  json_Decode_Challenge :
    string + list byte -> Challenge -> option Error * Challenge;
  json_Authorization :
    string + list byte -> Authorization -> Error * Authorization + AuthorizationJSON;
  jose_NewSigner : SignatureAlgorithm -> PrivateKey -> option Error;
  jose_Sign :
    SignatureAlgorithm -> PrivateKey -> list byte -> nonceSource -> World ->
    (Error + string) * nonceSource * World;
  ctxhttp_Do : Context -> Request -> World -> (Error + Response) * World;
  time_Now : World -> Time;
  time_Parse : string -> string -> Error + Time;
  after_wait : Time -> World -> World
}.

Section Package.

Context {env : Env}.

(** [func (s *Status) UnmarshalJSON(data []byte) error]: the error and the
    value of [*s] afterwards. *)
Definition UnmarshalJSON (s : Status) (data : list byte) : option Error * Status :=
  match json_Unmarshal_string data with
  | inl err => (Some err, s)
  | inr ss =>
      if negb (Valid ss) then (Some (ErrNotValidStatus ss), s)
      else (None, ss)
  end.

(** [func parseRetryAfter(h http.Header) (t time.Time, ok bool)]; [now] is
    what [time.Now()] returns. *)
Definition parseRetryAfter (now : Time) (h : http.Header) : Time * bool :=
  let v := http.Get h "Retry-After" in
  if Go.streq v "" then (time.zero, false)
  else
    match strconv.ParseUint v 10 31 with
    | inl _ =>
        match time_Parse time.RFC1123 v with
        | inl _ => (time.zero, false)
        | inr t => (t, true)
        end
    | inr n => (time.Add now (time.seconds n), true)
    end.

(** [func retryAtDefault(h http.Header, d time.Duration) time.Time] *)
Definition retryAtDefault (now : Time) (h : http.Header) (d : time.Duration) : Time :=
  let '(t, ok) := parseRetryAfter now h in
  if ok then t else time.Add now d.

(** [func ValidURL(u string) bool] *)
Definition ValidURL (u : string) : bool :=
  match url_Parse u with
  | None => false
  | Some ur =>
      Go.streq (url_Scheme ur) "https"
      || (TestingNoTLS && Go.streq (url_Scheme ur) "http")
  end.

(** *** The state threaded through the methods of [*Client]

    [st_sent] lists the requests that [doReqEx] has handed to
    [ctxhttp.Do], oldest first.  Whatever the nonce source of the signer
    does on the network while a payload is signed is not in this list: it
    happens inside [jose_Sign] and shows in the world only. *)
Record St := {
  st_client : Client;
  st_world : World;
  st_sent : list Request
}.

Definition with_client (f : Client -> Client) (s : St) : St :=
  {| st_client := f (st_client s); st_world := st_world s; st_sent := st_sent s |}.

(** How a call ends: it returns [a] in state [s], it panics (a nil
    pointer is dereferenced), or the model's loop budget is used up. *)
Inductive Outcome (A : Type) :=
| Done (a : A) (s : St)
| Panicked
| OutOfFuel.

Arguments Done {A} a s.
Arguments Panicked {A}.
Arguments OutOfFuel {A}.

Definition M (A : Type) : Type := St -> Outcome A.

Definition ret {A} (a : A) : M A := fun s => Done a s.

Definition panic {A} : M A := fun _ => Panicked.

Definition bind {A B} (m : M A) (k : A -> M B) : M B := fun s =>
  match m s with
  | Done a s' => k a s'
  | Panicked => Panicked
  | OutOfFuel => OutOfFuel
  end.

(** [c] itself, and an assignment to one of its fields. *)
Definition get_client : M Client := fun s => Done (st_client s) s.

Definition modify_client (f : Client -> Client) : M unit := fun s =>
  Done tt (with_client f s).

(** [time.Now()] *)
Definition Now : M Time := fun s => Done (time_Now (st_world s)) s.

Notation "'let*' x := m 'in' k" := (bind m (fun x => k))
  (at level 10, x name, m at level 100, k at level 200, only parsing).

Notation "'let*' ' p := m 'in' k" := (bind m (fun x => match x with p => k end))
  (at level 10, p pattern, m at level 100, k at level 200, only parsing).

(** The target [r] of [doReqEx]: how to decode a body into a [T]. *)
Definition Decoder (T : Type) : Type :=
  string + list byte -> T -> option Error * T.

Definition decode_Authorization : Decoder Authorization := fun body az =>
  match json_Authorization body az with
  | inl (err, az') => (Some err, az')
  | inr j => (None, decode_into_Authorization j az)
  end.

(** [func newHTTPError(res *http.Response) error] *)
Definition newHTTPError (res : Response) : Error :=
  httpError res
    (if Go.streq (http.Get (http.Header_ res) "Content-Type") "application/problem+json"
     then match ReadAll res with
          | (b, None) => b
          | (_, Some _) => []
          end
     else []).

(** *** [doReqEx], in the order of the source *)

(** Lines 285 to 287: the test-mode rewrite of the URL. *)
Definition rewriteURL (url : string) : string :=
  if TestingNoTLS && String.prefix "https:" url
  then "http" ++ String.substring 5 (String.length url - 5) url
  else url.

(** Lines 298 to 329: marshal and sign the payload [v] with [key].  The
    signer takes its nonce from the nonce source of the client; what the
    nonce source does to get one happens inside [jose_Sign], in the
    world. *)
Definition signBody (key : option PrivateKey) (v : Payload) : M (Error + string) :=
  fun s =>
  match json_Marshal v with
  | inl err => Done (inl err) s
  | inr b =>
      match key with
      | None => Done (inl ErrAccountKey) s
      | Some k =>
          match algorithmFromKey key with
          | Panics => Panicked
          | Returns (_, Some err) => Done (inl err) s
          | Returns (kalg, None) =>
              match jose_NewSigner kalg k with
              | Some err => Done (inl err) s
              | None =>
                  let '(sig, ns, w) :=
                    jose_Sign kalg k b (c_nonceSource (st_client s)) (st_world s) in
                  Done sig {| st_client := set_nonceSource ns (st_client s);
                              st_world := w;
                              st_sent := st_sent s |}
              end
          end
      end
  end.

(** Lines 332 to 341: the request.  [http.NewRequest] cannot fail here:
    the URL has been parsed by [ValidURL] and the method is a literal. *)
Definition NewRequest (method url : string) (rdr : option string) : Request :=
  let h := http.Set_ (http.Set_ ∅ "User-Agent" "acmetool") "Accept" "application/json" in
  {| http.Method := method;
     http.URL := url;
     http.ReqHeader :=
       if Go.streq method "POST" then http.Set_ h "Content-Type" "application/json" else h;
     http.ReqBody := rdr |}.

(** Lines 350 to 352: keep the nonce of the response. *)
Definition keepNonce (res : Response) (c : Client) : Client :=
  let n := http.Get (http.Header_ res) "Replay-Nonce" in
  if negb (Go.streq n "") then set_nonceSource (AddNonce (c_nonceSource c) n) c else c.

(** Lines 354 to 371: the status code and the body. *)
Definition handleResponse {T} (r : option (Decoder T)) (tgt : T) (res : Response)
  : option Response * option Error * T :=
  if (400 <=? http.StatusCode res) && (http.StatusCode res <? 600)
  then (Some res, Some (newHTTPError res), tgt)
  else
    match r with
    | Some dec =>
        let ct := http.Get (http.Header_ res) "Content-Type" in
        if negb (Go.streq ct "application/json")
        then (Some res, Some (ErrUnexpectedContentType ct), tgt)
        else
          match dec (http.Body res) tgt with
          | (Some err, tgt') => (None, Some err, tgt')
          | (None, tgt') => (Some res, None, tgt')
          end
    | None => (Some res, None, tgt)
    end.

(** [func (c *Client) doReqEx(method, url string, key crypto.PrivateKey, v, r interface{}, ctx context.Context) (res, err)].
    [v] is [None] for a nil payload; [r] is [None] for a nil target, and
    the call returns what it leaves in the target, which starts as [tgt]. *)
Definition doReqEx {T} (method url : string) (key : option PrivateKey)
    (v : option Payload) (r : option (Decoder T)) (tgt : T) (ctx : Context)
  : M (option Response * option Error * T) := fun s =>
  let url := rewriteURL url in
  if negb (ValidURL url) then Done (None, Some (ErrInvalidURL url), tgt) s
  else
    let key :=
      match key with
      | None => AccountKey (c_AccountInfo (st_client s))
      | Some _ => key
      end in
    let signed : Outcome (Error + option string) :=
      match v with
      | None => Done (inr None) s
      | Some v =>
          match signBody key v s with
          | Done (inl err) s1 => Done (inl err) s1
          | Done (inr jws) s1 => Done (inr (Some jws)) s1
          | Panicked => Panicked
          | OutOfFuel => OutOfFuel
          end
      end in
    match signed with
    | Done (inl err) s1 => Done (None, Some err, tgt) s1
    | Done (inr rdr) s1 =>
        let req := NewRequest method url rdr in
        let '(res, w) := ctxhttp_Do ctx req (st_world s1) in
        let s2 := {| st_client := st_client s1;
                     st_world := w;
                     st_sent := st_sent s1 ++ [req] |} in
        match res with
        | inl err => Done (None, Some err, tgt) s2
        | inr res => Done (handleResponse r tgt res) (with_client (keepNonce res) s2)
        end
    | Panicked => Panicked
    | OutOfFuel => OutOfFuel
    end.

(** [func (c *Client) doReq(method, url string, v, r interface{}, ctx context.Context) (res, err)] *)
Definition doReq {T} (method url : string) (v : option Payload)
    (r : option (Decoder T)) (tgt : T) (ctx : Context)
  : M (option Response * option Error * T) :=
  doReqEx method url None v r tgt ctx.

(** *** The directory *)

(** [func (c *Client) getDirectory(ctx context.Context) (dir, err)].
    The decoder writes through [&c.dir]; reading [c.dir.NewReg] panics
    when the document was [null] and left [c.dir] nil. *)
Definition getDirectory (ctx : Context) : M (option directoryInfo * option Error) :=
  let* c := get_client in
  match c_dir c with
  | Some di => ret (Some di, None)
  | None =>
      let* _ :=
        if Go.streq (c_DirectoryURL c) ""
        then modify_client (set_DirectoryURL DefaultDirectoryURL)
        else ret tt in
      let* c := get_client in
      let* '(_, err, d) :=
        doReq "GET" (c_DirectoryURL c) None (Some json_Decode_directoryInfo) (c_dir c) ctx in
      let* _ := modify_client (set_dir d) in
      match err with
      | Some e => ret (None, Some e)
      | None =>
          match d with
          | None => panic
          | Some di =>
              if negb (ValidURL (NewReg di)) || negb (ValidURL (NewAuthz di))
                 || negb (ValidURL (NewCert di))
              then
                let* _ := modify_client (set_dir None) in
                ret (None, Some ErrDirectory)
              else ret (Some di, None)
          end
      end
  end.

(** *** Registration *)

Definition new_reg (c : Client) : regInfo :=
  {| ri_Resource := "new-reg";
     ri_Contact := ContactURIs (c_AccountInfo c);
     ri_Key := None;
     ri_AgreementURI := "";
     ri_AuthorizationsURI := "";
     ri_CertificatesURI := "" |}.

Definition reg (c : Client) : regInfo :=
  {| ri_Resource := "reg";
     ri_Contact := ContactURIs (c_AccountInfo c);
     ri_Key := None;
     ri_AgreementURI := "";
     ri_AuthorizationsURI := "";
     ri_CertificatesURI := "" |}.

(** [func (c *Client) getRegistrationURI(ctx context.Context) (string, error)] *)
Definition getRegistrationURI (ctx : Context) : M (string * option Error) :=
  let* c := get_client in
  if negb (Go.streq (RegistrationURI (c_AccountInfo c)) "")
  then ret (RegistrationURI (c_AccountInfo c), None)
  else
    let* '(di, err) := getDirectory ctx in
    match err, di with
    | Some e, _ => ret ("", Some e)
    | None, None => panic
    | None, Some di =>
        let* c := get_client in
        let reqInfo := new_reg c in
        let* '(res, err, _) :=
          doReq "POST" (NewReg di) (Some (P_regInfo reqInfo))
            (Some json_Decode_regInfo) None ctx in
        match res with
        | None => ret ("", err)
        | Some res =>
            if (http.StatusCode res =? 201) || (http.StatusCode res =? 409)
            then
              let loc := http.Get (http.Header_ res) "Location" in
              if negb (ValidURL loc) then ret ("", Some (ErrInvalidURL loc))
              else
                let* _ := modify_client (set_RegistrationURI loc) in
                let* c := get_client in
                ret (RegistrationURI (c_AccountInfo c), None)
            else
              match err with
              | Some e => ret ("", Some e)
              | None => ret ("", Some (ErrUnexpectedStatusCode (http.StatusCode res)))
              end
        end
    end.

(** [func (c *Client) UpsertRegistration(ctx context.Context) error].
    [resInfo] is a pointer the decoder may leave nil; [resInfo.AgreementURI]
    panics then. *)
Definition UpsertRegistration (ctx : Context) : M (option Error) :=
  let* '(regURI, err) := getRegistrationURI ctx in
  match err with
  | Some e => ret (Some e)
  | None =>
      let* c := get_client in
      let reqInfo := reg c in
      let* '(res, err, resInfo) :=
        doReq "POST" regURI (Some (P_regInfo reqInfo))
          (Some json_Decode_regInfo) None ctx in
      match err, res with
      | Some e, _ => ret (Some e)
      | None, None => panic
      | None, Some res =>
          match link_ParseResponse res !! "terms-of-service" with
          | Some tosLink =>
              match resInfo with
              | None => panic
              | Some ri =>
                  if negb (Go.streq (ri_AgreementURI ri) (link_URI tosLink))
                  then
                    let* c := get_client in
                    if negb (bool_decide
                               (link_URI tosLink ∈ AgreementURIs (c_AccountInfo c)))
                    then ret (Some (AgreementError (link_URI tosLink)))
                    else
                      let reqInfo := set_ri_AgreementURI (link_URI tosLink) reqInfo in
                      let* '(_, err, _) :=
                        doReq "POST" regURI (Some (P_regInfo reqInfo))
                          (Some json_Decode_regInfo) resInfo ctx in
                      match err with
                      | Some e => ret (Some e)
                      | None => ret None
                      end
                  else ret None
              end
          | None => ret None
          end
      end
  end.

(** *** Authorizations *)

(** Lines 562 to 565: [for i := 0; i < len(az.Challenges); i++ { is = append(is, i) }],
    with [n] turns of the loop left. *)
Fixpoint indices_loop (n : nat) (i : Z) (is_ : list Z) : list Z :=
  match n with
  | O => is_
  | S n' => indices_loop n' (i + 1) (is_ ++ [i])
  end.

(** Lines 569 to 575: is some index of some combination [>= len]? *)
Definition combination_malformed (len : Z) (c : list Z) : bool :=
  existsb (fun i => len <=? i) c.

Definition combinations_malformed (len : Z) (cs : list (list Z)) : bool :=
  existsb (combination_malformed len) cs.

(** [func (az *Authorization) validate() error]: the error and [*az]
    afterwards.  [append] to the nil [az.Combinations] makes a slice of
    one element. *)
Definition validate (az : Authorization) : option Error * Authorization :=
  if (length (az_Challenges az) =? 0)%nat then (Some ErrNoChallenges, az)
  else
    let az :=
      match az_Combinations az with
      | None =>
          let is_ := indices_loop (length (az_Challenges az)) 0 [] in
          set_az_Combinations (Some [is_]) az
      | Some _ => az
      end in
    if combinations_malformed (Z.of_nat (length (az_Challenges az)))
         (default [] (az_Combinations az))
    then (Some ErrCombinations, az)
    else (None, az).

Definition ten_seconds : time.Duration := 10 * time.Second.

(** [func (c *Client) LoadAuthorization(az *Authorization, ctx context.Context) error]:
    the error and [*az] afterwards. *)
Definition LoadAuthorization (az : Authorization) (ctx : Context)
  : M (option Error * Authorization) :=
  let az := set_az_Combinations None az in
  let* '(res, err, az) := doReq "GET" (az_URI az) None (Some decode_Authorization) az ctx in
  match err, res with
  | Some e, _ => ret (Some e, az)
  | None, None => panic
  | None, Some res =>
      match validate az with
      | (Some e, az) => ret (Some e, az)
      | (None, az) =>
          let* now := Now in
          ret (None, set_az_retryAt (retryAtDefault now (http.Header_ res) ten_seconds) az)
      end
  end.

Definition new_authz (hostname : string) : Authorization :=
  {| az_URI := "";
     az_Resource := "new-authz";
     az_Identifier := {| id_Type := "dns"; id_Value := hostname |};
     az_Status := "";
     az_Expires := time.zero;
     az_Challenges := [];
     az_Combinations := None;
     az_retryAt := time.zero |}.

(** [func (c *Client) NewAuthorization(hostname string, ctx context.Context) (az, err)].
    The same object is the payload and the target of the request. *)
Definition NewAuthorization (hostname : string) (ctx : Context)
  : M (option Authorization * option Error) :=
  let* '(di, err) := getDirectory ctx in
  match err, di with
  | Some e, _ => ret (None, Some e)
  | None, None => panic
  | None, Some di =>
      let az := new_authz hostname in
      let* '(res, err, az) := doReq "POST" (NewAuthz di) (Some (P_Authorization az))
                          (Some decode_Authorization) az ctx in
      match err, res with
      | Some e, _ => ret (None, Some e)
      | None, None => panic
      | None, Some res =>
          let loc := http.Get (http.Header_ res) "Location" in
          if negb (http.StatusCode res =? 201) || negb (ValidURL loc)
          then ret (None, Some (ErrExpected201 res))
          else
            let az := set_az_URI loc az in
            match validate az with
            | (Some e, _) => ret (None, Some e)
            | (None, az) => ret (Some az, None)
            end
      end
  end.

(** *** Challenges *)

(** [func (ch *Challenge) validate() error] *)
Definition Challenge_validate (ch : Challenge) : option Error := None.

(** [func (c *Client) LoadChallenge(ch *Challenge, ctx context.Context) error] *)
Definition LoadChallenge (ch : Challenge) (ctx : Context)
  : M (option Error * Challenge) :=
  let* '(res, err, ch) := doReq "GET" (ch_URI ch) None (Some json_Decode_Challenge) ch ctx in
  match err, res with
  | Some e, _ => ret (Some e, ch)
  | None, None => panic
  | None, Some res =>
      match Challenge_validate ch with
      | Some e => ret (Some e, ch)
      | None =>
          let* now := Now in
          ret (None, set_ch_retryAt (retryAtDefault now (http.Header_ res) ten_seconds) ch)
      end
  end.

(** *** Waiting *)

(** The channel [ch] of [waitUntil]: [closedChannel], from which a receive
    is always ready, or the channel of [time.After], ready from the
    instant the timer fires. *)
Inductive Chan :=
| closedChannel
| time_After (fires : Time).

(** The two nested [select] statements of [waitUntil], run at the instant
    [now] with the channel [ch].  The result is the error returned and,
    when the inner [select] had to block, the instant at which it woke up.
    [pick] is the runtime's choice when both cases of the inner [select]
    become ready at the same instant: [true] takes [<-ctx.Done()]. *)
Definition waitUntil_select (ch : Chan) (ctx : Context) (now : Time) (pick : bool)
  : option Error * option Time :=
  if cancelled ctx now then (Some (Err ctx), None)
  else
    match ch with
    | closedChannel => (None, None)
    | time_After fires =>
        match Done_at ctx with
        | None => (None, Some fires)
        | Some d =>
            if d <? fires then (Some (Err ctx), Some d)
            else if fires <? d then (None, Some fires)
            else if pick then (Some (Err ctx), Some d)
            else (None, Some fires)
        end
    end.

(** [func waitUntil(t time.Time, ctx context.Context) error].  A call that
    blocked leaves the world as it is at the instant of waking up. *)
Definition waitUntil (t : Time) (ctx : Context) (pick : bool) : M (option Error) :=
  let* now := Now in
  let ch :=
    if time.After t now then time_After (time.Add now (time.Sub t now))
    else closedChannel in
  match waitUntil_select ch ctx now pick with
  | (err, None) => ret err
  | (err, Some woke) =>
      fun s =>
      Done err {| st_client := st_client s;
                  st_world := after_wait woke (st_world s);
                  st_sent := st_sent s |}
  end.

(** [func (c *Client) WaitLoadAuthorization(az *Authorization, ctx context.Context) error] *)
Definition WaitLoadAuthorization (az : Authorization) (ctx : Context) (pick : bool)
  : M (option Error * Authorization) :=
  let* err := waitUntil (az_retryAt az) ctx pick in
  match err with
  | Some e => ret (Some e, az)
  | None => LoadAuthorization az ctx
  end.

(** [func (c *Client) WaitLoadChallenge(ch *Challenge, ctx context.Context) error] *)
Definition WaitLoadChallenge (ch : Challenge) (ctx : Context) (pick : bool)
  : M (option Error * Challenge) :=
  let* err := waitUntil (ch_retryAt ch) ctx pick in
  match err with
  | Some e => ret (Some e, ch)
  | None => LoadChallenge ch ctx
  end.

(** *** Certificates *)

(** [func (c *Client) loadExtraCertificates(crt *Certificate, res *http.Response, ctx context.Context) error]:
    one turn of the body of its [for] loop, lines 747 to 779.  The body
    either returns from the function ([inl], with the error and [*crt]) or
    reaches its end with a new [res] and [*crt] ([inr]). *)
Definition loadExtraCertificates_body (crt : Certificate) (res : Response)
    (ctx : Context) : M (option Error * Certificate + Certificate * Response) :=
  match link_ParseResponse res !! "up" with
  | None => ret (inl (None, crt))
  | Some up =>
      match url_Parse (crt_URI crt), url_Parse (link_URI up) with
      | Some crtURI, Some upURI =>
          let upURI := url_ResolveReference crtURI upURI in
          let* '(res, err, _) := doReq "GET" (url_String upURI) None None tt ctx in
          match err, res with
          | Some e, _ => ret (inl (Some e, crt))
          | None, None => panic
          | None, Some res =>
              let ct := http.Get (http.Header_ res) "Content-Type" in
              if negb (Go.streq ct "application/pkix-cert")
              then ret (inl (Some (ErrUpCertificateType ct), crt))
              else
                match ReadAll res with
                | (_, Some e) => ret (inl (Some e, crt))
                | (der, None) =>
                    let crt :=
                      set_crt_ExtraCertificates (crt_ExtraCertificates crt ++ [der]) crt in
                    ret (inr (crt, res))
                end
          end
      | _, _ => ret (inl (Some ErrInvalidUpURI, crt))
      end
  end.

(** The loop [for { ... }] itself.  The source puts no bound on it; the
    model enters the body at most [fuel] times, and [OutOfFuel] stands
    for a loop that is still running then. *)
Fixpoint loadExtraCertificates_loop (fuel : nat) (crt : Certificate) (res : Response)
    (ctx : Context) : M (option Error * Certificate) :=
  match fuel with
  | O => fun _ => OutOfFuel
  | S fuel' =>
      let* turn := loadExtraCertificates_body crt res ctx in
      match turn with
      | inl result => ret result
      | inr (crt, res) => loadExtraCertificates_loop fuel' crt res ctx
      end
  end.

Definition loadExtraCertificates (fuel : nat) (crt : Certificate) (res : Response)
    (ctx : Context) : M (option Error * Certificate) :=
  let crt := set_crt_ExtraCertificates [] crt in
  loadExtraCertificates_loop fuel crt res ctx.

(** [func (c *Client) loadCertificate(crt *Certificate, res *http.Response, ctx context.Context) error] *)
Definition loadCertificate (fuel : nat) (crt : Certificate) (res : Response)
    (ctx : Context) : M (option Error * Certificate) :=
  let ct := http.Get (http.Header_ res) "Content-Type" in
  let set_retryAt (crt : Certificate) : M (option Error * Certificate) :=
    let* now := Now in
    ret (None, set_crt_retryAt (retryAtDefault now (http.Header_ res) ten_seconds) crt) in
  if Go.streq ct "application/pkix-cert" then
    match ReadAll res with
    | (_, Some e) => ret (Some e, crt)
    | (der, None) =>
        let crt := set_crt_Certificate der crt in
        let* '(err, crt) := loadExtraCertificates fuel crt res ctx in
        match err with
        | Some e => ret (Some e, crt)
        | None => set_retryAt crt
        end
    end
  else if http.StatusCode res =? 200 then ret (Some (ErrCertificateType ct), crt)
  else set_retryAt crt.

(** [func (c *Client) LoadCertificate(crt *Certificate, ctx context.Context) error] *)
Definition LoadCertificate (fuel : nat) (crt : Certificate) (ctx : Context)
  : M (option Error * Certificate) :=
  let* '(res, err, _) := doReq "GET" (crt_URI crt) None None tt ctx in
  match err, res with
  | Some e, _ => ret (Some e, crt)
  | None, None => panic
  | None, Some res => loadCertificate fuel crt res ctx
  end.

Definition new_cert (csrDER : list byte) : Certificate :=
  {| crt_URI := "";
     crt_Resource := "new-cert";
     crt_Certificate := [];
     crt_ExtraCertificates := [];
     crt_CSR := csrDER;
     crt_retryAt := time.zero |}.

(** [func (c *Client) RequestCertificate(csrDER []byte, ctx context.Context) (crt, err)] *)
Definition RequestCertificate (fuel : nat) (csrDER : list byte) (ctx : Context)
  : M (option Certificate * option Error) :=
  let* '(di, err) := getDirectory ctx in
  match err, di with
  | Some e, _ => ret (None, Some e)
  | None, None => panic
  | None, Some di =>
      let crt := new_cert csrDER in
      let* '(res, err, _) := doReq "POST" (NewCert di) (Some (P_Certificate crt)) None tt ctx in
      match err, res with
      | Some e, _ => ret (None, Some e)
      | None, None => panic
      | None, Some res =>
          if negb (http.StatusCode res =? 201)
          then ret (None, Some (ErrUnexpectedStatusCode (http.StatusCode res)))
          else
            let loc := http.Get (http.Header_ res) "Location" in
            if negb (ValidURL loc) then ret (None, Some (ErrInvalidURI loc))
            else
              let crt := set_crt_URI loc crt in
              let* '(err, crt) := loadCertificate fuel crt res ctx in
              match err with
              | Some e => ret (None, Some e)
              | None => ret (Some crt, None)
              end
      end
  end.

(** [func (c *Client) WaitLoadCertificate(crt *Certificate, ctx context.Context) error] *)
Definition WaitLoadCertificate (fuel : nat) (crt : Certificate) (ctx : Context)
    (pick : bool) : M (option Error * Certificate) :=
  let* err := waitUntil (crt_retryAt crt) ctx pick in
  match err with
  | Some e => ret (Some e, crt)
  | None => LoadCertificate fuel crt ctx
  end.

(** [func (c *Client) Revoke(certificateDER []byte, revocationKey crypto.PrivateKey, ctx context.Context) error] *)
Definition Revoke (certificateDER : list byte) (revocationKey : option PrivateKey)
    (ctx : Context) : M (option Error) :=
  let* '(di, err) := getDirectory ctx in
  match err, di with
  | Some e, _ => ret (Some e)
  | None, None => panic
  | None, Some di =>
      let req := {| rr_Resource := "revoke-cert"; rr_Certificate := certificateDER |} in
      let* '(_, err, _) :=
        doReqEx "POST" (RevokeCert di) revocationKey (Some (P_revokeReq req)) None tt ctx in
      match err with
      | Some e => ret (Some e)
      | None => ret None
      end
  end.

(** [func (c *Client) WaitForCertificate(crt *Certificate, ctx context.Context) error]:
    the error and [*crt] afterwards.  The [for] loop has no bound in the
    source; the model enters its body at most [fuel] times, and the chain
    walk of every load has the budget [walk].  [picks k] is the choice of
    the runtime in the [k]th wait. *)
Fixpoint WaitForCertificate (fuel walk : nat) (crt : Certificate) (ctx : Context)
    (picks : nat -> bool) : M (option Error * Certificate) :=
  match fuel with
  | O => fun _ => OutOfFuel
  | S fuel' =>
      if (0 <? length (crt_Certificate crt))%nat then ret (None, crt)
      else
        let* '(err, crt) := WaitLoadCertificate walk crt ctx (picks O) in
        match err with
        | Some e => ret (Some e, crt)
        | None => WaitForCertificate fuel' walk crt ctx (fun k => picks (S k))
        end
  end.

(** *** Vocabulary of the properties: what a call does to the state *)

(** A request as [doReqEx] makes them: to a URL that [ValidURL] accepts,
    with the fixed headers, and a Content-Type exactly when it is a POST. *)
Definition well_formed_request (req : Request) : Prop :=
  ValidURL (http.URL req) = true
  /\ http.Get (http.ReqHeader req) "User-Agent" = "acmetool"
  /\ http.Get (http.ReqHeader req) "Accept" = "application/json"
  /\ http.Get (http.ReqHeader req) "Content-Type"
     = (if Go.streq (http.Method req) "POST" then "application/json" else "").

(** The call [m], when it returns, has handed at most [n] requests to
    [ctxhttp.Do], all of them well formed, after those handed over
    before.  This counts the requests of [doReqEx] itself, which are the
    ones this file makes; a request that the nonce source of the signer
    makes while a payload is signed is not in [st_sent] and is not
    counted. *)
Definition dispatches (n : nat) {A} (m : M A) : Prop :=
  forall s a s',
    m s = Done a s' ->
    exists reqs,
      st_sent s' = (st_sent s ++ reqs)%list
      /\ (length reqs <= n)%nat
      /\ Forall well_formed_request reqs.



(** The call [m] never panics. *)
Definition never_panics {A} (m : M A) : Prop :=
  forall s, m s <> Panicked.

(** The state in which [getDirectory] sends its request: the directory
    URL, when empty, has been set to the default. *)
Definition with_default_DirectoryURL (s : St) : St :=
  if Go.streq (c_DirectoryURL (st_client s)) ""
  then with_client (set_DirectoryURL DefaultDirectoryURL) s
  else s.

(** The call [doReqEx method url key (Some v)] in state [s] comes to
    sign with a key that makes [algorithmFromKey] panic: the URL is
    accepted, the payload marshals, and the key in force is an ECDSA key
    without a curve. *)
Definition signing_panics (url : string) (key : option PrivateKey) (v : Payload)
    (s : St) : Prop :=
  ValidURL (rewriteURL url) = true
  /\ (exists b, json_Marshal v = inr b)
  /\ match key with
     | None => AccountKey (c_AccountInfo (st_client s))
     | Some _ => key
     end = Some ecdsa_PrivateKey_without_curve.

(** *** Vocabulary of the properties *)

(** The request of [doReqEx method url key v] in state [s] reaches the
    server and is answered by [res], which leaves the state [s']: the URL
    is accepted, the payload, if any, is signed, and the transport
    returns [res]. *)
Definition round_trip (method url : string) (key : option PrivateKey)
    (v : option Payload) (ctx : Context) (s : St) (res : Response) (s' : St) : Prop :=
  ValidURL (rewriteURL url) = true /\
  exists (rdr : option string) (s1 : St) (w : World),
    match v with
    | None => rdr = None /\ s1 = s
    | Some v =>
        exists jws,
        signBody (match key with
                  | None => AccountKey (c_AccountInfo (st_client s))
                  | Some _ => key
                  end) v s = Done (inr jws) s1
        /\ rdr = Some jws
    end /\
    ctxhttp_Do ctx (NewRequest method (rewriteURL url) rdr) (st_world s1) = (inr res, w) /\
    s' = with_client (keepNonce res)
           {| st_client := st_client s1;
              st_world := w;
              st_sent := st_sent s1 ++ [NewRequest method (rewriteURL url) rdr] |}.

(** One turn of the chain walk leads from a certificate, a response and a
    state to the next ones. *)
Definition walk_step (ctx : Context) (x y : Certificate * Response * St) : Prop :=
  loadExtraCertificates_body x.1.1 x.1.2 ctx x.2 = Done (inr (y.1.1, y.1.2)) y.2.

End Package.

Arguments Done {env A} a s.
Arguments Panicked {env A}.
Arguments OutOfFuel {env A}.

(** ** Vocabulary: authorizations *)

(** The list [0, 1, ..., n-1]. *)
Definition indices (n : nat) : list Z := map Z.of_nat (seq 0 n).

(** The combinations [validate] leaves: those it found, or the one it
    makes up. *)
Definition validated_combinations (az : Authorization) : list (list Z) :=
  match az_Combinations az with
  | None => [indices (length (az_Challenges az))]
  | Some cs => cs
  end.

(** Every index of every combination is below the number of challenges. *)
Definition indices_in_range (az : Authorization) : Prop :=
  forall c i,
    In c (default [] (az_Combinations az)) -> In i c ->
    i < Z.of_nat (length (az_Challenges az)).

(** Some index of some combination is not below the number of challenges. *)
Definition index_too_large (az : Authorization) : Prop :=
  exists c i,
    In c (default [] (az_Combinations az)) /\ In i c
    /\ Z.of_nat (length (az_Challenges az)) <= i.

(** The combinations the server's document asks for, if it has any. *)
Definition server_combinations (j : AuthorizationJSON) : option (list (list Z)) :=
  match j_combinations j with
  | JValue cs => Some cs
  | JAbsent | JNull => None
  end.

(** ** Vocabulary: Retry-After and status values *)

(** The text begins with a minus sign, as a negative number does. *)
Definition negative_number (v : string) : Prop :=
  exists rest, v = String "-"%char rest.

(** The text begins with a letter, as every date in the layout
    [time.RFC1123] does: the layout begins with the name of a day. *)
Definition begins_with_letter (v : string) : Prop :=
  match Go.bytes_of v with
  | b :: _ => 65 <= b <= 90 \/ 97 <= b <= 122
  | [] => False
  end.

(** The six status values, and the three final ones. *)
Definition status_values : list string :=
  ["unknown"; "pending"; "processing"; "valid"; "invalid"; "revoked"].

Definition final_values : list string := ["valid"; "invalid"; "revoked"].

(** ** A small concrete environment

    One environment to run the model in: a clock that stands still, a
    server given as a function of the request and of the number of
    requests it has answered, documents given as tables from bodies to
    decoded values.  It is used to evaluate the definitions on concrete
    inputs. *)

Module Toy.

Definition dq : string := String "034"%char "".

(** A server and the documents it serves. *)
Record Server := {
  tls_off : bool;
  serve : Request -> nat -> Error + Response;
  doc_dir : list byte -> option (option directoryInfo);
  doc_reg : list byte -> option (option regInfo);
  doc_ch : list byte -> option Challenge;
  doc_az : list byte -> option AuthorizationJSON
}.

(** The number of requests answered so far, and the clock. *)
Definition W : Type := nat * Time.

Definition scheme (u : string) : string :=
  if String.prefix "https:" u then "https"
  else if String.prefix "http:" u then "http"
  else "".

Definition has_space (u : string) : bool :=
  existsb (fun c => Ascii.eqb c " "%char) (list_ascii_of_string u).

Definition parse (u : string) : option string :=
  if has_space u then None else Some u.

(** The scheme and host of an absolute URL. *)
Definition origin (u : string) : string :=
  match String.index 0 "://" u with
  | Some i =>
      match String.index (i + 3) "/" u with
      | Some j => String.substring 0 j u
      | None => u
      end
  | None => u
  end.

Definition resolve (base ref : string) : string :=
  if Go.streq (scheme ref) "" then origin base ++ ref else ref.

(** One value of a Link header, [<URI>;rel=<quote>REL<quote>]. *)
Definition parse_link (v : string) : option Link :=
  match v with
  | String "<"%char rest =>
      match String.index 0 ">" rest with
      | Some i =>
          let tail := String.substring (i + 1) (String.length rest - (i + 1)) rest in
          let pre := ";rel=" ++ dq in
          if String.prefix pre tail
          then Some {| link_URI := String.substring 0 i rest;
                       link_Rel := String.substring (String.length pre)
                                     (String.length tail - String.length pre - 1) tail |}
          else None
      | None => None
      end
  | _ => None
  end.

Definition links (res : Response) : gmap string Link :=
  fold_right
    (fun v m => match parse_link v with
                | Some l => <[link_Rel l := l]> m
                | None => m
                end)
    ∅ (default [] (http.Header_ res !! "Link")).

(** A JSON string: the text between two quotes. *)
Definition unquote (data : list byte) : Error + string :=
  let s := string_of_list_byte data in
  if String.prefix dq s && (2 <=? String.length s)%nat
     && Go.streq (String.substring (String.length s - 1) 1 s) dq
  then inr (String.substring 1 (String.length s - 2) s)
  else inl (ErrLib "json: cannot unmarshal into Go value of type string").

Definition marshal (v : Payload) : Error + list byte :=
  match v with
  | P_RawMessage [] => inl (ErrLib "unexpected end of JSON input")
  | P_RawMessage m => inr m
  | _ => inr (list_byte_of_string "{}")
  end.

Definition decode {T} (doc : list byte -> option T) (body : string + list byte) (x : T)
  : option Error * T :=
  match body with
  | inl msg => (Some (ErrLib msg), x)
  | inr b =>
      match doc b with
      | Some y => (None, y)
      | None => (Some (ErrLib "invalid character"), x)
      end
  end.

Definition decode_az (doc : list byte -> option AuthorizationJSON)
    (body : string + list byte) (az : Authorization)
  : Error * Authorization + AuthorizationJSON :=
  match body with
  | inl msg => inl (ErrLib msg, az)
  | inr b =>
      match doc b with
      | Some j => inr j
      | None => inl (ErrLib "invalid character", az)
      end
  end.

(** The first instant of 1970, counted from the zero [Time]. *)
Definition epoch : Time := 62135596800 * 1000000000.

Definition parse_date (layout v : string) : Error + Time :=
  if Go.streq v "Thu, 01 Jan 1970 00:00:00 UTC" then inr epoch
  else inl (ErrLib "parsing time: cannot parse").

Definition transport (sv : Server) (ctx : Context) (req : Request) (w : W)
  : (Error + Response) * W :=
  if cancelled ctx w.2 then (inl (Err ctx), w)
  else (serve sv req w.1, (S w.1, w.2)).

Definition sign (alg : SignatureAlgorithm) (k : PrivateKey) (b : list byte)
    (ns : nonceSource) (w : W) : (Error + string) * nonceSource * W :=
  (inr ("jws." ++ alg), ns, w).

Definition env (sv : Server) : Env :=
  {| World := W;
     TestingNoTLS := tls_off sv;
     url_URL := string;
     url_Parse := parse;
     url_Scheme := scheme;
     url_ResolveReference := resolve;
     url_String := fun u => u;
     link_ParseResponse := links;
     json_Unmarshal_string := unquote;
     json_Marshal := marshal;
     json_Decode_directoryInfo := decode (doc_dir sv);
     json_Decode_regInfo := decode (doc_reg sv);
     json_Decode_Challenge := decode (doc_ch sv);
     json_Authorization := decode_az (doc_az sv);
     jose_NewSigner := fun _ _ => None;
     jose_Sign := sign;
     ctxhttp_Do := transport sv;
     time_Now := fun w => w.2;
     time_Parse := parse_date;
     after_wait := fun t w => (w.1, t) |}.

(** Values to build inputs from. *)
Definition header (kvs : list (string * string)) : http.Header :=
  fold_right (fun kv h => http.Set_ h kv.1 kv.2) ∅ kvs.

Definition response (code : Z) (kvs : list (string * string)) (body : string) : Response :=
  {| http.StatusCode := code;
     http.Header_ := header kvs;
     http.Body := inr (list_byte_of_string body) |}.

Definition link_value (uri rel : string) : string :=
  "<" ++ uri ++ ">;rel=" ++ dq ++ rel ++ dq.

Definition background : Context :=
  {| Done_at := None; Err := ErrLib "context canceled" |}.

Definition cancelled_at (t : Time) : Context :=
  {| Done_at := Some t; Err := ErrLib "context canceled" |}.

Definition directory : directoryInfo :=
  {| NewReg := "https://ca/new-reg";
     RecoverReg := "";
     NewAuthz := "https://ca/new-authz";
     NewCert := "https://ca/new-cert";
     RevokeCert := "https://ca/revoke-cert" |}.

Definition client (key : option PrivateKey) (agreed : list string) (regURI : string)
  : Client :=
  {| c_AccountInfo :=
       {| AccountKey := key;
          AgreementURIs := list_to_set agreed;
          RegistrationURI := regURI;
          ContactURIs := ["mailto:a@b"] |};
     c_DirectoryURL := "https://ca/directory";
     c_dir := Some directory;
     c_nonceSource := ∅ |}.

Definition no_docs {T} : list byte -> option T := fun _ => None.

Definition challenge (uri : string) : Challenge :=
  {| ch_URI := uri;
     ch_Resource := "challenge";
     ch_Type := "http-01";
     ch_Status := "pending";
     ch_Validated := time.zero;
     ch_Token := "t";
     ch_N := 0;
     ch_Certs := [];
     ch_retryAt := time.zero |}.

Definition authorization (uri : string) : Authorization :=
  {| az_URI := uri;
     az_Resource := "authz";
     az_Identifier := {| id_Type := "dns"; id_Value := "example.com" |};
     az_Status := "pending";
     az_Expires := time.zero;
     az_Challenges := [];
     az_Combinations := None;
     az_retryAt := time.zero |}.

Definition certificate (uri : string) : Certificate :=
  {| crt_URI := uri;
     crt_Resource := "new-cert";
     crt_Certificate := [];
     crt_ExtraCertificates := [];
     crt_CSR := [];
     crt_retryAt := time.zero |}.

(** A server that knows nothing: every request is answered 404. *)
Definition nowhere : Server :=
  {| tls_off := false;
     serve := fun _ _ => inr (response 404 [("Content-Type", "text/plain")] "not found");
     doc_dir := no_docs;
     doc_reg := no_docs;
     doc_ch := no_docs;
     doc_az := no_docs |}.

(** The state a run starts in: nothing sent, the clock at [epoch]. *)
Definition start (sv : Server) (c : Client) : St (env := env sv) :=
  @Build_St (env sv) c ((0%nat, epoch) : W) [].

(** A server of authorizations.  A GET is answered with a JSON body that
    names the URL asked for, and the document behind a body is looked up
    by that name: three challenges and no combinations; two challenges
    and the combination [0, 2]; one challenge and an empty array of
    combinations.  A POST creates the first of these. *)
Definition az_doc (chs : list (option Challenge)) (combos : JField (list (list Z)))
  : AuthorizationJSON :=
  {| j_resource := Some "authz";
     j_identifier_type := Some "dns";
     j_identifier_value := Some "example.com";
     j_status := Some "pending";
     j_expires := None;
     j_challenges := JValue chs;
     j_combinations := combos |}.

Definition az_docs (b : list byte) : option AuthorizationJSON :=
  let u := string_of_list_byte b in
  let A := Some (challenge "https://ca/chal/a") in
  let B := Some (challenge "https://ca/chal/b") in
  let C := Some (challenge "https://ca/chal/c") in
  if Go.streq u "https://ca/authz/3" then Some (az_doc [A; B; C] JAbsent)
  else if Go.streq u "https://ca/authz/bad" then Some (az_doc [A; B] (JValue [[0; 2]]))
  else if Go.streq u "https://ca/authz/empty" then Some (az_doc [A] (JValue []))
  else None.

Definition ca : Server :=
  {| tls_off := false;
     serve := fun req _ =>
       if Go.streq (http.Method req) "POST"
       then inr (response 201 [("Content-Type", "application/json");
                               ("Location", "https://ca/authz/9")]
                   "https://ca/authz/3")
       else inr (response 200 [("Content-Type", "application/json")] (http.URL req));
     doc_dir := no_docs;
     doc_reg := no_docs;
     doc_ch := no_docs;
     doc_az := az_docs |}.

(** A server of registrations.  The account key is already registered:
    a POST to new-reg is answered 409 with the account's URL, and a POST
    to that URL with the registration, which has not agreed to anything,
    and a link to the terms of service. *)
Definition registration : regInfo :=
  {| ri_Resource := "reg";
     ri_Contact := ["mailto:a@b"];
     ri_Key := None;
     ri_AgreementURI := "";
     ri_AuthorizationsURI := "";
     ri_CertificatesURI := "" |}.

Definition registrar : Server :=
  {| tls_off := false;
     serve := fun req _ =>
       if Go.streq (http.URL req) "https://ca/new-reg"
       then inr (response 409 [("Content-Type", "application/problem+json");
                               ("Location", "https://ca/acct/1")]
                   "already registered")
       else if Go.streq (http.URL req) "https://ca/acct/1"
       then inr (response 202 [("Content-Type", "application/json");
                               ("Link", link_value "https://ca/tos/v2" "terms-of-service")]
                   "reg")
       else inr (response 404 [("Content-Type", "text/plain")] "not found");
     doc_dir := no_docs;
     doc_reg := fun b =>
       if Go.streq (string_of_list_byte b) "reg" then Some (Some registration) else None;
     doc_ch := no_docs;
     doc_az := no_docs |}.

(** A server of certificates whose [up] links go round in a circle: every
    answer is a certificate with a link up to the URL of the leaf. *)
Definition cert_with_up (up : string) : Response :=
  response 200 [("Content-Type", "application/pkix-cert");
                ("Link", link_value up "up")] "DER".

Definition cyclic : Server :=
  {| tls_off := false;
     serve := fun _ _ => inr (cert_with_up "https://ca/cert/5");
     doc_dir := no_docs;
     doc_reg := no_docs;
     doc_ch := no_docs;
     doc_az := no_docs |}.

(** A server of certificates with a chain of one: a POST issues the leaf
    at [https://ca/cert/5], which has a link up to [/ca/root], which has
    none. *)
Definition chain : Server :=
  {| tls_off := false;
     serve := fun req _ =>
       if Go.streq (http.Method req) "POST"
       then inr (response 201 [("Content-Type", "application/pkix-cert");
                               ("Location", "https://ca/cert/5");
                               ("Link", link_value "/ca/root" "up")] "DER")
       else if Go.streq (http.URL req) "https://ca/cert/5"
       then inr (cert_with_up "/ca/root")
       else inr (response 200 [("Content-Type", "application/pkix-cert")] "ROOT");
     doc_dir := no_docs;
     doc_reg := no_docs;
     doc_ch := no_docs;
     doc_az := no_docs |}.

(** A server of registrations that has not seen the account key: a POST
    to new-reg creates the account, and the account has no terms to
    agree to. *)
Definition fresh_registrar : Server :=
  {| tls_off := false;
     serve := fun req _ =>
       if Go.streq (http.URL req) "https://ca/new-reg"
       then inr (response 201 [("Content-Type", "application/json");
                               ("Location", "https://ca/acct/1")] "reg")
       else inr (response 200 [("Content-Type", "application/json")] "reg");
     doc_dir := no_docs;
     doc_reg := fun b =>
       if Go.streq (string_of_list_byte b) "reg" then Some (Some registration) else None;
     doc_ch := no_docs;
     doc_az := no_docs |}.

(** A server of directories: the default directory URL has the directory
    document, any other URL has the document [null]. *)
Definition directories : Server :=
  {| tls_off := false;
     serve := fun req _ =>
       if Go.streq (http.URL req) DefaultDirectoryURL
       then inr (response 200 [("Content-Type", "application/json")] "dir")
       else inr (response 200 [("Content-Type", "application/json")] "null");
     doc_dir := fun b =>
       if Go.streq (string_of_list_byte b) "dir" then Some (Some directory)
       else if Go.streq (string_of_list_byte b) "null" then Some None
       else None;
     doc_reg := no_docs;
     doc_ch := no_docs;
     doc_az := no_docs |}.

(** A client that has not fetched its directory yet. *)
Definition uncached (key : option PrivateKey) (directoryURL : string) : Client :=
  {| c_AccountInfo :=
       {| AccountKey := key;
          AgreementURIs := ∅;
          RegistrationURI := "";
          ContactURIs := [] |};
     c_DirectoryURL := directoryURL;
     c_dir := None;
     c_nonceSource := ∅ |}.

(** A server of challenges: the challenge behind every URL has been
    validated, and is to be polled again in five seconds. *)
Definition validated : Challenge :=
  {| ch_URI := "https://ca/chal/a";
     ch_Resource := "challenge";
     ch_Type := "http-01";
     ch_Status := "valid";
     ch_Validated := epoch;
     ch_Token := "t";
     ch_N := 0;
     ch_Certs := [];
     ch_retryAt := time.zero |}.

Definition challenges : Server :=
  {| tls_off := false;
     serve := fun _ _ =>
       inr (response 200 [("Content-Type", "application/json"); ("Retry-After", "5")]
              "ch");
     doc_dir := no_docs;
     doc_reg := no_docs;
     doc_ch := fun b =>
       if Go.streq (string_of_list_byte b) "ch" then Some validated else None;
     doc_az := no_docs |}.

(** A server of registrations whose answer to the POST of a new
    registration has the status [code], a Location and a body that is
    announced as JSON and is not. *)
Definition garbled_registrar (code : Z) : Server :=
  {| tls_off := false;
     serve := fun req _ =>
       inr (response code [("Content-Type", "application/json");
                           ("Location", "https://ca/acct/1")] "<html>");
     doc_dir := no_docs;
     doc_reg := no_docs;
     doc_ch := no_docs;
     doc_az := no_docs |}.

End Toy.

(** * Properties *)

(** ** The model on small inputs *)

Example Valid_pending : Valid "pending" = true /\ Final "pending" = false.
Proof. split; reflexivity. Qed.

Example Valid_Pending : Valid "Pending" = false /\ Final "done" = false.
Proof. split; reflexivity. Qed.

Example ParseUint_120 : strconv.ParseUint "120" 10 31 = inr 120.
Proof. reflexivity. Qed.

Example ParseUint_max : strconv.ParseUint "2147483647" 10 31 = inr 2147483647.
Proof. reflexivity. Qed.

Example ParseUint_too_large :
  strconv.ParseUint "2147483648" 10 31 = inl strconv.ErrRange.
Proof. reflexivity. Qed.

Example ParseUint_signs :
  strconv.ParseUint "-5" 10 31 = inl strconv.ErrSyntax
  /\ strconv.ParseUint "+5" 10 31 = inl strconv.ErrSyntax
  /\ strconv.ParseUint "" 10 31 = inl strconv.ErrSyntax
  /\ strconv.ParseUint "1a" 10 31 = inl strconv.ErrSyntax.
Proof. repeat split; reflexivity. Qed.

(** Scenario 3 of the specification: three challenges, no combinations. *)
Example validate_three_challenges :
  let A := Some (Toy.challenge "https://ca/chal/a") in
  let az := decode_into_Authorization (Toy.az_doc [A; A; A] JAbsent)
              (Toy.authorization "https://ca/authz/3") in
  (validate az).1 = None /\ az_Combinations (validate az).2 = Some [[0; 1; 2]].
Proof. split; reflexivity. Qed.

(** Scenario 4: challenges [A, B] and combinations [[0, 2]]. *)
Example validate_malformed_combination :
  let A := Some (Toy.challenge "https://ca/chal/a") in
  let az := decode_into_Authorization (Toy.az_doc [A; A] (JValue [[0; 2]]))
              (Toy.authorization "https://ca/authz/bad") in
  (validate az).1 = Some ErrCombinations.
Proof. reflexivity. Qed.

(** A negative index is not looked for. *)
Example validate_negative_index :
  let A := Some (Toy.challenge "https://ca/chal/a") in
  let az := decode_into_Authorization (Toy.az_doc [A; A] (JValue [[0; -1]]))
              (Toy.authorization "https://ca/authz/neg") in
  (validate az).1 = None.
Proof. reflexivity. Qed.

(** The two selects of [waitUntil] with a timer that fires at 50: a
    context done at 20 wins, a context done at 80 loses, and a context
    done at 50 leaves the choice to the runtime. *)
Example waitUntil_select_timer :
  waitUntil_select (time_After 50) (Toy.cancelled_at 20) 10 false
  = (Some (ErrLib "context canceled"), Some 20)
  /\ waitUntil_select (time_After 50) (Toy.cancelled_at 80) 10 true = (None, Some 50)
  /\ waitUntil_select (time_After 50) (Toy.cancelled_at 50) 10 true
     = (Some (ErrLib "context canceled"), Some 50)
  /\ waitUntil_select (time_After 50) (Toy.cancelled_at 50) 10 false = (None, Some 50)
  /\ waitUntil_select (time_After 50) (Toy.cancelled_at 5) 10 false
     = (Some (ErrLib "context canceled"), None).
Proof. repeat split; reflexivity. Qed.

(** Scenario 1: a new account.  Two requests are sent, the registration
    URI is stored, and the call succeeds. *)
Example UpsertRegistration_new_account :
  let s := Toy.start Toy.fresh_registrar
             (Toy.client (Some (rsa_PrivateKey 1)) [] "") in
  exists s',
    UpsertRegistration (env := Toy.env Toy.fresh_registrar) Toy.background s = Done None s'
    /\ RegistrationURI (c_AccountInfo (st_client s')) = "https://ca/acct/1"
    /\ map http.URL (st_sent s') = ["https://ca/new-reg"; "https://ca/acct/1"].
Proof. eexists. split; [vm_compute; reflexivity | split; reflexivity]. Qed.

(** Scenario 2: terms of service that the client has not accepted, and
    that it has. *)
Example UpsertRegistration_terms :
  let E := Toy.env Toy.registrar in
  let key := Some (rsa_PrivateKey 1) in
  let tos := "https://ca/tos/v2" in
  (exists s',
     UpsertRegistration (env := E) Toy.background
       (Toy.start Toy.registrar (Toy.client key [] ""))
     = Done (Some (AgreementError tos)) s'
     /\ length (st_sent s') = 2%nat) /\
  (exists s',
     UpsertRegistration (env := E) Toy.background
       (Toy.start Toy.registrar (Toy.client key [tos] ""))
     = Done None s'
     /\ length (st_sent s') = 3%nat).
Proof.
  split; eexists; (split; [vm_compute; reflexivity | reflexivity]).
Qed.

(** Scenario 5: the certificate comes with the answer to the request, and
    its chain has one more certificate. *)
Example RequestCertificate_chain :
  let s := Toy.start Toy.chain (Toy.client (Some (rsa_PrivateKey 1)) [] "") in
  exists crt s',
    RequestCertificate (env := Toy.env Toy.chain) 5 [] Toy.background s
    = Done (Some crt, None) s'
    /\ crt_URI crt = "https://ca/cert/5"
    /\ crt_Certificate crt = list_byte_of_string "DER"
    /\ crt_ExtraCertificates crt = [list_byte_of_string "ROOT"]
    /\ map http.URL (st_sent s') = ["https://ca/new-cert"; "https://ca/ca/root"].
Proof.
  eexists _, _. split; [vm_compute; reflexivity | repeat split; reflexivity].
Qed.

(** Scenario 6: revocation signed with the account key. *)
Example Revoke_account_key :
  let s := Toy.start Toy.chain (Toy.client (Some (rsa_PrivateKey 1)) [] "") in
  exists s',
    Revoke (env := Toy.env Toy.chain) (list_byte_of_string "DER") None Toy.background s
    = Done None s'
    /\ map http.ReqBody (st_sent s') = [Some "jws.RS256"].
Proof. eexists. split; [vm_compute; reflexivity | reflexivity]. Qed.

(** The chain walk against a server whose links go round in a circle uses
    up any budget. *)
Example LoadCertificate_circle_50 :
  LoadCertificate (env := Toy.env Toy.cyclic) 50 (Toy.certificate "https://ca/cert/5")
    Toy.background (Toy.start Toy.cyclic (Toy.client None [] ""))
  = OutOfFuel.
Proof. vm_compute. reflexivity. Qed.

(** ** Go strings and numbers *)

Lemma streq_true s t : Go.streq s t = true <-> s = t.
Proof. apply String.eqb_eq. Qed.

Lemma streq_false s t : Go.streq s t = false <-> s <> t.
Proof. apply String.eqb_neq. Qed.

Lemma streq_refl s : Go.streq s s = true.
Proof. apply String.eqb_refl. Qed.

Lemma wrap_u64_small x : 0 <= x < 2 ^ 64 -> Go.wrap_u64 x = x.
Proof. intros Hx. unfold Go.wrap_u64. now apply Z.mod_small. Qed.

Lemma wrap_i64_small x : - 2 ^ 63 <= x < 2 ^ 63 -> Go.wrap_i64 x = x.
Proof. intros Hx. unfold Go.wrap_i64. rewrite Z.mod_small; lia. Qed.

Lemma seconds_31 n : 0 <= n < 2 ^ 31 -> time.seconds n = n * 1000000000.
Proof.
  intros Hn. unfold time.seconds, time.Second. apply wrap_i64_small.
  change (2 ^ 31) with 2147483648 in Hn.
  change (2 ^ 63) with 9223372036854775808. lia.
Qed.

Lemma switch_case_In s cases : switch_case s cases = true <-> In s cases.
Proof.
  induction cases as [|c cases IH]; simpl.
  - split; [discriminate | tauto].
  - destruct (Go.streq s c) eqn:E.
    + apply streq_true in E. subst. tauto.
    + apply streq_false in E. rewrite IH. split; [tauto|].
      intros [Hc|Hin]; [congruence | exact Hin].
Qed.

(** ** strconv.ParseUint reads exactly the decimal numbers below the bound *)

Section ParseUint_facts.

Lemma digit_of_digit d : strconv.is_digit d -> strconv.digit_of d = Some (d - 48).
Proof.
  unfold strconv.is_digit, strconv.digit_of. intros Hd.
  replace (48 <=? d) with true by lia. replace (d <=? 57) with true by lia.
  reflexivity.
Qed.

Lemma digit_of_other d v :
  ~ strconv.is_digit d -> strconv.digit_of d = Some v -> 10 <= v.
Proof.
  unfold strconv.is_digit, strconv.digit_of. intros Hd.
  destruct (48 <=? d) eqn:E1, (d <=? 57) eqn:E2; simpl; try lia;
    destruct (97 <=? d) eqn:E3, (d <=? 122) eqn:E4; simpl;
    try (intros [= <-]; lia);
    destruct (65 <=? d) eqn:E5, (d <=? 90) eqn:E6; simpl;
    try (intros [= <-]; lia); discriminate.
Qed.

Lemma value_from_ge ds : forall a,
  Forall strconv.is_digit ds -> 0 <= a -> a <= strconv.value_from a ds.
Proof.
  induction ds as [|d ds IH]; intros a Hds Ha; simpl.
  - unfold strconv.value_from. simpl. lia.
  - inversion Hds as [|? ? Hd Hds']; subst.
    unfold strconv.value_from in *. simpl.
    unfold strconv.is_digit in Hd.
    specialize (IH (a * 10 + (d - 48)) Hds'). lia.
Qed.

Lemma ParseUint_loop_spec ds : forall n m,
  0 <= n <= (strconv.maxVal 31) ->
  strconv.ParseUint_loop 10 (strconv.cutoff 10) (strconv.maxVal 31) ds n = inr m <->
  Forall strconv.is_digit ds /\ m = strconv.value_from n ds /\ m <= (strconv.maxVal 31).
Proof.
  induction ds as [|d ds IH]; intros n m Hn.
  - simpl. unfold strconv.value_from. simpl. split.
    + intros [= <-]. split; [constructor | lia].
    + intros (_ & -> & _). reflexivity.
  - simpl. destruct (strconv.digit_of d) as [v|] eqn:Hv.
    + destruct (decide (strconv.is_digit d)) as [Hd|Hd].
      * rewrite (digit_of_digit d Hd) in Hv. injection Hv as <-.
        unfold strconv.is_digit in Hd.
        replace (10 <=? d - 48) with false by lia.
        assert (Hcut : (strconv.cutoff 10) = 1844674407370955162) by reflexivity.
        assert (Hmax : (strconv.maxVal 31) = 2147483647) by reflexivity.
        replace ((strconv.cutoff 10) <=? n) with false by lia.
        rewrite (wrap_u64_small (n * 10))
          by (change (2 ^ 64) with 18446744073709551616; lia).
        rewrite (wrap_u64_small (n * 10 + (d - 48)))
          by (change (2 ^ 64) with 18446744073709551616; lia).
        replace (n * 10 + (d - 48) <? n * 10) with false by lia. simpl.
        destruct ((strconv.maxVal 31) <? n * 10 + (d - 48)) eqn:Hover.
        -- split; [discriminate|]. intros (Hds & -> & Hle). exfalso.
           inversion Hds as [|? ? _ Hds']; subst.
           pose proof (value_from_ge ds (n * 10 + (d - 48)) Hds') as Hge.
           unfold strconv.value_from in *. simpl in Hle. lia.
        -- rewrite IH by lia. unfold strconv.value_from. simpl. split.
           ++ intros (Hds & -> & Hle). split; [constructor; assumption | split; [reflexivity | exact Hle]].
           ++ intros (Hds & -> & Hle). inversion Hds; subst. split; [assumption | split; [reflexivity | exact Hle]].
      * pose proof (digit_of_other d v Hd Hv) as Hv10.
        replace (10 <=? v) with true by lia. split; [discriminate|].
        intros (Hds & _). inversion Hds; subst. contradiction.
    + split; [discriminate|]. intros (Hds & _). inversion Hds as [|? ? Hd _]; subst.
      rewrite (digit_of_digit d Hd) in Hv. discriminate.
Qed.

Lemma ParseUint_spec s n :
  strconv.ParseUint s 10 31 = inr n <->
  strconv.decimal s /\ strconv.decimal_value s = n /\ 0 <= n < 2 ^ 31.
Proof.
  unfold strconv.ParseUint, strconv.decimal, strconv.decimal_value.
  destruct (Go.streq s "") eqn:E.
  - apply streq_true in E. split; [discriminate | tauto].
  - apply streq_false in E.
    rewrite ParseUint_loop_spec by (unfold strconv.maxVal; simpl; lia).
    assert (Hmax : (strconv.maxVal 31) = 2147483647) by reflexivity.
    change (2 ^ 31) with 2147483648.
    split.
    + intros (Hds & -> & Hle). split; [tauto|]. split; [reflexivity|].
      pose proof (value_from_ge (Go.bytes_of s) 0 Hds). lia.
    + intros ((_ & Hds) & <- & Hle). split; [assumption|]. split; [reflexivity | lia].
Qed.

End ParseUint_facts.

(** ** Status *)

(** C3: [Status(s).Valid()] is true exactly for the six status values,
    [Final()] is true exactly for "valid", "invalid" and "revoked", and
    unmarshalling a JSON string that is none of the six values fails and
    leaves the target as it was. *)
Theorem Status_valid_final_unmarshal {env : Env} (s : string) :
  (Valid s = true <-> In s status_values) /\
  (Final s = true <-> In s final_values) /\
  (forall (target : Status) (data : list byte),
     json_Unmarshal_string data = inr s ->
     ~ In s status_values ->
     exists err, UnmarshalJSON target data = (Some err, target) /\ Malformed err).
Proof.
  split; [|split].
  - unfold Valid. rewrite <- switch_case_In.
    destruct (switch_case s _); unfold status_values; intuition congruence.
  - unfold Final. rewrite <- switch_case_In.
    destruct (switch_case s _); unfold final_values; intuition congruence.
  - intros target data Hdata Hout. exists (ErrNotValidStatus s).
    unfold UnmarshalJSON. rewrite Hdata.
    destruct (Valid s) eqn:HV; simpl.
    + exfalso. apply Hout. unfold Valid in HV.
      destruct (switch_case s _) eqn:Hsw; [|discriminate].
      now apply switch_case_In in Hsw.
    + split; [reflexivity | exact I].
Qed.

Lemma Status_valid_final_unmarshal_witness :
  let data := list_byte_of_string (Toy.dq ++ "bogus" ++ Toy.dq) in
  json_Unmarshal_string (Env := Toy.env Toy.nowhere) data = inr "bogus" /\
  ~ In "bogus" status_values /\
  exists err,
    UnmarshalJSON (env := Toy.env Toy.nowhere) "pending" data = (Some err, "pending")
    /\ Malformed err.
Proof.
  assert (H1 : json_Unmarshal_string (Env := Toy.env Toy.nowhere)
                 (list_byte_of_string (Toy.dq ++ "bogus" ++ Toy.dq)) = inr "bogus")
    by (vm_compute; reflexivity).
  assert (H2 : ~ In "bogus" status_values)
    by (unfold status_values; simpl; intuition discriminate).
  split; [exact H1 | split; [exact H2 |]].
  exact (proj2 (proj2 (Status_valid_final_unmarshal "bogus")) "pending" _ H1 H2).
Defined.

(** ** Algorithm selection *)

(** C4: the signing algorithm is a function of the key alone: RS256 for an
    RSA key; ES256, ES384, ES512 for an ECDSA key on P-256, P-384, P-521;
    for any other curve and any other type of key, an "unsupported key"
    error and the empty algorithm. *)
Theorem algorithmFromKey_selection :
  (forall d, algorithmFromKey (Some (rsa_PrivateKey d)) = Returns (jose.RS256, None)) /\
  (forall d, algorithmFromKey (Some (ecdsa_PrivateKey "P-256" d)) = Returns (jose.ES256, None)) /\
  (forall d, algorithmFromKey (Some (ecdsa_PrivateKey "P-384" d)) = Returns (jose.ES384, None)) /\
  (forall d, algorithmFromKey (Some (ecdsa_PrivateKey "P-521" d)) = Returns (jose.ES512, None)) /\
  (forall name d,
     name <> "P-256" -> name <> "P-384" -> name <> "P-521" ->
     exists err,
       algorithmFromKey (Some (ecdsa_PrivateKey name d)) = Returns ("", Some err)
       /\ UnsupportedKey err) /\
  (forall T,
     exists err,
       algorithmFromKey (Some (other_PrivateKey T)) = Returns ("", Some err)
       /\ UnsupportedKey err) /\
  (exists err, algorithmFromKey None = Returns ("", Some err) /\ UnsupportedKey err).
Proof.
  repeat split; try reflexivity.
  - intros name d H256 H384 H521. exists (ErrUnsupportedCurve name). simpl.
    apply streq_false in H256, H384, H521. rewrite H256, H384, H521.
    split; [reflexivity | exact I].
  - intros T. exists (ErrUnsupportedKeyType T). split; [reflexivity | exact I].
  - exists (ErrUnsupportedKeyType "<nil>"). split; [reflexivity | exact I].
Qed.

Lemma algorithmFromKey_selection_witness :
  "P-224" <> "P-256" /\ "P-224" <> "P-384" /\ "P-224" <> "P-521" /\
  exists err,
    algorithmFromKey (Some (ecdsa_PrivateKey "P-224" 7)) = Returns ("", Some err)
    /\ UnsupportedKey err.
Proof.
  assert (H1 : "P-224" <> "P-256") by discriminate.
  assert (H2 : "P-224" <> "P-384") by discriminate.
  assert (H3 : "P-224" <> "P-521") by discriminate.
  repeat (split; [assumption|]).
  exact (proj1 (proj2 (proj2 (proj2 (proj2 algorithmFromKey_selection))))
           "P-224" 7 H1 H2 H3).
Defined.

(** ** Retry-After *)

Section RetryAfter_facts.

Context {env : Env}.

Lemma parseRetryAfter_eq now h :
  parseRetryAfter now h =
  let v := http.Get h "Retry-After" in
  if Go.streq v "" then (time.zero, false)
  else match strconv.ParseUint v 10 31 with
       | inl _ => match time_Parse time.RFC1123 v with
                  | inl _ => (time.zero, false)
                  | inr t => (t, true)
                  end
       | inr n => (time.Add now (time.seconds n), true)
       end.
Proof. reflexivity. Qed.

Lemma ParseUint_rejects v :
  ~ (strconv.decimal v /\ strconv.decimal_value v < 2 ^ 31) ->
  exists e, strconv.ParseUint v 10 31 = inl e.
Proof.
  intros Hno. destruct (strconv.ParseUint v 10 31) as [e|n] eqn:E; [eauto|].
  apply ParseUint_spec in E. exfalso. apply Hno. intuition lia.
Qed.

Lemma parseRetryAfter_seconds now h n :
  strconv.decimal (http.Get h "Retry-After") ->
  strconv.decimal_value (http.Get h "Retry-After") = n ->
  n < 2 ^ 31 ->
  parseRetryAfter now h = (now + n * 1000000000, true).
Proof.
  intros Hdec Hval Hlt. rewrite parseRetryAfter_eq. cbv zeta.
  assert (Hn : 0 <= n).
  { subst n. apply (value_from_ge _ 0); [apply Hdec | lia]. }
  destruct Hdec as [Hne Hds]. apply streq_false in Hne. rewrite Hne.
  assert (HP : strconv.ParseUint (http.Get h "Retry-After") 10 31 = inr n).
  { apply ParseUint_spec. apply streq_false in Hne.
    split; [split; assumption | split; [assumption | lia]]. }
  rewrite HP. unfold time.Add. rewrite seconds_31 by lia. reflexivity.
Qed.

Lemma parseRetryAfter_date now h t :
  ~ (strconv.decimal (http.Get h "Retry-After")
     /\ strconv.decimal_value (http.Get h "Retry-After") < 2 ^ 31) ->
  http.Get h "Retry-After" <> "" ->
  time_Parse time.RFC1123 (http.Get h "Retry-After") = inr t ->
  parseRetryAfter now h = (t, true).
Proof.
  intros Hno Hne Ht. rewrite parseRetryAfter_eq. cbv zeta.
  apply streq_false in Hne. rewrite Hne.
  destruct (ParseUint_rejects _ Hno) as [e ->]. rewrite Ht. reflexivity.
Qed.

Lemma parseRetryAfter_absent now h :
  ~ (strconv.decimal (http.Get h "Retry-After")
     /\ strconv.decimal_value (http.Get h "Retry-After") < 2 ^ 31) ->
  (http.Get h "Retry-After" = ""
   \/ exists e, time_Parse time.RFC1123 (http.Get h "Retry-After") = inl e) ->
  parseRetryAfter now h = (time.zero, false).
Proof.
  intros Hno Hor. rewrite parseRetryAfter_eq. cbv zeta.
  destruct (Go.streq (http.Get h "Retry-After") "") eqn:E; [reflexivity|].
  destruct (ParseUint_rejects _ Hno) as [e ->].
  destruct Hor as [Hemp | [e' ->]]; [|reflexivity].
  apply streq_false in E. contradiction.
Qed.

Lemma decimal_not_letter v : strconv.decimal v -> ~ begins_with_letter v.
Proof.
  intros [Hne Hds]. unfold begins_with_letter.
  destruct (Go.bytes_of v) as [|b bs]; [tauto|].
  inversion Hds as [|? ? Hb _]; subst. unfold strconv.is_digit in Hb. lia.
Qed.

Lemma negative_not_letter v : negative_number v -> ~ begins_with_letter v.
Proof.
  intros [rest ->]. unfold begins_with_letter. simpl. lia.
Qed.

Lemma negative_not_decimal v : negative_number v -> ~ strconv.decimal v.
Proof.
  intros [rest ->] [_ Hds]. simpl in Hds.
  inversion Hds as [|? ? Hb _]; subst. unfold strconv.is_digit in Hb. simpl in Hb. lia.
Qed.

End RetryAfter_facts.

(** C5: a Retry-After value that is a decimal number [n] of seconds below
    2^31 gives [now + n] seconds; otherwise a value that [time.Parse]
    reads in the layout RFC 1123 gives that instant; every other value is
    treated as absent, and [retryAtDefault] then gives [now] plus the
    default.  Negative numbers and numbers from 2^31 on are among the
    absent ones, since a date in that layout begins with a letter. *)
Theorem parseRetryAfter_forms {env : Env} (now : Time) (h : http.Header)
    (d : time.Duration) :
  let v := http.Get h "Retry-After" in
  (forall n,
     strconv.decimal v -> strconv.decimal_value v = n -> n < 2 ^ 31 ->
     0 <= n /\
     parseRetryAfter now h = (now + n * 1000000000, true) /\
     retryAtDefault now h d = now + n * 1000000000) /\
  (forall t,
     ~ (strconv.decimal v /\ strconv.decimal_value v < 2 ^ 31) ->
     v <> "" ->
     time_Parse time.RFC1123 v = inr t ->
     parseRetryAfter now h = (t, true) /\ retryAtDefault now h d = t) /\
  (~ (strconv.decimal v /\ strconv.decimal_value v < 2 ^ 31) ->
   (v = "" \/ exists e, time_Parse time.RFC1123 v = inl e) ->
   parseRetryAfter now h = (time.zero, false) /\
   retryAtDefault now h d = now + d) /\
  ((forall u t, time_Parse time.RFC1123 u = inr t -> begins_with_letter u) ->
   (negative_number v \/ (strconv.decimal v /\ 2 ^ 31 <= strconv.decimal_value v)) ->
   parseRetryAfter now h = (time.zero, false) /\
   retryAtDefault now h d = now + d).
Proof.
  cbv zeta. split; [|split; [|split]].
  - intros n Hdec Hval Hlt.
    split; [subst n; apply (value_from_ge _ 0); [apply Hdec | lia]|].
    unfold retryAtDefault. rewrite (parseRetryAfter_seconds now h n Hdec Hval Hlt).
    split; reflexivity.
  - intros t Hno Hne Ht.
    unfold retryAtDefault. rewrite (parseRetryAfter_date now h t Hno Hne Ht).
    split; reflexivity.
  - intros Hno Hrej.
    unfold retryAtDefault. rewrite (parseRetryAfter_absent now h Hno Hrej).
    split; reflexivity.
  - intros Hdate Hform.
    assert (Hno : ~ (strconv.decimal (http.Get h "Retry-After")
                     /\ strconv.decimal_value (http.Get h "Retry-After") < 2 ^ 31)).
    { destruct Hform as [Hneg | [Hdec Hbig]]; [|lia].
      intros [Hdec _]. now apply (negative_not_decimal _ Hneg). }
    assert (Hrej : http.Get h "Retry-After" = ""
                   \/ exists e, time_Parse time.RFC1123 (http.Get h "Retry-After") = inl e).
    { destruct (time_Parse time.RFC1123 (http.Get h "Retry-After")) as [e|t] eqn:E;
        [right; eauto|].
      exfalso. apply Hdate in E.
      destruct Hform as [Hneg | [Hdec _]];
        [now apply (negative_not_letter _ Hneg) | now apply (decimal_not_letter _ Hdec)]. }
    unfold retryAtDefault. rewrite (parseRetryAfter_absent now h Hno Hrej).
    split; reflexivity.
Qed.

Lemma parseRetryAfter_forms_witness :
  let E := Toy.env Toy.nowhere in
  let now : Time := 1000 in
  let d : time.Duration := 10 * time.Second in
  let h1 := Toy.header [("Retry-After", "120")] in
  let h2 := Toy.header [("Retry-After", "Thu, 01 Jan 1970 00:00:00 UTC")] in
  let h3 := Toy.header [("Retry-After", "soon")] in
  let h4 := Toy.header [("Retry-After", "2147483648")] in
  (strconv.decimal "120" /\ strconv.decimal_value "120" = 120 /\ 120 < 2 ^ 31 /\
   parseRetryAfter (env := E) now h1 = (now + 120 * 1000000000, true)) /\
  (~ (strconv.decimal "Thu, 01 Jan 1970 00:00:00 UTC"
      /\ strconv.decimal_value "Thu, 01 Jan 1970 00:00:00 UTC" < 2 ^ 31) /\
   parseRetryAfter (env := E) now h2 = (Toy.epoch, true)) /\
  (~ (strconv.decimal "soon" /\ strconv.decimal_value "soon" < 2 ^ 31) /\
   retryAtDefault (env := E) now h3 d = now + d) /\
  ((forall u t, time_Parse (Env := E) time.RFC1123 u = inr t -> begins_with_letter u) /\
   strconv.decimal "2147483648" /\ 2 ^ 31 <= strconv.decimal_value "2147483648" /\
   retryAtDefault (env := E) now h4 d = now + d).
Proof.
  intros E now d h1 h2 h3 h4.
  assert (D1 : strconv.decimal "120").
  { split; [discriminate|]. repeat constructor; unfold strconv.is_digit; simpl; lia. }
  assert (D2 : ~ (strconv.decimal "Thu, 01 Jan 1970 00:00:00 UTC"
                  /\ strconv.decimal_value "Thu, 01 Jan 1970 00:00:00 UTC" < 2 ^ 31)).
  { intros [[_ Hds] _]. inversion Hds as [|? ? Hb _]. unfold strconv.is_digit in Hb.
    simpl in Hb. lia. }
  assert (D3 : ~ (strconv.decimal "soon" /\ strconv.decimal_value "soon" < 2 ^ 31)).
  { intros [[_ Hds] _]. inversion Hds as [|? ? Hb _]. unfold strconv.is_digit in Hb.
    simpl in Hb. lia. }
  assert (D4 : strconv.decimal "2147483648").
  { split; [discriminate|]. repeat constructor; unfold strconv.is_digit; simpl; lia. }
  assert (L : forall u t, time_Parse (Env := E) time.RFC1123 u = inr t -> begins_with_letter u).
  { intros u t. simpl. unfold Toy.parse_date.
    destruct (Go.streq u "Thu, 01 Jan 1970 00:00:00 UTC") eqn:Eu; [|discriminate].
    apply streq_true in Eu. subst u. intros _. unfold begins_with_letter. simpl. lia. }
  split; [|split; [|split]].
  - split; [exact D1|]. split; [reflexivity|]. split; [reflexivity|].
    exact (proj1 (proj2 (proj1 (parseRetryAfter_forms (env := E) now h1 d) 120 D1
                           eq_refl eq_refl))).
  - split; [exact D2|].
    refine (proj1 (proj1 (proj2 (parseRetryAfter_forms (env := E) now h2 d))
                     Toy.epoch D2 _ eq_refl)).
    discriminate.
  - split; [exact D3|].
    refine (proj2 (proj1 (proj2 (proj2 (parseRetryAfter_forms (env := E) now h3 d)))
                     D3 _)).
    right. eexists. reflexivity.
  - split; [exact L|]. split; [exact D4|]. split; [discriminate|].
    refine (proj2 (proj2 (proj2 (proj2 (parseRetryAfter_forms (env := E) now h4 d)))
                     L _)).
    right. split; [exact D4 | discriminate].
Defined.

(** ** The transactor *)

Section doReqEx_facts.

Context {env : Env}.

Lemma handleResponse_error_status {T} (r : option (Decoder T)) tgt res :
  400 <= http.StatusCode res < 600 ->
  handleResponse r tgt res = (Some res, Some (newHTTPError res), tgt).
Proof.
  intros Hs. unfold handleResponse.
  replace (400 <=? http.StatusCode res) with true by lia.
  replace (http.StatusCode res <? 600) with true by lia. reflexivity.
Qed.

Lemma handleResponse_no_target {T} (tgt : T) res :
  ~ 400 <= http.StatusCode res < 600 ->
  handleResponse None tgt res = (Some res, None, tgt).
Proof.
  intros Hs. unfold handleResponse.
  destruct (400 <=? http.StatusCode res) eqn:E1;
    destruct (http.StatusCode res <? 600) eqn:E2; simpl; try reflexivity.
  exfalso. apply Hs. lia.
Qed.

(** A nil error comes with the response, a good status and, when there
    is a target, a JSON body decoded into it. *)
Lemma handleResponse_ok {T} (r : option (Decoder T)) tgt res ores tgt' :
  handleResponse r tgt res = (ores, None, tgt') ->
  ores = Some res /\ ~ 400 <= http.StatusCode res < 600 /\
  match r with
  | None => tgt' = tgt
  | Some dec =>
      http.Get (http.Header_ res) "Content-Type" = "application/json"
      /\ dec (http.Body res) tgt = (None, tgt')
  end.
Proof.
  unfold handleResponse.
  destruct ((400 <=? http.StatusCode res) && (http.StatusCode res <? 600)) eqn:Es;
    [discriminate|].
  assert (Hs : ~ 400 <= http.StatusCode res < 600).
  { intros Hs. apply andb_false_iff in Es. destruct Es; lia. }
  destruct r as [dec|].
  - destruct (Go.streq _ "application/json") eqn:Ect; simpl; [|discriminate].
    apply streq_true in Ect.
    destruct (dec (http.Body res) tgt) as [[e|] t'] eqn:Ed; [discriminate|].
    intros [= <- <-]. auto.
  - intros [= <- <-]. auto.
Qed.

(** The response handed back is the one received. *)
Lemma handleResponse_same {T} (r : option (Decoder T)) tgt res res' err tgt' :
  handleResponse r tgt res = (Some res', err, tgt') -> res' = res.
Proof.
  unfold handleResponse.
  destruct ((400 <=? http.StatusCode res) && (http.StatusCode res <? 600));
    [now intros [= <- _ _]|].
  destruct r as [dec|]; [|now intros [= <- _ _]].
  destruct (negb _); [now intros [= <- _ _]|].
  destruct (dec (http.Body res) tgt) as [[e|] t']; [discriminate | now intros [= <- _ _]].
Qed.

(** [handleResponse] never hands back nothing at all. *)
Lemma handleResponse_not_nil_nil {T} (r : option (Decoder T)) tgt res tgt' :
  handleResponse r tgt res <> (None, None, tgt').
Proof.
  unfold handleResponse.
  destruct ((400 <=? http.StatusCode res) && (http.StatusCode res <? 600));
    [discriminate|].
  destruct r as [dec|]; [|discriminate].
  destruct (negb _); [discriminate|].
  destruct (dec (http.Body res) tgt) as [[e|] t']; discriminate.
Qed.

(** A request that reaches the server ends with [handleResponse]. *)
Lemma doReqEx_round_trip {T} method url key v (r : option (Decoder T)) tgt ctx s res s' :
  round_trip method url key v ctx s res s' ->
  doReqEx method url key v r tgt ctx s = Done (handleResponse r tgt res) s'.
Proof.
  intros (Hurl & rdr & s1 & w & Hv & Hdo & ->).
  unfold doReqEx. rewrite Hurl. simpl negb. cbv iota.
  destruct v as [v|].
  - destruct Hv as (jws & Hsign & ->). rewrite Hsign. cbv zeta iota beta.
    rewrite Hdo. reflexivity.
  - destruct Hv as [-> ->]. cbv zeta iota beta. rewrite Hdo. reflexivity.
Qed.

(** Signing panics on one kind of key only, and only once the payload
    has been marshalled. *)
Lemma signBody_panics key v s :
  signBody key v s = Panicked <->
  key = Some ecdsa_PrivateKey_without_curve /\ exists b, json_Marshal v = inr b.
Proof.
  unfold signBody. destruct (json_Marshal v) as [e|b].
  - split; [discriminate | now intros (_ & b & [=])].
  - destruct key as [k|]; [|split; [discriminate | now intros ([=] & _)]].
    destruct k as [d|name d| |ty]; simpl.
    + destruct (jose_NewSigner _ _); [|destruct (jose_Sign _ _ _ _ _) as [[sig ns] w]];
        (split; [discriminate | now intros ([=] & _)]).
    + destruct (Go.streq name "P-256"); [|destruct (Go.streq name "P-384");
        [|destruct (Go.streq name "P-521")]];
        try (destruct (jose_NewSigner _ _);
             [|destruct (jose_Sign _ _ _ _ _) as [[sig ns] w]]);
        (split; [discriminate | now intros ([=] & _)]).
    + split; [eauto | reflexivity].
    + split; [discriminate | now intros ([=] & _)].
Qed.

Lemma signBody_not_OutOfFuel key v s : signBody key v s <> OutOfFuel.
Proof.
  unfold signBody. destruct (json_Marshal v) as [e|b]; [discriminate|].
  destruct key as [k|]; [|discriminate].
  destruct (algorithmFromKey (Some k)) as [[kalg [e|]]|]; try discriminate.
  destruct (jose_NewSigner kalg k); [discriminate|].
  destruct (jose_Sign _ _ _ _ _) as [[sig ns] w]. discriminate.
Qed.

(** A call that ends in any other way has no response to show, or has
    panicked while signing. *)
Lemma doReqEx_cases {T} method url key v (r : option (Decoder T)) tgt ctx s :
  (exists err s', doReqEx method url key v r tgt ctx s = Done (None, Some err, tgt) s')
  \/ (exists res s', round_trip method url key v ctx s res s')
  \/ doReqEx method url key v r tgt ctx s = Panicked.
Proof.
  unfold doReqEx, round_trip.
  destruct (ValidURL (rewriteURL url)) eqn:Hurl; simpl negb; cbv iota; [|eauto].
  destruct v as [v|].
  - destruct (signBody _ v s) as [[err|jws] s1| |] eqn:Hsign; cbv zeta iota beta;
      [eauto| |auto|now apply signBody_not_OutOfFuel in Hsign].
    destruct (ctxhttp_Do ctx _ (st_world s1)) as [[err|res] w] eqn:Hdo; [eauto|].
    right. left. eexists _, _. split; [reflexivity|]. eexists _, s1, w.
    split; [eexists; eauto|]. eauto.
  - cbv zeta iota beta.
    destruct (ctxhttp_Do ctx _ (st_world s)) as [[err|res] w] eqn:Hdo; [eauto|].
    right. left. eexists _, _. split; [reflexivity|]. eexists None, s, w. eauto.
Qed.

(** [doReqEx] panics exactly when it comes to sign a payload with an
    ECDSA key that has no curve. *)
Lemma doReqEx_panics {T} method url key v (r : option (Decoder T)) tgt ctx s :
  doReqEx method url key v r tgt ctx s = Panicked <->
  ValidURL (rewriteURL url) = true
  /\ (exists p b, v = Some p /\ json_Marshal p = inr b)
  /\ match key with
     | None => AccountKey (c_AccountInfo (st_client s))
     | Some _ => key
     end = Some ecdsa_PrivateKey_without_curve.
Proof.
  unfold doReqEx.
  destruct (ValidURL (rewriteURL url)) eqn:Hurl; simpl negb; cbv iota;
    [|split; [discriminate | now intros ([=] & _)]].
  destruct v as [v|].
  - destruct (signBody _ v s) as [[err|jws] s1| |] eqn:Hsign; cbv zeta iota beta.
    + split; [discriminate|]. intros (_ & (p & b & [= <-] & Hm) & Hk).
      rewrite (proj2 (signBody_panics _ _ _)) in Hsign by eauto. discriminate.
    + split; [|intros (_ & (p & b & [= <-] & Hm) & Hk);
               rewrite (proj2 (signBody_panics _ _ _)) in Hsign by eauto; discriminate].
      destruct (ctxhttp_Do ctx _ (st_world s1)) as [[err|res] w]; discriminate.
    + apply signBody_panics in Hsign. destruct Hsign as (Hk & b & Hm).
      split; [eauto 7 | reflexivity].
    + now apply signBody_not_OutOfFuel in Hsign.
  - cbv zeta iota beta. split; [|now intros (_ & (p & b & [=] & _) & _)].
    destruct (ctxhttp_Do ctx _ (st_world s)) as [[err|res] w]; discriminate.
Qed.

(** The loop budget is no concern of [doReqEx]. *)
Lemma doReqEx_not_OutOfFuel {T} method url key v (r : option (Decoder T)) tgt ctx s :
  doReqEx method url key v r tgt ctx s <> OutOfFuel.
Proof.
  destruct (doReqEx_cases method url key v r tgt ctx s)
    as [(err & s' & H) | [(res & s' & H) | H]]; [congruence| |congruence].
  rewrite (doReqEx_round_trip _ _ _ _ r tgt _ _ _ _ H). discriminate.
Qed.

(** [doReqEx] returns unless it panics; a request without a payload
    always returns. *)
Lemma doReqEx_returns {T} method url key v (r : option (Decoder T)) tgt ctx s :
  doReqEx method url key v r tgt ctx s <> Panicked ->
  exists a s', doReqEx method url key v r tgt ctx s = Done a s'.
Proof.
  intros Hnp.
  destruct (doReqEx_cases method url key v r tgt ctx s)
    as [(err & s' & H) | [(res & s' & H) | H]]; [eauto| |contradiction].
  rewrite (doReqEx_round_trip _ _ _ _ r tgt _ _ _ _ H). eauto.
Qed.

Lemma doReqEx_no_payload_returns {T} method url key (r : option (Decoder T)) tgt ctx s :
  exists a s', doReqEx method url key None r tgt ctx s = Done a s'.
Proof.
  apply doReqEx_returns. intros H. apply doReqEx_panics in H.
  now destruct H as (_ & (p & b & [=] & _) & _).
Qed.

(** What a call that hands back a response went through. *)
Lemma doReqEx_response_inv {T} method url key v (r : option (Decoder T)) tgt ctx s
    res err tgt' s' :
  doReqEx method url key v r tgt ctx s = Done (Some res, err, tgt') s' ->
  round_trip method url key v ctx s res s'
  /\ handleResponse r tgt res = (Some res, err, tgt').
Proof.
  intros H.
  destruct (doReqEx_cases method url key v r tgt ctx s)
    as [(e & s1 & H1) | [(res1 & s1 & H1) | H1]]; [congruence| |congruence].
  rewrite (doReqEx_round_trip _ _ _ _ r tgt _ _ _ _ H1) in H.
  injection H as Hh <-.
  pose proof (handleResponse_same _ _ _ _ _ _ Hh) as <-. auto.
Qed.

(** A nil error always comes with a response. *)
Lemma doReqEx_ok_inv {T} method url key v (r : option (Decoder T)) tgt ctx s
    ores tgt' s' :
  doReqEx method url key v r tgt ctx s = Done (ores, None, tgt') s' ->
  exists res,
    ores = Some res /\ round_trip method url key v ctx s res s'
    /\ handleResponse r tgt res = (Some res, None, tgt').
Proof.
  intros H.
  destruct (doReqEx_cases method url key v r tgt ctx s)
    as [(e & s1 & H1) | [(res1 & s1 & H1) | H1]]; [congruence| |congruence].
  rewrite (doReqEx_round_trip _ _ _ _ r tgt _ _ _ _ H1) in H.
  injection H as Hh <-.
  destruct (handleResponse_ok _ _ _ _ _ Hh) as (-> & _). eauto.
Qed.

(** And nothing at all is never handed back. *)
Lemma doReqEx_not_nil_nil {T} method url key v (r : option (Decoder T)) tgt ctx s tgt' s' :
  doReqEx method url key v r tgt ctx s <> Done (None, None, tgt') s'.
Proof.
  intros H.
  destruct (doReqEx_cases method url key v r tgt ctx s)
    as [(e & s1 & H1) | [(res1 & s1 & H1) | H1]]; [congruence| |congruence].
  rewrite (doReqEx_round_trip _ _ _ _ r tgt _ _ _ _ H1) in H.
  injection H as Hh _. now apply handleResponse_not_nil_nil in Hh.
Qed.

Lemma signBody_frame key v s x s1 :
  signBody key v s = Done x s1 ->
  c_AccountInfo (st_client s1) = c_AccountInfo (st_client s)
  /\ c_dir (st_client s1) = c_dir (st_client s)
  /\ c_DirectoryURL (st_client s1) = c_DirectoryURL (st_client s)
  /\ st_sent s1 = st_sent s.
Proof.
  unfold signBody.
  destruct (json_Marshal v); [now intros [= _ <-]|].
  destruct key as [k|]; [|now intros [= _ <-]].
  destruct (algorithmFromKey (Some k)) as [[kalg [e|]]|];
    [now intros [= _ <-]| |discriminate].
  destruct (jose_NewSigner kalg k); [now intros [= _ <-]|].
  destruct (jose_Sign _ _ _ _ _) as [[sig ns] w]. now intros [= _ <-].
Qed.

(** A payload that got signed had been marshalled, by a key with an
    algorithm. *)
Lemma signBody_signed key v s jws s1 :
  signBody key v s = Done (inr jws) s1 -> key <> Some ecdsa_PrivateKey_without_curve.
Proof.
  intros H ->. unfold signBody in H.
  destruct (json_Marshal v); discriminate.
Qed.

Lemma signBody_marshalled key v s jws s1 :
  signBody key v s = Done (inr jws) s1 -> exists b, json_Marshal v = inr b.
Proof.
  unfold signBody. destruct (json_Marshal v) as [e|b]; [discriminate | eauto].
Qed.

Lemma keepNonce_frame res c :
  c_AccountInfo (keepNonce res c) = c_AccountInfo c
  /\ c_dir (keepNonce res c) = c_dir c
  /\ c_DirectoryURL (keepNonce res c) = c_DirectoryURL c.
Proof. unfold keepNonce. destruct (negb _); auto. Qed.

(** A request leaves the account, the directory and its URL alone, and
    puts at most its own request on the wire. *)
Lemma doReqEx_frame {T} method url key v (r : option (Decoder T)) tgt ctx s a s' :
  doReqEx method url key v r tgt ctx s = Done a s' ->
  c_AccountInfo (st_client s') = c_AccountInfo (st_client s)
  /\ c_dir (st_client s') = c_dir (st_client s)
  /\ c_DirectoryURL (st_client s') = c_DirectoryURL (st_client s)
  /\ (st_sent s' = st_sent s \/ exists req, st_sent s' = (st_sent s ++ [req])%list).
Proof.
  unfold doReqEx.
  destruct (ValidURL (rewriteURL url)); simpl negb; cbv iota; [|intros [= _ <-]; auto].
  assert (Hgo : forall rdr s1,
    c_AccountInfo (st_client s1) = c_AccountInfo (st_client s) ->
    c_dir (st_client s1) = c_dir (st_client s) ->
    c_DirectoryURL (st_client s1) = c_DirectoryURL (st_client s) ->
    st_sent s1 = st_sent s ->
    (let '(res, w) := ctxhttp_Do ctx (NewRequest method (rewriteURL url) rdr) (st_world s1) in
     match res with
     | inl err =>
         Done (None, Some err, tgt)
           {| st_client := st_client s1; st_world := w;
              st_sent := st_sent s1 ++ [NewRequest method (rewriteURL url) rdr] |}
     | inr res =>
         Done (handleResponse r tgt res)
           (with_client (keepNonce res)
              {| st_client := st_client s1; st_world := w;
                 st_sent := st_sent s1 ++ [NewRequest method (rewriteURL url) rdr] |})
     end) = Done a s' ->
    c_AccountInfo (st_client s') = c_AccountInfo (st_client s)
    /\ c_dir (st_client s') = c_dir (st_client s)
    /\ c_DirectoryURL (st_client s') = c_DirectoryURL (st_client s)
    /\ (st_sent s' = st_sent s \/ exists req, st_sent s' = (st_sent s ++ [req])%list)).
  { intros rdr s1 H1 H2 H3 H4.
    destruct (ctxhttp_Do ctx _ (st_world s1)) as [[err|res] w].
    - intros [= _ <-]. simpl. rewrite H4. eauto 6.
    - intros [= _ <-]. simpl.
      destruct (keepNonce_frame res (st_client s1)) as (-> & -> & ->).
      rewrite H4. eauto 6. }
  destruct v as [v|].
  - destruct (signBody _ v s) as [[err|jws] s1| |] eqn:Hsign; cbv zeta iota beta;
      try discriminate.
    + intros [= _ <-]. destruct (signBody_frame _ _ _ _ _ Hsign) as (-> & -> & -> & ->). auto.
    + destruct (signBody_frame _ _ _ _ _ Hsign) as (H1 & H2 & H3 & H4).
      apply Hgo; assumption.
  - cbv zeta iota beta. apply Hgo; reflexivity.
Qed.

End doReqEx_facts.

(** ** A payload and no key *)

(** C9, as amended: a request with a payload, made with no per-call key
    by a client with no account key, fails before any HTTP request is
    built or sent and leaves the whole state (client, nonce pool, world,
    requests sent) and the target as they were.  The error is "account
    key must be specified" when the URL passes [ValidURL] and the payload
    marshals; otherwise it is the invalid-URL error or the marshalling
    error, which the code looks for first. *)
Theorem doReqEx_no_key {env : Env} {T} (method url : string) (v : Payload)
    (r : option (Decoder T)) (tgt : T) (ctx : Context) (s : St) :
  AccountKey (c_AccountInfo (st_client s)) = None ->
  exists err,
    doReqEx method url None (Some v) r tgt ctx s = Done (None, Some err, tgt) s
    /\ (ValidURL (rewriteURL url) = false -> err = ErrInvalidURL (rewriteURL url))
    /\ (forall e, ValidURL (rewriteURL url) = true -> json_Marshal v = inl e -> err = e)
    /\ (forall b, ValidURL (rewriteURL url) = true -> json_Marshal v = inr b ->
        err = ErrAccountKey).
Proof.
  intros Hkey. unfold doReqEx. rewrite Hkey.
  destruct (ValidURL (rewriteURL url)) eqn:Hurl; simpl negb; cbv iota.
  - unfold signBody. destruct (json_Marshal v) as [e|b] eqn:Hm; cbv zeta iota beta.
    + exists e. split; [reflexivity|]. split; [discriminate|].
      split; [now intros e' _ [= <-] | discriminate].
    + exists ErrAccountKey. split; [reflexivity|]. split; [discriminate|].
      split; [discriminate | reflexivity].
  - exists (ErrInvalidURL (rewriteURL url)). split; [reflexivity|].
    split; [reflexivity|]. split; discriminate.
Qed.

Lemma doReqEx_no_key_witness :
  let E := Toy.env Toy.nowhere in
  let s := Toy.start Toy.nowhere (Toy.client None [] "") in
  let v := P_RawMessage (list_byte_of_string "{}") in
  AccountKey (c_AccountInfo (st_client s)) = None /\
  exists err,
    doReqEx (env := E) (T := unit) "POST" "https://ca/chal/1" None (Some v) None tt
      Toy.background s = Done (None, Some err, tt) s
    /\ err = ErrAccountKey.
Proof.
  intros E s v. split; [reflexivity|].
  destruct (doReqEx_no_key (env := E) (T := unit) "POST" "https://ca/chal/1" v None tt
              Toy.background s eq_refl) as (err & Hrun & _ & _ & Hkey).
  exists err. split; [exact Hrun|].
  exact (Hkey (list_byte_of_string "{}") eq_refl eq_refl).
Defined.

(** C9, as stated, fails: with a URL that [ValidURL] refuses the error is
    the invalid-URL error, not "account key must be specified". *)
Lemma nil_key_invalid_url_error :
  let E := Toy.env Toy.nowhere in
  let s := Toy.start Toy.nowhere (Toy.client None [] "") in
  let v := P_RawMessage (list_byte_of_string "{}") in
  AccountKey (c_AccountInfo (st_client s)) = None /\
  doReqEx (env := E) (T := unit) "POST" "http://ca/chal/1" None (Some v) None tt
    Toy.background s = Done (None, Some (ErrInvalidURL "http://ca/chal/1"), tt) s /\
  doReqEx (env := E) (T := unit) "POST" "http://ca/chal/1" None (Some v) None tt
    Toy.background s <> Done (None, Some ErrAccountKey, tt) s.
Proof.
  intros E s v. split; [reflexivity|].
  assert (H : doReqEx (env := E) (T := unit) "POST" "http://ca/chal/1" None (Some v) None tt
                Toy.background s = Done (None, Some (ErrInvalidURL "http://ca/chal/1"), tt) s)
    by reflexivity.
  split; [exact H|]. rewrite H. discriminate.
Qed.

(** ** A certificate that is not ready *)

Section loadCertificate_facts.

Context {env : Env}.

(** [loadCertificate] on a response that is not a certificate and not a
    200: only [retryAt] changes, whatever the loop budget. *)
Lemma loadCertificate_not_ready fuel crt res ctx s :
  http.Get (http.Header_ res) "Content-Type" <> "application/pkix-cert" ->
  http.StatusCode res <> 200 ->
  loadCertificate fuel crt res ctx s =
  Done (None,
        set_crt_retryAt
          (retryAtDefault (time_Now (st_world s)) (http.Header_ res) ten_seconds) crt) s.
Proof.
  intros Hct Hsc. unfold loadCertificate.
  apply streq_false in Hct. rewrite Hct.
  replace (http.StatusCode res =? 200) with false by lia. reflexivity.
Qed.

End loadCertificate_facts.

(** C10, as amended: when the response to the GET of [LoadCertificate] has
    a Content-Type other than application/pkix-cert and a status code
    other than 200, then, if the status code is outside 400..599, the call
    returns success and changes only the retry instant of the
    certificate; if it is within 400..599, the call fails with the HTTP
    error and changes nothing.  Either way [Certificate] and
    [ExtraCertificates] are as before. *)
Theorem LoadCertificate_pending {env : Env} (fuel : nat) (crt : Certificate)
    (ctx : Context) (s : St) (res : Response) (s' : St) :
  round_trip "GET" (crt_URI crt) None None ctx s res s' ->
  http.Get (http.Header_ res) "Content-Type" <> "application/pkix-cert" ->
  http.StatusCode res <> 200 ->
  exists err crt',
    LoadCertificate fuel crt ctx s = Done (err, crt') s'
    /\ crt_Certificate crt' = crt_Certificate crt
    /\ crt_ExtraCertificates crt' = crt_ExtraCertificates crt
    /\ crt_URI crt' = crt_URI crt
    /\ crt_Resource crt' = crt_Resource crt
    /\ crt_CSR crt' = crt_CSR crt
    /\ (~ 400 <= http.StatusCode res < 600 ->
        err = None
        /\ crt_retryAt crt' =
           retryAtDefault (time_Now (st_world s')) (http.Header_ res) ten_seconds)
    /\ (400 <= http.StatusCode res < 600 ->
        err = Some (newHTTPError res) /\ crt' = crt).
Proof.
  intros Hrt Hct Hsc. unfold LoadCertificate, doReq, bind.
  rewrite (doReqEx_round_trip _ _ _ _ None tt _ _ _ _ Hrt).
  destruct (decide (400 <= http.StatusCode res < 600)) as [Hs|Hs].
  - rewrite handleResponse_error_status by exact Hs.
    exists (Some (newHTTPError res)), crt. unfold ret.
    repeat (split; [reflexivity|]). split; [contradiction | auto].
  - rewrite handleResponse_no_target by exact Hs.
    rewrite (loadCertificate_not_ready fuel crt res ctx s' Hct Hsc).
    eexists None, _. split; [reflexivity|].
    repeat (split; [reflexivity|]). split; [auto | contradiction].
Qed.

Lemma LoadCertificate_pending_witness :
  let sv : Toy.Server :=
    {| Toy.tls_off := false;
       Toy.serve := fun _ _ =>
         inr (Toy.response 202 [("Retry-After", "120")] "");
       Toy.doc_dir := Toy.no_docs;
       Toy.doc_reg := Toy.no_docs;
       Toy.doc_ch := Toy.no_docs;
       Toy.doc_az := Toy.no_docs |} in
  let E := Toy.env sv in
  let s := Toy.start sv (Toy.client None [] "") in
  let crt := Toy.certificate "https://ca/cert/5" in
  let res := Toy.response 202 [("Retry-After", "120")] "" in
  exists s',
    round_trip (env := E) "GET" (crt_URI crt) None None Toy.background s res s' /\
    http.Get (http.Header_ res) "Content-Type" <> "application/pkix-cert" /\
    http.StatusCode res <> 200 /\
    exists err crt',
      LoadCertificate (env := E) 0 crt Toy.background s = Done (err, crt') s'
      /\ crt_Certificate crt' = [] /\ crt_ExtraCertificates crt' = [] /\ err = None
      /\ crt_retryAt crt' = Toy.epoch + 120 * 1000000000.
Proof.
  intros sv E s crt res.
  set (s' := with_client (env := E) (keepNonce res)
               (@Build_St E (st_client s) ((1%nat, Toy.epoch) : Toy.W)
                  [NewRequest "GET" "https://ca/cert/5" None])).
  assert (Hrt : round_trip (env := E) "GET" (crt_URI crt) None None Toy.background s res s').
  { split; [reflexivity|]. exists None, s, ((1%nat, Toy.epoch) : Toy.W).
    split; [split; reflexivity|]. split; reflexivity. }
  assert (Hct : http.Get (http.Header_ res) "Content-Type" <> "application/pkix-cert")
    by (vm_compute; discriminate).
  assert (Hsc : http.StatusCode res <> 200) by (simpl; lia).
  exists s'. split; [exact Hrt|]. split; [exact Hct|]. split; [exact Hsc|].
  destruct (LoadCertificate_pending (env := E) 0 crt Toy.background s res s' Hrt Hct Hsc)
    as (err & crt' & Hrun & Hc & Hx & _ & _ & _ & Hok & _).
  exists err, crt'. split; [exact Hrun|]. split; [exact Hc|]. split; [exact Hx|].
  destruct Hok as [-> Hat]; [simpl; lia|]. split; [reflexivity|].
  rewrite Hat. vm_compute. reflexivity.
Defined.

(** C10, as stated, fails: a 404 answer with a text body is a response
    with a Content-Type other than application/pkix-cert and a status
    code other than 200, and [LoadCertificate] returns an error. *)
Lemma LoadCertificate_404_fails :
  let E := Toy.env Toy.nowhere in
  let s := Toy.start Toy.nowhere (Toy.client None [] "") in
  let crt := Toy.certificate "https://ca/cert/5" in
  let res := Toy.response 404 [("Content-Type", "text/plain")] "not found" in
  exists s',
    round_trip (env := E) "GET" (crt_URI crt) None None Toy.background s res s' /\
    http.Get (http.Header_ res) "Content-Type" <> "application/pkix-cert" /\
    http.StatusCode res <> 200 /\
    LoadCertificate (env := E) 1 crt Toy.background s
    = Done (Some (httpError res []), crt) s'.
Proof.
  intros E s crt res.
  exists (with_client (env := E) (keepNonce res)
            (@Build_St E (st_client s) ((1%nat, Toy.epoch) : Toy.W)
               [NewRequest "GET" "https://ca/cert/5" None])).
  split.
  { split; [reflexivity|]. exists None, s, ((1%nat, Toy.epoch) : Toy.W).
    split; [split; reflexivity|]. split; reflexivity. }
  split; [vm_compute; discriminate|]. split; [simpl; lia|].
  vm_compute. reflexivity.
Qed.

(** ** Waiting *)

Section waitUntil_facts.

Context {env : Env}.

Lemma waitUntil_cancelled t ctx pick s :
  cancelled ctx (time_Now (st_world s)) = true ->
  waitUntil t ctx pick s = Done (Some (Err ctx)) s.
Proof.
  intros Hc. unfold waitUntil, bind, Now, waitUntil_select. rewrite Hc. reflexivity.
Qed.

Lemma waitUntil_expired t ctx pick s :
  cancelled ctx (time_Now (st_world s)) = false ->
  time.After t (time_Now (st_world s)) = false ->
  waitUntil t ctx pick s = Done None s.
Proof.
  intros Hc Ht. unfold waitUntil, bind, Now, waitUntil_select. rewrite Hc, Ht.
  reflexivity.
Qed.

End waitUntil_facts.

(** C8: when the context is already cancelled, [waitUntil] returns the
    error of the context, whatever the poll instant, and so do
    [WaitLoadAuthorization], [WaitLoadChallenge] and [WaitLoadCertificate],
    without sending anything; when the context is not cancelled and the
    poll instant is not after now, [waitUntil] returns nil at once, in the
    same state, and the three functions are the plain loads. *)
Theorem waitUntil_cancellation {env : Env} (ctx : Context) (pick : bool) (s : St) :
  let now := time_Now (st_world s) in
  (cancelled ctx now = true ->
   (forall t, waitUntil t ctx pick s = Done (Some (Err ctx)) s) /\
   (forall az, WaitLoadAuthorization az ctx pick s = Done (Some (Err ctx), az) s) /\
   (forall ch, WaitLoadChallenge ch ctx pick s = Done (Some (Err ctx), ch) s) /\
   (forall fuel crt,
      WaitLoadCertificate fuel crt ctx pick s = Done (Some (Err ctx), crt) s)) /\
  (cancelled ctx now = false ->
   (forall t, time.After t now = false -> waitUntil t ctx pick s = Done None s) /\
   (forall az, time.After (az_retryAt az) now = false ->
      WaitLoadAuthorization az ctx pick s = LoadAuthorization az ctx s) /\
   (forall ch, time.After (ch_retryAt ch) now = false ->
      WaitLoadChallenge ch ctx pick s = LoadChallenge ch ctx s) /\
   (forall fuel crt, time.After (crt_retryAt crt) now = false ->
      WaitLoadCertificate fuel crt ctx pick s = LoadCertificate fuel crt ctx s)).
Proof.
  cbv zeta. split; intros Hc.
  - split; [|split; [|split]].
    + intros t. now apply waitUntil_cancelled.
    + intros az. unfold WaitLoadAuthorization, bind.
      now rewrite waitUntil_cancelled.
    + intros ch. unfold WaitLoadChallenge, bind.
      now rewrite waitUntil_cancelled.
    + intros fuel crt. unfold WaitLoadCertificate, bind.
      now rewrite waitUntil_cancelled.
  - split; [|split; [|split]].
    + intros t Ht. now apply waitUntil_expired.
    + intros az Ht. unfold WaitLoadAuthorization, bind.
      now rewrite waitUntil_expired.
    + intros ch Ht. unfold WaitLoadChallenge, bind.
      now rewrite waitUntil_expired.
    + intros fuel crt Ht. unfold WaitLoadCertificate, bind.
      now rewrite waitUntil_expired.
Qed.

Lemma waitUntil_cancellation_witness :
  let E := Toy.env Toy.nowhere in
  let s := Toy.start Toy.nowhere (Toy.client None [] "") in
  let az := Toy.authorization "https://ca/authz/1" in
  (cancelled (Toy.cancelled_at Toy.epoch) (time_Now (Env := E) (st_world s)) = true /\
   WaitLoadAuthorization (env := E) az (Toy.cancelled_at Toy.epoch) false s
   = Done (Some (ErrLib "context canceled"), az) s) /\
  (cancelled Toy.background (time_Now (Env := E) (st_world s)) = false /\
   time.After (az_retryAt az) (time_Now (Env := E) (st_world s)) = false /\
   WaitLoadAuthorization (env := E) az Toy.background false s
   = LoadAuthorization (env := E) az Toy.background s).
Proof.
  intros E s az. split.
  - split; [reflexivity|].
    exact (proj1 (proj2 (proj1 (waitUntil_cancellation (env := E)
                                  (Toy.cancelled_at Toy.epoch) false s) eq_refl)) az).
  - split; [reflexivity|]. split; [reflexivity|].
    exact (proj1 (proj2 (proj2 (waitUntil_cancellation (env := E)
                                  Toy.background false s) eq_refl)) az eq_refl).
Defined.

(** ** Authorizations *)

Section validate_facts.

Lemma indices_loop_spec n : forall i acc,
  indices_loop n i acc = (acc ++ map (fun k => i + Z.of_nat k) (seq 0 n))%list.
Proof.
  induction n as [|n IH]; intros i acc; simpl.
  - now rewrite app_nil_r.
  - rewrite IH, <- app_assoc. simpl. f_equal. rewrite Z.add_0_r. f_equal.
    rewrite <- seq_shift, map_map. apply map_ext. intros k. lia.
Qed.

Lemma indices_loop_indices n : indices_loop n 0 [] = indices n.
Proof. rewrite indices_loop_spec. reflexivity. Qed.

Lemma indices_lt n i : In i (indices n) -> 0 <= i < Z.of_nat n.
Proof.
  unfold indices. rewrite in_map_iff. intros (k & <- & Hk).
  apply in_seq in Hk. lia.
Qed.

Lemma combinations_malformed_false len cs :
  combinations_malformed len cs = false <->
  forall c i, In c cs -> In i c -> i < len.
Proof.
  unfold combinations_malformed, combination_malformed. split.
  - intros H c i Hc Hi.
    destruct (Z.ltb_spec i len) as [Hlt|Hge]; [exact Hlt|]. exfalso.
    assert (Ht : existsb (fun c => existsb (fun i => len <=? i) c) cs = true).
    { apply existsb_exists. exists c. split; [exact Hc|].
      apply existsb_exists. exists i. split; [exact Hi | lia]. }
    congruence.
  - intros H. apply not_true_is_false. intros Ht.
    apply existsb_exists in Ht. destruct Ht as (c & Hc & Ht).
    apply existsb_exists in Ht. destruct Ht as (i & Hi & Hle).
    specialize (H c i Hc Hi). lia.
Qed.

Lemma combinations_malformed_true len cs :
  combinations_malformed len cs = true <->
  exists c i, In c cs /\ In i c /\ len <= i.
Proof.
  unfold combinations_malformed, combination_malformed. split.
  - intros Ht. apply existsb_exists in Ht. destruct Ht as (c & Hc & Ht).
    apply existsb_exists in Ht. destruct Ht as (i & Hi & Hle).
    exists c, i. repeat split; [assumption | assumption | lia].
  - intros (c & i & Hc & Hi & Hle). apply existsb_exists. exists c. split; [exact Hc|].
    apply existsb_exists. exists i. split; [exact Hi | lia].
Qed.

Lemma validate_eq az :
  validate az =
  if (length (az_Challenges az) =? 0)%nat then (Some ErrNoChallenges, az)
  else
    let az' := set_az_Combinations (Some (validated_combinations az)) az in
    if combinations_malformed (Z.of_nat (length (az_Challenges az)))
         (validated_combinations az)
    then (Some ErrCombinations, az')
    else (None, az').
Proof.
  unfold validate, validated_combinations.
  destruct (length (az_Challenges az) =? 0)%nat; [reflexivity|].
  destruct az as [u r i st e chs [cs|] t]; simpl; [reflexivity|].
  rewrite indices_loop_indices. reflexivity.
Qed.

Lemma validate_no_challenges az :
  az_Challenges az = [] -> validate az = (Some ErrNoChallenges, az).
Proof. intros H. rewrite validate_eq, H. reflexivity. Qed.

Lemma validate_ok az az' :
  validate az = (None, az') ->
  az_Challenges az <> []
  /\ az' = set_az_Combinations (Some (validated_combinations az)) az
  /\ indices_in_range az'.
Proof.
  rewrite validate_eq.
  destruct (length (az_Challenges az) =? 0)%nat eqn:El; [discriminate|].
  cbv zeta.
  destruct (combinations_malformed _ _) eqn:Em; [discriminate|].
  intros [= <-]. split; [|split; [reflexivity|]].
  - intros Hnil. rewrite Hnil in El. discriminate.
  - intros c i Hc Hi. simpl in *.
    exact (proj1 (combinations_malformed_false _ _) Em c i Hc Hi).
Qed.

Lemma validate_index_too_large az :
  az_Challenges az <> [] ->
  index_too_large (set_az_Combinations (Some (validated_combinations az)) az) ->
  validate az
  = (Some ErrCombinations, set_az_Combinations (Some (validated_combinations az)) az).
Proof.
  intros Hne (c & i & Hc & Hi & Hle). rewrite validate_eq.
  destruct (length (az_Challenges az) =? 0)%nat eqn:El.
  - destruct (az_Challenges az); [congruence | discriminate].
  - cbv zeta.
    replace (combinations_malformed _ _) with true; [reflexivity|].
    symmetry. apply combinations_malformed_true. simpl in *. eauto.
Qed.

(** A combination made up by [validate] is never malformed. *)
Lemma validate_synthesis az :
  az_Challenges az <> [] -> az_Combinations az = None ->
  validate az
  = (None, set_az_Combinations (Some [indices (length (az_Challenges az))]) az).
Proof.
  intros Hne Hnil. rewrite validate_eq.
  destruct (length (az_Challenges az) =? 0)%nat eqn:El.
  - destruct (az_Challenges az); [congruence | discriminate].
  - cbv zeta. unfold validated_combinations. rewrite Hnil.
    replace (combinations_malformed _ _) with false; [reflexivity|].
    symmetry. apply combinations_malformed_false.
    intros c i [<-|[]] Hi. apply indices_lt in Hi. lia.
Qed.

End validate_facts.

Section Authorization_facts.

Context {env : Env}.

Lemma handleResponse_decoded {T} (dec : Decoder T) tgt res tgt' :
  ~ 400 <= http.StatusCode res < 600 ->
  http.Get (http.Header_ res) "Content-Type" = "application/json" ->
  dec (http.Body res) tgt = (None, tgt') ->
  handleResponse (Some dec) tgt res = (Some res, None, tgt').
Proof.
  intros Hs Hct Hdec. unfold handleResponse.
  destruct ((400 <=? http.StatusCode res) && (http.StatusCode res <? 600)) eqn:Es.
  - apply andb_true_iff in Es. exfalso. apply Hs. lia.
  - rewrite Hct, Hdec. reflexivity.
Qed.

Lemma decode_Authorization_ok body az az' :
  decode_Authorization body az = (None, az') <->
  exists j, json_Authorization body az = inr j /\ az' = decode_into_Authorization j az.
Proof.
  unfold decode_Authorization.
  destruct (json_Authorization body az) as [[e a]|j].
  - split; [discriminate | now intros (j & [=] & _)].
  - split; [intros [= <-]; eauto | now intros (j' & [= <-] & ->)].
Qed.

(** [LoadAuthorization] after a good answer: decode, then validate. *)
Lemma LoadAuthorization_run az ctx s res s' j :
  round_trip "GET" (az_URI az) None None ctx s res s' ->
  ~ 400 <= http.StatusCode res < 600 ->
  http.Get (http.Header_ res) "Content-Type" = "application/json" ->
  json_Authorization (http.Body res) (set_az_Combinations None az) = inr j ->
  LoadAuthorization az ctx s =
  match validate (decode_into_Authorization j (set_az_Combinations None az)) with
  | (Some e, az2) => Done (Some e, az2) s'
  | (None, az2) =>
      Done (None,
            set_az_retryAt
              (retryAtDefault (time_Now (st_world s')) (http.Header_ res) ten_seconds)
              az2) s'
  end.
Proof.
  intros Hrt Hs Hct Hj. unfold LoadAuthorization, doReq, bind.
  change (az_URI (set_az_Combinations None az)) with (az_URI az).
  rewrite (doReqEx_round_trip _ _ _ _ (Some decode_Authorization)
             (set_az_Combinations None az) _ _ _ _ Hrt).
  rewrite (handleResponse_decoded decode_Authorization _ res
             (decode_into_Authorization j (set_az_Combinations None az)) Hs Hct)
    by (apply decode_Authorization_ok; eauto).
  destruct (validate _) as [[e|] az2]; reflexivity.
Qed.

(** A successful [LoadAuthorization] went that way. *)
Lemma LoadAuthorization_inv az ctx s az' s' :
  LoadAuthorization az ctx s = Done (None, az') s' ->
  exists res j az2,
    round_trip "GET" (az_URI az) None None ctx s res s'
    /\ json_Authorization (http.Body res) (set_az_Combinations None az) = inr j
    /\ validate (decode_into_Authorization j (set_az_Combinations None az)) = (None, az2)
    /\ az' = set_az_retryAt
               (retryAtDefault (time_Now (st_world s')) (http.Header_ res) ten_seconds)
               az2.
Proof.
  unfold LoadAuthorization, doReq, bind.
  change (az_URI (set_az_Combinations None az)) with (az_URI az).
  destruct (doReqEx_no_payload_returns "GET" (az_URI az) None (Some decode_Authorization)
              (set_az_Combinations None az) ctx s) as ([[ores err] az1] & s1 & Hrun).
  rewrite Hrun. destruct err as [e|]; [discriminate|].
  destruct (doReqEx_ok_inv _ _ _ _ _ _ _ _ _ _ _ Hrun) as (res & -> & Hrt & Hh).
  destruct (handleResponse_ok _ _ _ _ _ Hh) as (_ & Hs & Hct & Hdec).
  apply decode_Authorization_ok in Hdec. destruct Hdec as (j & Hj & ->).
  destruct (validate _) as [[e|] az2] eqn:Hv; [discriminate|].
  unfold bind, Now, ret. intros [= <- <-]. eauto 10.
Qed.

(** The same for [NewAuthorization]. *)
Lemma NewAuthorization_run hostname ctx s di s1 res s' j :
  getDirectory ctx s = Done (Some di, None) s1 ->
  round_trip "POST" (NewAuthz di) None (Some (P_Authorization (new_authz hostname)))
    ctx s1 res s' ->
  ~ 400 <= http.StatusCode res < 600 ->
  http.Get (http.Header_ res) "Content-Type" = "application/json" ->
  json_Authorization (http.Body res) (new_authz hostname) = inr j ->
  http.StatusCode res = 201 ->
  ValidURL (http.Get (http.Header_ res) "Location") = true ->
  NewAuthorization hostname ctx s =
  match validate (set_az_URI (http.Get (http.Header_ res) "Location")
                    (decode_into_Authorization j (new_authz hostname))) with
  | (Some e, _) => Done (None, Some e) s'
  | (None, az) => Done (Some az, None) s'
  end.
Proof.
  intros Hdir Hrt Hs Hct Hj H201 Hloc. unfold NewAuthorization, doReq, bind.
  rewrite Hdir.
  rewrite (doReqEx_round_trip _ _ _ _ (Some decode_Authorization)
             (new_authz hostname) _ _ _ _ Hrt).
  rewrite (handleResponse_decoded decode_Authorization _ res
             (decode_into_Authorization j (new_authz hostname)) Hs Hct)
    by (apply decode_Authorization_ok; eauto).
  rewrite H201, Hloc. simpl.
  destruct (validate _) as [[e|] az2]; reflexivity.
Qed.

Lemma NewAuthorization_inv hostname ctx s oaz s' :
  NewAuthorization hostname ctx s = Done (oaz, None) s' ->
  exists di s1 res j az,
    oaz = Some az
    /\ getDirectory ctx s = Done (Some di, None) s1
    /\ round_trip "POST" (NewAuthz di) None
         (Some (P_Authorization (new_authz hostname))) ctx s1 res s'
    /\ http.StatusCode res = 201
    /\ ValidURL (http.Get (http.Header_ res) "Location") = true
    /\ json_Authorization (http.Body res) (new_authz hostname) = inr j
    /\ validate (set_az_URI (http.Get (http.Header_ res) "Location")
                   (decode_into_Authorization j (new_authz hostname))) = (None, az).
Proof.
  unfold NewAuthorization, doReq, bind.
  destruct (getDirectory ctx s) as [[odi derr] s1| |] eqn:Hdir; try discriminate.
  destruct derr as [e|]; [discriminate|].
  destruct odi as [di|]; [|discriminate].
  destruct (doReqEx "POST" (NewAuthz di) None
              (Some (P_Authorization (new_authz hostname)))
              (Some decode_Authorization) (new_authz hostname) ctx s1)
    as [[[ores err] az1] s2| |] eqn:Hrun; try discriminate.
  destruct err as [e|]; [discriminate|].
  destruct (doReqEx_ok_inv _ _ _ _ _ _ _ _ _ _ _ Hrun) as (res & -> & Hrt & Hh).
  destruct (handleResponse_ok _ _ _ _ _ Hh) as (_ & Hs & Hct & Hdec).
  apply decode_Authorization_ok in Hdec. destruct Hdec as (j & Hj & ->).
  destruct (http.StatusCode res =? 201) eqn:H201; simpl; [|discriminate].
  destruct (ValidURL (http.Get (http.Header_ res) "Location")) eqn:Hloc; simpl;
    [|discriminate].
  destruct (validate _) as [[e|] az2] eqn:Hv; [discriminate|].
  unfold ret. intros [= <- <-]. exists di, s1, res, j, az2.
  apply Z.eqb_eq in H201.
  split; [reflexivity|]. split; [reflexivity|]. split; [exact Hrt|].
  split; [exact H201|]. split; [exact Hloc|]. split; [exact Hj | exact Hv].
Qed.

(** What [validate] guarantees about a document decoded into an
    authorization whose [Combinations] were nil. *)
Lemma validate_decoded j az0 az2 :
  az_Combinations az0 = None ->
  validate (decode_into_Authorization j az0) = (None, az2) ->
  az_Challenges az2 <> []
  /\ indices_in_range az2
  /\ az_Combinations az2 =
     Some (match server_combinations j with
           | Some cs => cs
           | None => [indices (length (az_Challenges az2))]
           end).
Proof.
  intros Hnil Hv. apply validate_ok in Hv. destruct Hv as (Hne & -> & Hin).
  split; [exact Hne|]. split; [exact Hin|]. simpl.
  unfold validated_combinations, server_combinations. simpl. rewrite Hnil.
  destruct (j_combinations j); reflexivity.
Qed.

End Authorization_facts.

Lemma index_too_large_validated az :
  index_too_large az ->
  index_too_large (set_az_Combinations (Some (validated_combinations az)) az).
Proof.
  intros (c & i & Hc & Hi & Hle). exists c, i.
  unfold validated_combinations. simpl.
  destruct (az_Combinations az) as [cs|]; simpl in *; [auto | contradiction].
Qed.

Lemma validate_malformed az :
  az_Challenges az = [] \/ index_too_large az ->
  exists err az', validate az = (Some err, az') /\ Malformed err.
Proof.
  intros H. destruct (az_Challenges az) as [|ch chs] eqn:Hch.
  - exists ErrNoChallenges, az. split; [now apply validate_no_challenges | exact I].
  - destruct H as [H|H]; [discriminate|].
    exists ErrCombinations, (set_az_Combinations (Some (validated_combinations az)) az).
    split; [|exact I]. apply validate_index_too_large; [congruence|].
    now apply index_too_large_validated.
Qed.

(** C1, as amended: an authorization that [LoadAuthorization] or
    [NewAuthorization] returns without error has at least one challenge,
    every index of every one of its combinations is below the number of
    challenges, and its combinations are those of the server's document
    when the document has an array of them (so none, when that array is
    empty) and otherwise the single combination [0, ..., len-1];
    [LoadAuthorization] decodes into an authorization whose combinations
    are nil, so nothing is left of an earlier synthesis.  A decoded
    document with no challenge, or with an index not below the number of
    challenges, makes both functions fail with a Malformed error. *)
Theorem Authorization_combinations {env : Env} :
  (forall az ctx s az' s',
     LoadAuthorization az ctx s = Done (None, az') s' ->
     exists res j,
       round_trip "GET" (az_URI az) None None ctx s res s'
       /\ json_Authorization (http.Body res) (set_az_Combinations None az) = inr j
       /\ az_Challenges az' <> []
       /\ indices_in_range az'
       /\ az_Combinations az' =
          Some (match server_combinations j with
                | Some cs => cs
                | None => [indices (length (az_Challenges az'))]
                end)) /\
  (forall hostname ctx s oaz s',
     NewAuthorization hostname ctx s = Done (oaz, None) s' ->
     exists az di s1 res j,
       oaz = Some az
       /\ getDirectory ctx s = Done (Some di, None) s1
       /\ round_trip "POST" (NewAuthz di) None
            (Some (P_Authorization (new_authz hostname))) ctx s1 res s'
       /\ json_Authorization (http.Body res) (new_authz hostname) = inr j
       /\ az_Challenges az <> []
       /\ indices_in_range az
       /\ az_Combinations az =
          Some (match server_combinations j with
                | Some cs => cs
                | None => [indices (length (az_Challenges az))]
                end)) /\
  (forall az ctx s res s' j,
     round_trip "GET" (az_URI az) None None ctx s res s' ->
     ~ 400 <= http.StatusCode res < 600 ->
     http.Get (http.Header_ res) "Content-Type" = "application/json" ->
     json_Authorization (http.Body res) (set_az_Combinations None az) = inr j ->
     az_Challenges (decode_into_Authorization j (set_az_Combinations None az)) = []
     \/ index_too_large (decode_into_Authorization j (set_az_Combinations None az)) ->
     exists err az',
       LoadAuthorization az ctx s = Done (Some err, az') s' /\ Malformed err) /\
  (forall hostname ctx s di s1 res s' j,
     getDirectory ctx s = Done (Some di, None) s1 ->
     round_trip "POST" (NewAuthz di) None
       (Some (P_Authorization (new_authz hostname))) ctx s1 res s' ->
     http.StatusCode res = 201 ->
     ValidURL (http.Get (http.Header_ res) "Location") = true ->
     http.Get (http.Header_ res) "Content-Type" = "application/json" ->
     json_Authorization (http.Body res) (new_authz hostname) = inr j ->
     az_Challenges (decode_into_Authorization j (new_authz hostname)) = []
     \/ index_too_large (decode_into_Authorization j (new_authz hostname)) ->
     exists err,
       NewAuthorization hostname ctx s = Done (None, Some err) s' /\ Malformed err).
Proof.
  split; [|split; [|split]].
  - intros az ctx s az' s' Hrun.
    destruct (LoadAuthorization_inv _ _ _ _ _ Hrun) as (res & j & az2 & Hrt & Hj & Hv & ->).
    exists res, j. split; [exact Hrt|]. split; [exact Hj|].
    destruct (validate_decoded j (set_az_Combinations None az) az2 eq_refl Hv)
      as (Hne & Hin & Hcs).
    split; [exact Hne|]. split; [exact Hin | exact Hcs].
  - intros hostname ctx s oaz s' Hrun.
    destruct (NewAuthorization_inv _ _ _ _ _ Hrun)
      as (di & s1 & res & j & az & -> & Hdir & Hrt & H201 & Hloc & Hj & Hv).
    exists az, di, s1, res, j.
    split; [reflexivity|]. split; [exact Hdir|]. split; [exact Hrt|]. split; [exact Hj|].
    exact (validate_decoded j (set_az_URI _ (new_authz hostname)) az eq_refl Hv).
  - intros az ctx s res s' j Hrt Hs Hct Hj Hbad.
    rewrite (LoadAuthorization_run az ctx s res s' j Hrt Hs Hct Hj).
    destruct (validate_malformed _ Hbad) as (err & az' & -> & Hm). eauto.
  - intros hostname ctx s di s1 res s' j Hdir Hrt H201 Hloc Hct Hj Hbad.
    rewrite (NewAuthorization_run hostname ctx s di s1 res s' j Hdir Hrt)
      by (try assumption; lia).
    assert (Hbad' :
      az_Challenges (set_az_URI (http.Get (http.Header_ res) "Location")
                       (decode_into_Authorization j (new_authz hostname))) = []
      \/ index_too_large (set_az_URI (http.Get (http.Header_ res) "Location")
                            (decode_into_Authorization j (new_authz hostname))))
      by exact Hbad.
    destruct (validate_malformed _ Hbad') as (err & az' & -> & Hm). eauto.
Qed.

Lemma Authorization_combinations_witness :
  let E := Toy.env Toy.ca in
  let s := Toy.start Toy.ca (Toy.client None [] "") in
  (* three challenges and no combinations: [[0, 1, 2]] is made up *)
  (exists az' s',
     LoadAuthorization (env := E) (Toy.authorization "https://ca/authz/3")
       Toy.background s = Done (None, az') s'
     /\ az_Combinations az' = Some [[0; 1; 2]]
     /\ exists res j,
          round_trip (env := E) "GET" "https://ca/authz/3" None None Toy.background s res s'
          /\ json_Authorization (http.Body res)
               (set_az_Combinations None (Toy.authorization "https://ca/authz/3")) = inr j
          /\ az_Challenges az' <> []
          /\ indices_in_range az'
          /\ az_Combinations az' =
             Some (match server_combinations j with
                   | Some cs => cs
                   | None => [indices (length (az_Challenges az'))]
                   end)) /\
  (* two challenges and the combination [0, 2]: malformed *)
  (exists res s' j,
     round_trip (env := E) "GET" "https://ca/authz/bad" None None Toy.background s res s'
     /\ ~ 400 <= http.StatusCode res < 600
     /\ http.Get (http.Header_ res) "Content-Type" = "application/json"
     /\ json_Authorization (Env := E) (http.Body res)
          (set_az_Combinations None (Toy.authorization "https://ca/authz/bad")) = inr j
     /\ index_too_large
          (decode_into_Authorization j
             (set_az_Combinations None (Toy.authorization "https://ca/authz/bad")))
     /\ exists err az',
          LoadAuthorization (env := E) (Toy.authorization "https://ca/authz/bad")
            Toy.background s = Done (Some err, az') s'
          /\ Malformed err).
Proof.
  intros E s. split.
  - eexists _, _.
    assert (Hrun : LoadAuthorization (env := E) (Toy.authorization "https://ca/authz/3")
                     Toy.background s
                   = ltac:(let r := eval vm_compute in
                             (LoadAuthorization (env := E)
                                (Toy.authorization "https://ca/authz/3")
                                Toy.background s) in exact r))
      by (vm_compute; reflexivity).
    split; [exact Hrun|]. split; [reflexivity|].
    exact (proj1 (Authorization_combinations (env := E)) _ _ _ _ _ Hrun).
  - set (res := Toy.response 200 [("Content-Type", "application/json")]
                  "https://ca/authz/bad").
    set (s' := with_client (env := E) (keepNonce res)
                 (@Build_St E (st_client s) ((1%nat, Toy.epoch) : Toy.W)
                    [NewRequest "GET" "https://ca/authz/bad" None])).
    set (j := Toy.az_doc [Some (Toy.challenge "https://ca/chal/a");
                          Some (Toy.challenge "https://ca/chal/b")] (JValue [[0; 2]])).
    assert (Hrt : round_trip (env := E) "GET" "https://ca/authz/bad" None None
                    Toy.background s res s').
    { split; [reflexivity|]. exists None, s, ((1%nat, Toy.epoch) : Toy.W).
      split; [split; reflexivity|]. split; reflexivity. }
    assert (Hs : ~ 400 <= http.StatusCode res < 600) by (simpl; lia).
    assert (Hct : http.Get (http.Header_ res) "Content-Type" = "application/json")
      by (vm_compute; reflexivity).
    assert (Hj : json_Authorization (Env := E) (http.Body res)
                   (set_az_Combinations None (Toy.authorization "https://ca/authz/bad"))
                 = inr j) by (vm_compute; reflexivity).
    assert (Hbig : index_too_large
                     (decode_into_Authorization j
                        (set_az_Combinations None
                           (Toy.authorization "https://ca/authz/bad")))).
    { exists [0; 2], 2. simpl. split; [now left|]. split; [now right; left | lia]. }
    exists res, s', j. split; [exact Hrt|]. split; [exact Hs|]. split; [exact Hct|].
    split; [exact Hj|]. split; [exact Hbig|].
    exact (proj1 (proj2 (proj2 (Authorization_combinations (env := E))))
             (Toy.authorization "https://ca/authz/bad") Toy.background s res s' j
             Hrt Hs Hct Hj (or_intror Hbig)).
Defined.

(** C1, as stated, fails: when the server's document has one challenge and
    an empty array of combinations, [LoadAuthorization] returns without
    error an authorization whose list of combinations is empty. *)
Lemma LoadAuthorization_empty_combinations :
  let E := Toy.env Toy.ca in
  let s := Toy.start Toy.ca (Toy.client None [] "") in
  exists az' s',
    LoadAuthorization (env := E) (Toy.authorization "https://ca/authz/empty")
      Toy.background s = Done (None, az') s'
    /\ length (az_Challenges az') = 1%nat
    /\ az_Combinations az' = Some []
    /\ ~ (exists c, In c (default [] (az_Combinations az'))).
Proof.
  intros E s. eexists _, _. split; [vm_compute; reflexivity|].
  split; [reflexivity|]. split; [reflexivity|]. intros [c []].
Qed.

(** ** Registration *)

Section Registration_facts.

Context {env : Env}.

Lemma getDirectory_cached ctx s di :
  c_dir (st_client s) = Some di -> getDirectory ctx s = Done (Some di, None) s.
Proof.
  intros H. unfold getDirectory, bind, get_client. rewrite H. reflexivity.
Qed.

(** The directory is fetched without touching the account. *)
Lemma getDirectory_frame ctx s a s' :
  getDirectory ctx s = Done a s' ->
  c_AccountInfo (st_client s') = c_AccountInfo (st_client s).
Proof.
  unfold getDirectory, bind, get_client.
  destruct (c_dir (st_client s)) as [di|] eqn:Hdir; [now intros [= _ <-]|].
  assert (H0 : exists s0,
            (if Go.streq (c_DirectoryURL (st_client s)) ""
             then modify_client (set_DirectoryURL DefaultDirectoryURL)
             else ret tt) s = Done tt s0
            /\ c_AccountInfo (st_client s0) = c_AccountInfo (st_client s)).
  { destruct (Go.streq _ ""); eexists; split; reflexivity. }
  destruct H0 as (s0 & -> & Hacc0). unfold doReq.
  destruct (doReqEx "GET" (c_DirectoryURL (st_client s0)) None None
              (Some json_Decode_directoryInfo) (c_dir (st_client s0)) ctx s0)
    as [[[ores err] d] s1| |] eqn:Hrun; try discriminate.
  destruct (doReqEx_frame _ _ _ _ _ _ _ _ _ _ Hrun) as (Hacc1 & _).
  unfold modify_client, ret, panic. destruct err as [e|].
  - intros [= _ <-]. simpl. congruence.
  - destruct d as [di|]; [|discriminate].
    destruct (negb _ || negb _ || negb _); intros [= _ <-]; simpl; congruence.
Qed.

(** Finding the registration URI changes nothing of the account but that
    URI. *)
Lemma getRegistrationURI_frame ctx s a s' :
  getRegistrationURI ctx s = Done a s' ->
  AgreementURIs (c_AccountInfo (st_client s')) = AgreementURIs (c_AccountInfo (st_client s))
  /\ ContactURIs (c_AccountInfo (st_client s')) = ContactURIs (c_AccountInfo (st_client s))
  /\ AccountKey (c_AccountInfo (st_client s')) = AccountKey (c_AccountInfo (st_client s)).
Proof.
  unfold getRegistrationURI, bind, get_client.
  destruct (negb _); [now intros [= _ <-]|].
  destruct (getDirectory ctx s) as [[odi derr] s1| |] eqn:Hdir; try discriminate.
  pose proof (getDirectory_frame _ _ _ _ Hdir) as Hacc1.
  destruct derr as [e|]; [intros [= _ <-]; now rewrite Hacc1|].
  destruct odi as [di|]; [|discriminate].
  unfold doReq.
  destruct (doReqEx "POST" (NewReg di) None (Some (P_regInfo (new_reg (st_client s1))))
              (Some json_Decode_regInfo) None ctx s1)
    as [[[ores err] ri] s2| |] eqn:Hrun; try discriminate.
  destruct (doReqEx_frame _ _ _ _ _ _ _ _ _ _ Hrun) as (Hacc2 & _).
  unfold ret, modify_client. destruct ores as [res|].
  - destruct ((http.StatusCode res =? 201) || (http.StatusCode res =? 409)).
    + destruct (negb _); intros [= _ <-]; simpl; rewrite Hacc2, Hacc1; auto.
    + destruct err; intros [= _ <-]; rewrite Hacc2, Hacc1; auto.
  - intros [= _ <-]. rewrite Hacc2, Hacc1; auto.
Qed.

End Registration_facts.



(** C6, as stated, fails: the same answer to the POST, with a valid
    Location and a body that is announced as JSON and does not decode,
    makes [getRegistrationURI] fail under the status 201 and succeed
    under the status 409. *)
Lemma getRegistrationURI_201_undecodable :
  let key := Some (rsa_PrivateKey 1) in
  let answer (code : Z) :=
    Toy.response code [("Content-Type", "application/json");
                       ("Location", "https://ca/acct/1")] "<html>" in
  let s201 := Toy.start (Toy.garbled_registrar 201) (Toy.client key [] "") in
  let s409 := Toy.start (Toy.garbled_registrar 409) (Toy.client key [] "") in
  (RegistrationURI (c_AccountInfo (st_client s201)) = ""
   /\ ValidURL (env := Toy.env (Toy.garbled_registrar 201))
        (http.Get (http.Header_ (answer 201)) "Location") = true
   /\ exists s',
        round_trip (env := Toy.env (Toy.garbled_registrar 201)) "POST" "https://ca/new-reg"
          None (Some (P_regInfo (new_reg (st_client s201)))) Toy.background s201
          (answer 201) s'
        /\ getRegistrationURI (env := Toy.env (Toy.garbled_registrar 201))
             Toy.background s201
           = Done ("", Some (ErrLib "invalid character")) s')
  /\ (exists s',
        round_trip (env := Toy.env (Toy.garbled_registrar 409)) "POST" "https://ca/new-reg"
          None (Some (P_regInfo (new_reg (st_client s409)))) Toy.background s409
          (answer 409) s'
        /\ getRegistrationURI (env := Toy.env (Toy.garbled_registrar 409))
             Toy.background s409
           = Done ("https://ca/acct/1", None)
               (with_client (set_RegistrationURI "https://ca/acct/1") s')).
Proof.
  intros key answer s201 s409. split.
  - split; [reflexivity|]. split; [vm_compute; reflexivity|].
    exists (with_client (env := Toy.env (Toy.garbled_registrar 201))
              (keepNonce (answer 201))
              (@Build_St (Toy.env (Toy.garbled_registrar 201)) (st_client s201)
                 ((1%nat, Toy.epoch) : Toy.W)
                 [NewRequest "POST" "https://ca/new-reg" (Some "jws.RS256")])).
    split; [|vm_compute; reflexivity].
    split; [reflexivity|].
    exists (Some "jws.RS256"), s201, ((1%nat, Toy.epoch) : Toy.W).
    split; [exists "jws.RS256"; split; reflexivity|]. split; reflexivity.
  - exists (with_client (env := Toy.env (Toy.garbled_registrar 409))
              (keepNonce (answer 409))
              (@Build_St (Toy.env (Toy.garbled_registrar 409)) (st_client s409)
                 ((1%nat, Toy.epoch) : Toy.W)
                 [NewRequest "POST" "https://ca/new-reg" (Some "jws.RS256")])).
    split; [|vm_compute; reflexivity].
    split; [reflexivity|].
    exists (Some "jws.RS256"), s409, ((1%nat, Toy.epoch) : Toy.W).
    split; [exists "jws.RS256"; split; reflexivity|]. split; reflexivity.
Qed.

(** C7: after the registration has been POSTed to its URI and the answer
    decoded into a registration, [UpsertRegistration] looks at the
    terms-of-service link of that answer.  With no such link, or with one
    that the registration already agrees to, it returns nil in the state
    the POST left: nothing more is sent.  With a link to other terms, it
    fails with an [AgreementError] carrying the linked URI when that URI
    is not in the client's AgreementURIs, and otherwise POSTs the
    registration again with the linked URI as its agreement and returns
    whatever error, or none, that second request gives. *)
Theorem UpsertRegistration_agreement {env : Env} (ctx : Context) (s : St)
    (regURI : string) (s1 : St) (res : Response) (ri : regInfo) (s2 : St) :
  getRegistrationURI ctx s = Done (regURI, None) s1 ->
  doReq "POST" regURI (Some (P_regInfo (reg (st_client s1))))
    (Some json_Decode_regInfo) None ctx s1 = Done (Some res, None, Some ri) s2 ->
  let tos := link_ParseResponse res !! "terms-of-service" in
  let accepted := AgreementURIs (c_AccountInfo (st_client s)) in
  (tos = None -> UpsertRegistration ctx s = Done None s2) /\
  (forall l, tos = Some l -> link_URI l = ri_AgreementURI ri ->
     UpsertRegistration ctx s = Done None s2) /\
  (forall l, tos = Some l -> link_URI l <> ri_AgreementURI ri ->
     link_URI l ∉ accepted ->
     UpsertRegistration ctx s = Done (Some (AgreementError (link_URI l))) s2) /\
  (forall l, tos = Some l -> link_URI l <> ri_AgreementURI ri ->
     link_URI l ∈ accepted ->
     let agreeing :=
       P_regInfo {| ri_Resource := "reg";
                    ri_Contact := ContactURIs (c_AccountInfo (st_client s));
                    ri_Key := None;
                    ri_AgreementURI := link_URI l;
                    ri_AuthorizationsURI := "";
                    ri_CertificatesURI := "" |} in
     let again :=
       doReq "POST" regURI (Some agreeing) (Some json_Decode_regInfo) (Some ri) ctx in
     (exists res2 err2 ri2 s3,
        again s2 = Done (res2, err2, ri2) s3
        /\ UpsertRegistration ctx s = Done err2 s3) /\
     (forall res2 s3,
        round_trip "POST" regURI None (Some agreeing) ctx s2 res2 s3 ->
        again s2 = Done (handleResponse (Some json_Decode_regInfo) (Some ri) res2) s3
        /\ exists b jws,
             json_Marshal agreeing = inr b
             /\ st_sent s3
                = (st_sent s2
                     ++ [NewRequest "POST" (rewriteURL regURI) (Some jws)])%list)).
Proof.
  intros Hreg Hpost. cbv zeta.
  assert (Hacc : AgreementURIs (c_AccountInfo (st_client s2))
                 = AgreementURIs (c_AccountInfo (st_client s))).
  { destruct (getRegistrationURI_frame _ _ _ _ Hreg) as (<- & _).
    destruct (doReqEx_frame _ _ _ _ _ _ _ _ _ _ Hpost) as (-> & _). reflexivity. }
  assert (Hunfold : UpsertRegistration ctx s =
    match link_ParseResponse res !! "terms-of-service" with
    | Some tosLink =>
        if negb (Go.streq (ri_AgreementURI ri) (link_URI tosLink))
        then
          if negb (bool_decide
                     (link_URI tosLink ∈ AgreementURIs (c_AccountInfo (st_client s2))))
          then Done (Some (AgreementError (link_URI tosLink))) s2
          else
            match doReq "POST" regURI
                    (Some (P_regInfo (set_ri_AgreementURI (link_URI tosLink)
                                        (reg (st_client s1)))))
                    (Some json_Decode_regInfo) (Some ri) ctx s2 with
            | Done (_, err, _) s3 => Done err s3
            | Panicked => Panicked
            | OutOfFuel => OutOfFuel
            end
        else Done None s2
    | None => Done None s2
    end).
  { unfold UpsertRegistration, bind, get_client. rewrite Hreg. cbv beta iota.
    rewrite Hpost. cbv beta iota.
    destruct (link_ParseResponse res !! "terms-of-service") as [l|]; [|reflexivity].
    destruct (negb (Go.streq _ _)); [|reflexivity].
    destruct (negb (bool_decide _)); [reflexivity|].
    destruct (doReq "POST" regURI _ _ (Some ri) ctx s2) as [[[r2 e2] i2] s3| |];
      try reflexivity.
    destruct e2; reflexivity. }
  split; [|split; [|split]].
  - intros Htos. rewrite Hunfold, Htos. reflexivity.
  - intros l Htos Heq. rewrite Hunfold, Htos.
    replace (Go.streq (ri_AgreementURI ri) (link_URI l)) with true
      by (symmetry; now apply streq_true).
    reflexivity.
  - intros l Htos Hne Hnot. rewrite Hunfold, Htos.
    replace (Go.streq (ri_AgreementURI ri) (link_URI l)) with false
      by (symmetry; apply streq_false; congruence).
    rewrite Hacc. rewrite bool_decide_eq_false_2 by exact Hnot. reflexivity.
  - intros l Htos Hne Hin.
    set (agreeing :=
           P_regInfo {| ri_Resource := "reg";
                        ri_Contact := ContactURIs (c_AccountInfo (st_client s));
                        ri_Key := None;
                        ri_AgreementURI := link_URI l;
                        ri_AuthorizationsURI := "";
                        ri_CertificatesURI := "" |}).
    assert (Hpay : P_regInfo (set_ri_AgreementURI (link_URI l) (reg (st_client s1)))
                   = agreeing).
    { unfold agreeing, set_ri_AgreementURI, reg. simpl.
      now rewrite (proj1 (proj2 (getRegistrationURI_frame _ _ _ _ Hreg))). }
    assert (Hup : UpsertRegistration ctx s =
      match doReq "POST" regURI (Some agreeing)
              (Some json_Decode_regInfo) (Some ri) ctx s2 with
      | Done (_, err, _) s3 => Done err s3
      | Panicked => Panicked
      | OutOfFuel => OutOfFuel
      end).
    { rewrite Hunfold, Htos, Hpay.
      replace (Go.streq (ri_AgreementURI ri) (link_URI l)) with false
        by (symmetry; apply streq_false; congruence).
      rewrite Hacc. rewrite bool_decide_eq_true_2 by exact Hin. reflexivity. }
    split.
    + unfold doReq in *.
      (* the key that signed the first POST signs the second *)
      assert (Hkey : AccountKey (c_AccountInfo (st_client s2))
                     <> Some ecdsa_PrivateKey_without_curve).
      { destruct (doReqEx_ok_inv _ _ _ _ _ _ _ _ _ _ _ Hpost)
          as (res0 & _ & (_ & rdr & s' & w & (jws & Hsign & _) & _) & _).
        rewrite (proj1 (doReqEx_frame _ _ _ _ _ _ _ _ _ _ Hpost)).
        exact (signBody_signed _ _ _ _ _ Hsign). }
      destruct (doReqEx_returns "POST" regURI None (Some agreeing)
                  (Some json_Decode_regInfo) (Some ri) ctx s2)
        as ([[res2 err2] ri2] & s3 & Hrun).
      { intros Hp. apply doReqEx_panics in Hp. now destruct Hp as (_ & _ & Hp). }
      exists res2, err2, ri2, s3. split; [exact Hrun|]. rewrite Hup, Hrun. reflexivity.
    + intros res2 s3 Hrt. unfold doReq. split.
      * apply doReqEx_round_trip. exact Hrt.
      * destruct Hrt as (_ & rdr & s' & w & (jws & Hsign & ->) & _ & ->).
        destruct (signBody_marshalled _ _ _ _ _ Hsign) as (b & Hb).
        exists b, jws. split; [exact Hb|]. simpl.
        destruct (signBody_frame _ _ _ _ _ Hsign) as (_ & _ & _ & ->). reflexivity.
Qed.

Lemma UpsertRegistration_agreement_witness :
  let E := Toy.env Toy.registrar in
  let key := Some (rsa_PrivateKey 1) in
  let tos := "https://ca/tos/v2" in
  let res := Toy.response 202 [("Content-Type", "application/json");
                               ("Link", Toy.link_value tos "terms-of-service")] "reg" in
  let l := {| link_URI := tos; link_Rel := "terms-of-service" |} in
  let run (agreed : list string) :=
    let s := Toy.start Toy.registrar (Toy.client key agreed "https://ca/acct/1") in
    exists s2,
      getRegistrationURI (env := E) Toy.background s = Done ("https://ca/acct/1", None) s
      /\ doReq (env := E) "POST" "https://ca/acct/1" (Some (P_regInfo (reg (st_client s))))
           (Some json_Decode_regInfo) None Toy.background s
         = Done (Some res, None, Some Toy.registration) s2
      /\ link_ParseResponse (Env := E) res !! "terms-of-service" = Some l
      /\ link_URI l <> ri_AgreementURI Toy.registration
      /\ if bool_decide (tos ∈ AgreementURIs (c_AccountInfo (st_client s)))
         then exists res2 err2 ri2 s3,
                doReq (env := E) "POST" "https://ca/acct/1"
                  (Some (P_regInfo {| ri_Resource := "reg";
                                      ri_Contact := ["mailto:a@b"];
                                      ri_Key := None;
                                      ri_AgreementURI := tos;
                                      ri_AuthorizationsURI := "";
                                      ri_CertificatesURI := "" |}))
                  (Some json_Decode_regInfo) (Some Toy.registration) Toy.background s2
                = Done (res2, err2, ri2) s3
                /\ UpsertRegistration (env := E) Toy.background s = Done err2 s3
         else UpsertRegistration (env := E) Toy.background s
              = Done (Some (AgreementError tos)) s2 in
  run [] /\ run [tos].
Proof.
  intros E key tos res l run. unfold run. clear run.
  assert (Hl : link_ParseResponse (Env := E) res !! "terms-of-service" = Some l)
    by (vm_compute; reflexivity).
  assert (Hne : link_URI l <> ri_AgreementURI Toy.registration) by discriminate.
  split.
  - set (s := Toy.start Toy.registrar (Toy.client key [] "https://ca/acct/1")).
    set (s2 := with_client (env := E) (keepNonce res)
                 (@Build_St E (st_client s) ((1%nat, Toy.epoch) : Toy.W)
                    [NewRequest "POST" "https://ca/acct/1" (Some "jws.RS256")])).
    assert (Hreg : getRegistrationURI (env := E) Toy.background s
                   = Done ("https://ca/acct/1", None) s) by reflexivity.
    assert (Hpost : doReq (env := E) "POST" "https://ca/acct/1"
                      (Some (P_regInfo (reg (st_client s))))
                      (Some json_Decode_regInfo) None Toy.background s
                    = Done (Some res, None, Some Toy.registration) s2)
      by (vm_compute; reflexivity).
    exists s2. split; [exact Hreg|]. split; [exact Hpost|]. split; [exact Hl|].
    split; [exact Hne|].
    assert (Hout : tos ∉ AgreementURIs (c_AccountInfo (st_client s)))
      by (simpl; set_solver).
    rewrite bool_decide_eq_false_2 by exact Hout.
    pose proof (UpsertRegistration_agreement (env := E) Toy.background s
                  "https://ca/acct/1" s res Toy.registration s2 Hreg Hpost) as T.
    cbv zeta in T. destruct T as (_ & _ & T & _).
    exact (T l Hl Hne Hout).
  - set (s := Toy.start Toy.registrar (Toy.client key [tos] "https://ca/acct/1")).
    set (s2 := with_client (env := E) (keepNonce res)
                 (@Build_St E (st_client s) ((1%nat, Toy.epoch) : Toy.W)
                    [NewRequest "POST" "https://ca/acct/1" (Some "jws.RS256")])).
    assert (Hreg : getRegistrationURI (env := E) Toy.background s
                   = Done ("https://ca/acct/1", None) s) by reflexivity.
    assert (Hpost : doReq (env := E) "POST" "https://ca/acct/1"
                      (Some (P_regInfo (reg (st_client s))))
                      (Some json_Decode_regInfo) None Toy.background s
                    = Done (Some res, None, Some Toy.registration) s2)
      by (vm_compute; reflexivity).
    exists s2. split; [exact Hreg|]. split; [exact Hpost|]. split; [exact Hl|].
    split; [exact Hne|].
    assert (Hin : tos ∈ AgreementURIs (c_AccountInfo (st_client s)))
      by (simpl; set_solver).
    rewrite bool_decide_eq_true_2 by exact Hin.
    pose proof (UpsertRegistration_agreement (env := E) Toy.background s
                  "https://ca/acct/1" s res Toy.registration s2 Hreg Hpost) as T.
    cbv zeta in T. destruct T as (_ & _ & _ & T).
    destruct (T l Hl Hne Hin) as [T1 _]. exact T1.
Defined.

(** ** The chain walk *)

Section chain_walk_facts.

Context {env : Env}.

Lemma loop_S fuel crt res ctx s :
  loadExtraCertificates_loop (S fuel) crt res ctx s =
  match loadExtraCertificates_body crt res ctx s with
  | Done (inl r) s' => Done r s'
  | Done (inr (crt', res')) s' => loadExtraCertificates_loop fuel crt' res' ctx s'
  | Panicked => Panicked
  | OutOfFuel => OutOfFuel
  end.
Proof.
  simpl. unfold bind.
  destruct (loadExtraCertificates_body crt res ctx s) as [[r|[crt' res']] s'| |];
    reflexivity.
Qed.

(** One turn never runs out of budget: the budget is the loop's. *)
Lemma body_not_OutOfFuel crt res ctx s :
  loadExtraCertificates_body crt res ctx s <> OutOfFuel.
Proof.
  unfold loadExtraCertificates_body, bind, doReq, ret, panic.
  destruct (link_ParseResponse res !! "up") as [up|]; [|discriminate].
  destruct (url_Parse (crt_URI crt)) as [crtURI|]; [|discriminate].
  destruct (url_Parse (link_URI up)) as [upURI|]; [|discriminate].
  destruct (doReqEx_no_payload_returns "GET" (url_String (url_ResolveReference crtURI upURI))
              None None tt ctx s) as ([[ores err] u] & s' & ->).
  destruct err; [discriminate|]. destruct ores as [res'|]; [|discriminate].
  destruct (negb _); [discriminate|].
  destruct (ReadAll res') as [der [e|]]; discriminate.
Qed.

Lemma body_no_up crt res ctx s :
  link_ParseResponse res !! "up" = None ->
  loadExtraCertificates_body crt res ctx s = Done (inl (None, crt)) s.
Proof. intros H. unfold loadExtraCertificates_body. rewrite H. reflexivity. Qed.

(** A turn leaves the loop without error only at a response with no [up]
    link. *)
Lemma body_exit_ok crt res ctx s crt' s' :
  loadExtraCertificates_body crt res ctx s = Done (inl (None, crt')) s' ->
  link_ParseResponse res !! "up" = None /\ crt' = crt /\ s' = s.
Proof.
  unfold loadExtraCertificates_body, bind, doReq, ret, panic.
  destruct (link_ParseResponse res !! "up") as [up|]; [|now intros [= <- <-]].
  destruct (url_Parse (crt_URI crt)) as [crtURI|]; [|discriminate].
  destruct (url_Parse (link_URI up)) as [upURI|]; [|discriminate].
  destruct (doReqEx "GET" _ None None None tt ctx s) as [[[ores err] u] s1| |];
    try discriminate.
  destruct err; [discriminate|]. destruct ores as [res'|]; [|discriminate].
  destruct (negb _); [discriminate|].
  destruct (ReadAll res') as [der [e|]]; discriminate.
Qed.

(** A turn that follows the link. *)
Lemma body_next crt res ctx s up crtURI upURI res' s' der :
  link_ParseResponse res !! "up" = Some up ->
  url_Parse (crt_URI crt) = Some crtURI ->
  url_Parse (link_URI up) = Some upURI ->
  round_trip "GET" (url_String (url_ResolveReference crtURI upURI)) None None ctx s res' s' ->
  ~ 400 <= http.StatusCode res' < 600 ->
  http.Get (http.Header_ res') "Content-Type" = "application/pkix-cert" ->
  ReadAll res' = (der, None) ->
  loadExtraCertificates_body crt res ctx s
  = Done (inr (set_crt_ExtraCertificates (crt_ExtraCertificates crt ++ [der]) crt, res')) s'.
Proof.
  intros Hup Hc Hu Hrt Hs Hct Hder.
  unfold loadExtraCertificates_body, bind, doReq. rewrite Hup, Hc, Hu.
  rewrite (doReqEx_round_trip _ _ _ _ None tt _ _ _ _ Hrt).
  rewrite handleResponse_no_target by exact Hs.
  rewrite Hct, streq_refl, Hder. reflexivity.
Qed.

Lemma walk_step_deterministic ctx x y z :
  walk_step ctx x y -> walk_step ctx x z -> y = z.
Proof.
  unfold walk_step. intros Hy Hz. rewrite Hy in Hz.
  destruct y as [[c1 r1] s1], z as [[c2 r2] s2]. simpl in *. congruence.
Qed.

(** The loop returns exactly when, after some turns that follow links, a
    turn leaves it. *)
Lemma loop_returns_iff ctx r s' fuel : forall crt res s,
  loadExtraCertificates_loop fuel crt res ctx s = Done r s' <->
  exists n x,
    (n < fuel)%nat /\ nsteps (walk_step ctx) n (crt, res, s) x
    /\ loadExtraCertificates_body x.1.1 x.1.2 ctx x.2 = Done (inl r) s'.
Proof.
  induction fuel as [|fuel IH]; intros crt res s.
  - simpl. split; [discriminate | intros (n & x & Hn & _); lia].
  - rewrite loop_S. split.
    + destruct (loadExtraCertificates_body crt res ctx s)
        as [[r0|[crt' res']] s0| |] eqn:Hb; try discriminate.
      * intros [= <- <-]. exists 0%nat, (crt, res, s).
        split; [lia|]. split; [constructor | exact Hb].
      * intros Hl. apply IH in Hl. destruct Hl as (n & x & Hn & Hsteps & Hexit).
        exists (S n), x. split; [lia|]. split; [|exact Hexit].
        apply (nsteps_l _ _ _ (crt', res', s0)); [exact Hb | exact Hsteps].
    + intros (n & x & Hn & Hsteps & Hexit).
      inversion Hsteps as [|n' ? y ? Hstep Hrest]; subst.
      * simpl in Hexit. rewrite Hexit. reflexivity.
      * unfold walk_step in Hstep. simpl in Hstep. rewrite Hstep.
        destruct y as [[crt' res'] s0]. simpl. apply IH.
        exists n', x. split; [lia|]. split; [exact Hrest | exact Hexit].
Qed.

(** A larger budget does not change what the loop returns. *)
Lemma loop_mono ctx r s' fuel fuel' crt res s :
  loadExtraCertificates_loop fuel crt res ctx s = Done r s' ->
  (fuel <= fuel')%nat ->
  loadExtraCertificates_loop fuel' crt res ctx s = Done r s'.
Proof.
  intros H Hle. apply loop_returns_iff in H. destruct H as (n & x & Hn & H).
  apply loop_returns_iff. exists n, x. split; [lia | exact H].
Qed.

(** When every turn leads to another, no budget is enough. *)
Lemma loop_diverges ctx fuel : forall crt res s,
  (forall n, exists x, nsteps (walk_step ctx) n (crt, res, s) x) ->
  loadExtraCertificates_loop fuel crt res ctx s = OutOfFuel.
Proof.
  induction fuel as [|fuel IH]; intros crt res s Hrun; [reflexivity|].
  rewrite loop_S.
  destruct (Hrun 1%nat) as (y & Hy).
  inversion Hy as [|? ? y1 ? Hstep Hrest]; subst. inversion Hrest; subst.
  pose proof Hstep as Hstep'. unfold walk_step in Hstep'. simpl in Hstep'.
  rewrite Hstep'. apply IH. intros n.
  destruct (Hrun (S n)) as (z & Hz).
  inversion Hz as [|? ? y2 ? Hstep2 Hrest2]; subst.
  rewrite <- (walk_step_deterministic _ _ _ _ Hstep Hstep2) in Hrest2.
  destruct y as [[c1 r1] s1]. eauto.
Qed.

(** Turns that keep an invariant go on for ever. *)
Lemma walk_invariant ctx (P : Certificate * Response * St -> Prop) :
  (forall x, P x -> exists y, walk_step ctx x y /\ P y) ->
  forall n x, P x -> exists y, nsteps (walk_step ctx) n x y.
Proof.
  intros Hinv. induction n as [|n IH]; intros x Hx.
  - exists x. constructor.
  - destruct (Hinv x Hx) as (y & Hstep & Hy).
    destruct (IH y Hy) as (z & Hz). exists z.
    apply (nsteps_l _ _ _ y); assumption.
Qed.

End chain_walk_facts.

(** C2, as amended: the chain walk stops on the first response lacking an
    [up] link; it returns exactly when, after following some links, it
    comes to a turn that leaves the loop, and a return without error is
    always at a response lacking an [up] link; what it returns does not
    depend on the loop budget of the model.  The code has no bound of its
    own: from a point where every turn leads to another (a cycle of [up]
    links, say) the walk does not return, and neither does
    [loadCertificate] for the certificate response that starts it. *)
Theorem chain_walk_termination {env : Env} (ctx : Context) (crt : Certificate)
    (res : Response) (s : St) :
  (link_ParseResponse res !! "up" = None ->
   forall fuel, loadExtraCertificates_loop (S fuel) crt res ctx s = Done (None, crt) s) /\
  (forall r s',
     (exists fuel, loadExtraCertificates_loop fuel crt res ctx s = Done r s') <->
     (exists n x,
        nsteps (walk_step ctx) n (crt, res, s) x
        /\ loadExtraCertificates_body x.1.1 x.1.2 ctx x.2 = Done (inl r) s')) /\
  (forall fuel crt' s',
     loadExtraCertificates_loop fuel crt res ctx s = Done (None, crt') s' ->
     exists n res',
       nsteps (walk_step ctx) n (crt, res, s) (crt', res', s')
       /\ link_ParseResponse res' !! "up" = None) /\
  (forall fuel fuel' r s',
     loadExtraCertificates_loop fuel crt res ctx s = Done r s' ->
     (fuel <= fuel')%nat ->
     loadExtraCertificates_loop fuel' crt res ctx s = Done r s') /\
  ((forall n, exists x, nsteps (walk_step ctx) n (crt, res, s) x) ->
   forall fuel, loadExtraCertificates_loop fuel crt res ctx s = OutOfFuel) /\
  (forall der,
     http.Get (http.Header_ res) "Content-Type" = "application/pkix-cert" ->
     ReadAll res = (der, None) ->
     crt_ExtraCertificates crt = [] ->
     (forall n, exists x,
        nsteps (walk_step ctx) n (set_crt_Certificate der crt, res, s) x) ->
     forall fuel, loadCertificate fuel crt res ctx s = OutOfFuel).
Proof.
  split; [|split; [|split; [|split; [|split]]]].
  - intros Hup fuel. rewrite loop_S, body_no_up by exact Hup. reflexivity.
  - intros r s'. split.
    + intros (fuel & H). apply loop_returns_iff in H.
      destruct H as (n & x & _ & H). eauto.
    + intros (n & x & H). exists (S n). apply loop_returns_iff.
      exists n, x. split; [lia | exact H].
  - intros fuel crt' s' H. apply loop_returns_iff in H.
    destruct H as (n & [[c r0] s0] & _ & Hsteps & Hexit). simpl in Hexit.
    apply body_exit_ok in Hexit. destruct Hexit as (Hup & -> & ->). eauto.
  - intros fuel fuel' r s'. apply loop_mono.
  - intros Hrun fuel. now apply loop_diverges.
  - intros der Hct Hder Hnil Hrun fuel.
    unfold loadCertificate. rewrite Hct, streq_refl, Hder.
    unfold bind, loadExtraCertificates.
    replace (set_crt_ExtraCertificates [] (set_crt_Certificate der crt))
      with (set_crt_Certificate der crt)
      by (destruct crt; simpl in *; now subst).
    rewrite loop_diverges by exact Hrun. reflexivity.
Qed.

(** The server of the circle keeps the walk going from every state. *)
Lemma cyclic_walk_goes_on (n : nat) (crt : Certificate) (s : St (env := Toy.env Toy.cyclic)) :
  crt_URI crt = "https://ca/cert/5" ->
  exists x,
    nsteps (walk_step (env := Toy.env Toy.cyclic) Toy.background) n
      (crt, Toy.cert_with_up "https://ca/cert/5", s) x.
Proof.
  intros Huri.
  apply (walk_invariant Toy.background
           (fun x => crt_URI x.1.1 = "https://ca/cert/5"
                     /\ x.1.2 = Toy.cert_with_up "https://ca/cert/5")); [|now split].
  clear. intros [[crt res] s] [Huri Hres]. simpl in Huri, Hres. subst res.
  set (res := Toy.cert_with_up "https://ca/cert/5").
  set (req := NewRequest "GET" "https://ca/cert/5" None).
  set (s' := with_client (env := Toy.env Toy.cyclic) (keepNonce res)
               (@Build_St (Toy.env Toy.cyclic) (st_client s)
                  ((S (st_world s).1, (st_world s).2) : Toy.W)
                  (st_sent s ++ [req]))).
  exists (set_crt_ExtraCertificates
            (crt_ExtraCertificates crt ++ [list_byte_of_string "DER"]) crt, res, s').
  split; [|split; [exact Huri | reflexivity]].
  unfold walk_step. simpl fst. simpl snd.
  apply (body_next (env := Toy.env Toy.cyclic) crt res Toy.background s
           {| link_URI := "https://ca/cert/5"; link_Rel := "up" |}
           "https://ca/cert/5" "https://ca/cert/5" res s').
  - vm_compute. reflexivity.
  - rewrite Huri. reflexivity.
  - reflexivity.
  - split; [reflexivity|].
    exists None, s, ((S (st_world s).1, (st_world s).2) : Toy.W).
    split; [split; reflexivity|]. split; reflexivity.
  - simpl. lia.
  - vm_compute. reflexivity.
  - reflexivity.
Qed.

Lemma chain_walk_termination_witness :
  let E := Toy.env Toy.chain in
  let s := Toy.start Toy.chain (Toy.client None [] "") in
  let crt := Toy.certificate "https://ca/cert/5" in
  let root := Toy.response 200 [("Content-Type", "application/pkix-cert")] "ROOT" in
  (* the walk from the root certificate: no link, no request *)
  (link_ParseResponse (Env := E) root !! "up" = None /\
   loadExtraCertificates_loop (env := E) 1 crt root Toy.background s = Done (None, crt) s) /\
  (* the walk from the leaf: one link followed, then the end *)
  (exists crt' s',
     loadExtraCertificates_loop (env := E) 2 crt (Toy.cert_with_up "/ca/root")
       Toy.background s = Done (None, crt') s'
     /\ crt_ExtraCertificates crt' = [list_byte_of_string "ROOT"]
     /\ (2 <= 7)%nat
     /\ loadExtraCertificates_loop (env := E) 7 crt (Toy.cert_with_up "/ca/root")
          Toy.background s = Done (None, crt') s').
Proof.
  intros E s crt root. split.
  - assert (Hup : link_ParseResponse (Env := E) root !! "up" = None)
      by (vm_compute; reflexivity).
    split; [exact Hup|].
    exact (proj1 (chain_walk_termination (env := E) Toy.background crt root s) Hup 0%nat).
  - eexists _, _.
    assert (Hrun : loadExtraCertificates_loop (env := E) 2 crt (Toy.cert_with_up "/ca/root")
                     Toy.background s
                   = ltac:(let r := eval vm_compute in
                             (loadExtraCertificates_loop (env := E) 2 crt
                                (Toy.cert_with_up "/ca/root") Toy.background s)
                           in exact r))
      by (vm_compute; reflexivity).
    split; [exact Hrun|]. split; [reflexivity|].
    assert (Hle : (2 <= 7)%nat) by lia.
    split; [exact Hle|].
    exact (proj1 (proj2 (proj2 (proj2
             (chain_walk_termination (env := E) Toy.background crt
                (Toy.cert_with_up "/ca/root") s))))
             2%nat 7%nat _ _ Hrun Hle).
Defined.

(** C2, as stated, fails: against the server whose [up] links go round in
    a circle, [LoadCertificate] does not return, whatever the budget. *)
Lemma LoadCertificate_cycle_never_returns :
  let E := Toy.env Toy.cyclic in
  let s := Toy.start Toy.cyclic (Toy.client None [] "") in
  let crt := Toy.certificate "https://ca/cert/5" in
  ~ (exists fuel r s', LoadCertificate (env := E) fuel crt Toy.background s = Done r s')
  /\ LoadCertificate (env := E) 1000 crt Toy.background s = OutOfFuel.
Proof.
  intros E s crt.
  assert (Hnever : forall fuel,
            LoadCertificate (env := E) fuel crt Toy.background s = OutOfFuel).
  { intros fuel.
    set (res := Toy.cert_with_up "https://ca/cert/5").
    set (s1 := with_client (env := E) (keepNonce res)
                 (@Build_St E (st_client s) ((1%nat, Toy.epoch) : Toy.W)
                    [NewRequest "GET" "https://ca/cert/5" None])).
    assert (Hget : doReq (env := E) (T := unit) "GET" (crt_URI crt) None None tt
                     Toy.background s = Done (Some res, None, tt) s1)
      by (vm_compute; reflexivity).
    unfold LoadCertificate, bind. rewrite Hget. cbv beta iota.
    unfold loadCertificate.
    replace (Go.streq (http.Get (http.Header_ res) "Content-Type") "application/pkix-cert")
      with true by (vm_compute; reflexivity).
    change (ReadAll res) with (list_byte_of_string "DER", @None Error).
    cbv beta iota. unfold bind, loadExtraCertificates.
    rewrite loop_diverges; [reflexivity|].
    intros n. apply cyclic_walk_goes_on. reflexivity. }
  split; [|apply Hnever].
  intros (fuel & r & s' & H). rewrite Hnever in H. discriminate.
Qed.

(** * Further properties of the package *)

(** ** Status values *)

(** X1: [UnmarshalJSON] changes its target only when it succeeds, and the
    target then holds the decoded string, which is a valid status; and
    every final status is a valid one. *)
Theorem UnmarshalJSON_target {env : Env} (s : Status) (data : list byte)
    (err : option Error) (s' : Status) :
  UnmarshalJSON s data = (err, s') ->
  (err <> None -> s' = s)
  /\ (err = None -> json_Unmarshal_string data = inr s' /\ Valid s' = true)
  /\ (Final s' = true -> Valid s' = true).
Proof.
  intros H. split; [|split].
  - unfold UnmarshalJSON in H.
    destruct (json_Unmarshal_string data) as [e|ss]; [now injection H as <- <-|].
    destruct (negb (Valid ss)); injection H as <- <-; congruence.
  - intros ->. unfold UnmarshalJSON in H.
    destruct (json_Unmarshal_string data) as [e|ss]; [discriminate|].
    destruct (Valid ss) eqn:HV; simpl in H; [|discriminate].
    injection H as <-. auto.
  - unfold Final, Valid. intros HF.
    destruct (switch_case s' ["valid"; "invalid"; "revoked"]) eqn:E; [|discriminate].
    apply switch_case_In in E.
    replace (switch_case s' _) with true; [reflexivity|].
    symmetry. apply switch_case_In. simpl in *. tauto.
Qed.

Lemma UnmarshalJSON_target_witness :
  let E := Toy.env Toy.nowhere in
  let data := list_byte_of_string (Toy.dq ++ "revoked" ++ Toy.dq) in
  UnmarshalJSON (env := E) "pending" data = (None, "revoked")
  /\ json_Unmarshal_string (Env := E) data = inr "revoked"
  /\ Valid "revoked" = true.
Proof.
  intros E data.
  assert (H : UnmarshalJSON (env := E) "pending" data = (None, "revoked"))
    by (vm_compute; reflexivity).
  split; [exact H|].
  exact (proj1 (proj2 (UnmarshalJSON_target (env := E) "pending" data None "revoked" H))
           eq_refl).
Defined.

(** ** The test-mode rewrite of URLs *)

Lemma substring_all s : String.substring 0 (String.length s) s = s.
Proof. induction s as [|c s IH]; simpl; [reflexivity | now rewrite IH]. Qed.

Lemma prefix_https u :
  String.prefix "https:" u = true -> exists rest, u = "https:" ++ rest.
Proof.
  intros H. apply prefix_correct in H. simpl String.length in H.
  do 6 (destruct u as [|? u]; [discriminate|]).
  simpl in H. injection H as -> -> -> -> -> ->. exists u. reflexivity.
Qed.

(** X2: without [TestingNoTLS] the URL of a request is used as it is; with
    it, a URL that begins with "https:" has exactly that prefix replaced
    by "http:", any other URL is used as it is, and rewriting a rewritten
    URL changes nothing. *)
Theorem rewriteURL_scheme {env : Env} (url : string) :
  (TestingNoTLS = false -> rewriteURL url = url)
  /\ (TestingNoTLS = true ->
      forall rest, url = "https:" ++ rest -> rewriteURL url = "http:" ++ rest)
  /\ (String.prefix "https:" url = false -> rewriteURL url = url)
  /\ rewriteURL (rewriteURL url) = rewriteURL url.
Proof.
  assert (Hrw : forall rest, TestingNoTLS = true ->
                  rewriteURL ("https:" ++ rest) = "http:" ++ rest).
  { intros rest Ht. unfold rewriteURL. rewrite Ht. cbv [String.append]. simpl.
    rewrite substring_all. destruct rest; reflexivity. }
  assert (Hid : forall u, String.prefix "https:" u = false -> rewriteURL u = u).
  { intros u Hp. unfold rewriteURL. rewrite Hp, andb_false_r. reflexivity. }
  split; [|split; [|split]].
  - intros Ht. unfold rewriteURL. rewrite Ht. reflexivity.
  - intros Ht rest ->. now apply Hrw.
  - apply Hid.
  - destruct TestingNoTLS eqn:Ht.
    + destruct (String.prefix "https:" url) eqn:Hp.
      * apply prefix_https in Hp. destruct Hp as [rest ->].
        rewrite (Hrw rest eq_refl). apply Hid. reflexivity.
      * now rewrite (Hid url Hp), (Hid url Hp).
    + unfold rewriteURL. rewrite Ht. reflexivity.
Qed.

Lemma rewriteURL_scheme_witness :
  let E := Toy.env {| Toy.tls_off := true;
                      Toy.serve := Toy.serve Toy.nowhere;
                      Toy.doc_dir := Toy.no_docs;
                      Toy.doc_reg := Toy.no_docs;
                      Toy.doc_ch := Toy.no_docs;
                      Toy.doc_az := Toy.no_docs |} in
  TestingNoTLS (Env := E) = true
  /\ rewriteURL (env := E) "https://ca/directory" = "http://ca/directory"
  /\ String.prefix "https:" "http://ca/directory" = false
  /\ rewriteURL (env := E) "http://ca/directory" = "http://ca/directory".
Proof.
  intros E. split; [reflexivity|]. split.
  - exact (proj1 (proj2 (rewriteURL_scheme (env := E) "https://ca/directory"))
             eq_refl "//ca/directory" eq_refl).
  - split; [reflexivity|].
    exact (proj1 (proj2 (proj2 (rewriteURL_scheme (env := E) "http://ca/directory")))
             eq_refl).
Defined.

(** ** What [doReqEx] hands to the transport and returns *)

Section doReqEx_more.

Context {env : Env}.

Lemma NewRequest_well_formed method url rdr :
  ValidURL url = true -> well_formed_request (NewRequest method url rdr).
Proof.
  intros Hurl. unfold well_formed_request, NewRequest. simpl.
  split; [exact Hurl|]. destruct (Go.streq method "POST"); repeat split; reflexivity.
Qed.

(** Either nothing is handed to [ctxhttp.Do] and the call fails, or
    exactly the request of the call is. *)
Lemma doReqEx_sent {T} method url key v (r : option (Decoder T)) tgt ctx s a s' :
  doReqEx method url key v r tgt ctx s = Done a s' ->
  (st_sent s' = st_sent s /\ exists e, a = (None, Some e, tgt))
  \/ (ValidURL (rewriteURL url) = true
      /\ exists rdr,
           st_sent s' = (st_sent s ++ [NewRequest method (rewriteURL url) rdr])%list
           /\ (rdr = None <-> v = None)).
Proof.
  unfold doReqEx.
  destruct (ValidURL (rewriteURL url)) eqn:Hurl; simpl negb; cbv iota;
    [|intros [= <- <-]; left; eauto].
  destruct v as [v|].
  - destruct (signBody _ v s) as [[err|jws] s1| |] eqn:Hsign; cbv zeta iota beta;
      try discriminate.
    + intros [= <- <-]. left.
      destruct (signBody_frame _ _ _ _ _ Hsign) as (_ & _ & _ & ->). eauto.
    + destruct (signBody_frame _ _ _ _ _ Hsign) as (_ & _ & _ & Hsent).
      destruct (ctxhttp_Do ctx _ (st_world s1)) as [[err|res] w];
        intros [= <- <-]; right; (split; [reflexivity|]); exists (Some jws);
        simpl; rewrite Hsent; (split; [reflexivity|]); split; discriminate.
  - cbv zeta iota beta.
    destruct (ctxhttp_Do ctx _ (st_world s)) as [[err|res] w];
      intros [= <- <-]; right; (split; [reflexivity|]); exists None;
      simpl; (split; [reflexivity|]); split; reflexivity.
Qed.

Lemma doReqEx_dispatches {T} n method url key v (r : option (Decoder T)) tgt ctx :
  (1 <= n)%nat -> dispatches n (doReqEx method url key v r tgt ctx).
Proof.
  intros Hn s a s' H. apply doReqEx_sent in H.
  destruct H as [[Hs _] | (Hurl & rdr & Hs & _)].
  - exists []. rewrite app_nil_r. split; [exact Hs|]. split; [simpl; lia | constructor].
  - eexists. split; [exact Hs|]. split; [simpl; lia|].
    constructor; [|constructor]. now apply NewRequest_well_formed.
Qed.


(** A request without a payload is not signed, and cannot panic. *)
Lemma doReqEx_never_panics {T} method url key (r : option (Decoder T)) tgt ctx :
  never_panics (doReqEx method url key None r tgt ctx).
Proof.
  intros s. destruct (doReqEx_no_payload_returns method url key r tgt ctx s)
    as (a & s' & ->).
  discriminate.
Qed.

End doReqEx_more.

(** X3: a response with a status code from 400 to 599 comes back from
    [doReqEx] together with an [httpError] that carries it; nothing is
    decoded into the target; and the error has the body of the response
    as its problem body exactly when the Content-Type is
    application/problem+json and the body can be read. *)
Theorem doReqEx_error_status {env : Env} {T} (method url : string)
    (key : option PrivateKey) (v : option Payload) (r : option (Decoder T)) (tgt : T)
    (ctx : Context) (s : St) (res : Response) (s' : St) :
  round_trip method url key v ctx s res s' ->
  400 <= http.StatusCode res < 600 ->
  exists problem,
    doReqEx method url key v r tgt ctx s
    = Done (Some res, Some (httpError res problem), tgt) s'
    /\ (forall b,
          http.Get (http.Header_ res) "Content-Type" = "application/problem+json" ->
          http.Body res = inr b -> problem = b)
    /\ (http.Get (http.Header_ res) "Content-Type" <> "application/problem+json" ->
        problem = [])
    /\ (forall msg, http.Body res = inl msg -> problem = []).
Proof.
  intros Hrt Hs. rewrite (doReqEx_round_trip _ _ _ _ r tgt _ _ _ _ Hrt).
  rewrite handleResponse_error_status by exact Hs.
  unfold newHTTPError, ReadAll. eexists. split; [reflexivity|]. split; [|split].
  - intros b Hct Hb. rewrite Hct, Hb. reflexivity.
  - intros Hct. apply streq_false in Hct. rewrite Hct. reflexivity.
  - intros msg Hb. rewrite Hb. destruct (Go.streq _ _); reflexivity.
Qed.

Lemma doReqEx_error_status_witness :
  let E := Toy.env Toy.registrar in
  let s := Toy.start Toy.registrar (Toy.client (Some (rsa_PrivateKey 1)) [] "") in
  let res := Toy.response 409 [("Content-Type", "application/problem+json");
                               ("Location", "https://ca/acct/1")]
               "already registered" in
  exists s',
    round_trip (env := E) "POST" "https://ca/new-reg" None
      (Some (P_regInfo (new_reg (st_client s)))) Toy.background s res s'
    /\ 400 <= http.StatusCode res < 600
    /\ doReqEx (env := E) "POST" "https://ca/new-reg" None
         (Some (P_regInfo (new_reg (st_client s)))) (Some json_Decode_regInfo) None
         Toy.background s
       = Done (Some res,
               Some (httpError res (list_byte_of_string "already registered")), None) s'.
Proof.
  intros E s res.
  set (req := NewRequest "POST" "https://ca/new-reg" (Some "jws.RS256")).
  set (s' := with_client (env := E) (keepNonce res)
               (@Build_St E (st_client s) ((1%nat, Toy.epoch) : Toy.W) [req])).
  assert (Hrt : round_trip (env := E) "POST" "https://ca/new-reg" None
                  (Some (P_regInfo (new_reg (st_client s)))) Toy.background s res s').
  { split; [reflexivity|]. exists (Some "jws.RS256"), s, ((1%nat, Toy.epoch) : Toy.W).
    split; [exists "jws.RS256"; split; reflexivity|]. split; reflexivity. }
  assert (Hs : 400 <= http.StatusCode res < 600) by (simpl; lia).
  exists s'. split; [exact Hrt|]. split; [exact Hs|].
  destruct (doReqEx_error_status (env := E) "POST" "https://ca/new-reg" None
              (Some (P_regInfo (new_reg (st_client s)))) (Some json_Decode_regInfo) None
              Toy.background s res s' Hrt Hs) as (problem & Hrun & Hb & _).
  rewrite Hrun.
  rewrite (Hb (list_byte_of_string "already registered")); reflexivity.
Defined.

(** X4: [doReqEx] never returns a nil response with a nil error.  A nil
    error comes with the response received, whose status code is outside
    400..599; with a target, that response had the Content-Type
    application/json and its body was decoded into the target without
    error; without one, the target is untouched. *)
Theorem doReqEx_nil_error {env : Env} {T} (method url : string)
    (key : option PrivateKey) (v : option Payload) (r : option (Decoder T)) (tgt : T)
    (ctx : Context) (s : St) (ores : option Response) (err : option Error) (tgt' : T)
    (s' : St) :
  doReqEx method url key v r tgt ctx s = Done (ores, err, tgt') s' ->
  (ores = None -> err <> None)
  /\ (err = None ->
      exists res,
        ores = Some res
        /\ round_trip method url key v ctx s res s'
        /\ ~ 400 <= http.StatusCode res < 600
        /\ match r with
           | None => tgt' = tgt
           | Some dec =>
               http.Get (http.Header_ res) "Content-Type" = "application/json"
               /\ dec (http.Body res) tgt = (None, tgt')
           end).
Proof.
  intros H. split.
  - intros -> ->. exact (doReqEx_not_nil_nil _ _ _ _ _ _ _ _ _ _ H).
  - intros ->. destruct (doReqEx_ok_inv _ _ _ _ _ _ _ _ _ _ _ H) as (res & -> & Hrt & Hh).
    exists res. split; [reflexivity|]. split; [exact Hrt|].
    destruct (handleResponse_ok _ _ _ _ _ Hh) as (_ & Hs & Hr). auto.
Qed.

Lemma doReqEx_nil_error_witness :
  let E := Toy.env Toy.ca in
  let s := Toy.start Toy.ca (Toy.client None [] "") in
  let az := Toy.authorization "https://ca/authz/3" in
  exists res az' s',
    doReqEx (env := E) "GET" "https://ca/authz/3" None None (Some decode_Authorization) az
      Toy.background s = Done (Some res, None, az') s'
    /\ http.Get (http.Header_ res) "Content-Type" = "application/json"
    /\ decode_Authorization (env := E) (http.Body res) az = (None, az').
Proof.
  intros E s az. eexists _, _, _.
  assert (Hrun : doReqEx (env := E) "GET" "https://ca/authz/3" None None
                   (Some decode_Authorization) az Toy.background s
                 = ltac:(let r := eval vm_compute in
                           (doReqEx (env := E) "GET" "https://ca/authz/3" None None
                              (Some decode_Authorization) az Toy.background s)
                         in exact r))
    by (vm_compute; reflexivity).
  split; [exact Hrun|].
  destruct (proj2 (doReqEx_nil_error (env := E) _ _ _ _ _ _ _ _ _ _ _ _ Hrun) eq_refl)
    as (res & Hres & _ & _ & Hct & Hdec).
  injection Hres as <-. split; [exact Hct | exact Hdec].
Defined.

(** X5: a call of [doReqEx] that returns has handed at most one request
    to [ctxhttp.Do]; this does not count what the nonce source of the
    signer may send while the payload is signed, which happens inside the
    signer.  When the call hands over no request it fails and returns no
    response; the request it hands over goes to the URL of the call
    (after the test-mode rewrite), which [ValidURL] accepts, has the
    method of the call, the headers User-Agent and Accept, a Content-Type
    exactly for a POST, and a body exactly when the call has a payload. *)
Theorem doReqEx_one_dispatch {env : Env} {T} (method url : string)
    (key : option PrivateKey) (v : option Payload) (r : option (Decoder T)) (tgt : T)
    (ctx : Context) (s : St) (a : option Response * option Error * T) (s' : St) :
  doReqEx method url key v r tgt ctx s = Done a s' ->
  (st_sent s' = st_sent s /\ exists e, a = (None, Some e, tgt))
  \/ (exists req,
        st_sent s' = (st_sent s ++ [req])%list
        /\ well_formed_request req
        /\ http.URL req = rewriteURL url
        /\ http.Method req = method
        /\ (http.ReqBody req = None <-> v = None)).
Proof.
  intros H. apply doReqEx_sent in H.
  destruct H as [H | (Hurl & rdr & Hs & Hb)]; [now left | right].
  exists (NewRequest method (rewriteURL url) rdr).
  split; [exact Hs|]. split; [now apply NewRequest_well_formed|].
  split; [reflexivity|]. split; [reflexivity | exact Hb].
Qed.

Lemma doReqEx_one_dispatch_witness :
  let E := Toy.env Toy.ca in
  let s := Toy.start Toy.ca (Toy.client None [] "") in
  exists a s',
    doReqEx (env := E) (T := unit) "GET" "https://ca/authz/3" None None None tt
      Toy.background s = Done a s'
    /\ exists req,
         st_sent s' = [req]
         /\ well_formed_request (env := E) req
         /\ http.URL req = "https://ca/authz/3".
Proof.
  intros E s. eexists _, _.
  assert (Hrun : doReqEx (env := E) (T := unit) "GET" "https://ca/authz/3" None None None
                   tt Toy.background s
                 = ltac:(let r := eval vm_compute in
                           (doReqEx (env := E) (T := unit) "GET" "https://ca/authz/3"
                              None None None tt Toy.background s)
                         in exact r))
    by (vm_compute; reflexivity).
  split; [exact Hrun|].
  destruct (doReqEx_one_dispatch (env := E) _ _ _ _ _ _ _ _ _ _ Hrun)
    as [[_ [e He]] | (req & Hs & Hwf & Hurl & _)]; [discriminate|].
  exists req. split; [exact Hs|]. split; [exact Hwf | exact Hurl].
Defined.

(** ** What the methods send, keep and never do *)

Section effects.

Context {env : Env}.

Lemma dispatches_weaken {A} (m : M A) n n' : (n <= n')%nat -> dispatches n m -> dispatches n' m.
Proof.
  intros Hle H s a s' Hrun. destruct (H s a s' Hrun) as (reqs & Hs & Hn & Hwf).
  exists reqs. split; [exact Hs|]. split; [lia | exact Hwf].
Qed.

Lemma dispatches_ret {A} n (a : A) : dispatches n (ret a).
Proof.
  intros s a' s' [= <- <-]. exists []. rewrite app_nil_r.
  split; [reflexivity|]. split; [simpl; lia | constructor].
Qed.

Lemma dispatches_panic {A} n : dispatches n (@panic env A).
Proof. intros s a s' H. discriminate. Qed.

Lemma dispatches_get_client n : dispatches n get_client.
Proof.
  intros s a s' [= <- <-]. exists []. rewrite app_nil_r.
  split; [reflexivity|]. split; [simpl; lia | constructor].
Qed.

Lemma dispatches_Now n : dispatches n Now.
Proof.
  intros s a s' [= <- <-]. exists []. rewrite app_nil_r.
  split; [reflexivity|]. split; [simpl; lia | constructor].
Qed.

Lemma dispatches_modify_client n f : dispatches n (modify_client f).
Proof.
  intros s a s' [= <- <-]. exists []. simpl. rewrite app_nil_r.
  split; [reflexivity|]. split; [simpl; lia | constructor].
Qed.

Lemma dispatches_bind {A B} n1 n2 (m : M A) (k : A -> M B) :
  dispatches n1 m -> (forall a, dispatches n2 (k a)) -> dispatches (n1 + n2) (bind m k).
Proof.
  intros Hm Hk s b s' Hrun. unfold bind in Hrun.
  destruct (m s) as [a s1| |] eqn:Em; try discriminate.
  destruct (Hm s a s1 Em) as (r1 & Hs1 & Hn1 & Hw1).
  destruct (Hk a s1 b s' Hrun) as (r2 & Hs2 & Hn2 & Hw2).
  exists (r1 ++ r2)%list. split; [now rewrite Hs2, Hs1, app_assoc|].
  split; [rewrite length_app; lia | now apply Forall_app].
Qed.











Lemma np_ret {A} (a : A) : never_panics (ret a).
Proof. intros s. discriminate. Qed.

Lemma np_get_client : never_panics get_client.
Proof. intros s. discriminate. Qed.

Lemma np_Now : never_panics Now.
Proof. intros s. discriminate. Qed.

Lemma np_modify_client f : never_panics (modify_client f).
Proof. intros s. discriminate. Qed.

Lemma np_bind {A B} (m : M A) (k : A -> M B) :
  never_panics m -> (forall a, never_panics (k a)) -> never_panics (bind m k).
Proof.
  intros Hm Hk s. unfold bind. destruct (m s) as [a s1| |] eqn:Em.
  - apply Hk.
  - now apply Hm in Em.
  - discriminate.
Qed.

(** After [doReqEx], the branch of a nil response and a nil error is
    never taken. *)
Lemma np_bind_doReqEx {T B} method url key (r : option (Decoder T)) tgt ctx
    (k : option Response * option Error * T -> M B) :
  (forall ores err tgt', (ores = None -> err <> None) -> never_panics (k (ores, err, tgt'))) ->
  never_panics (bind (doReqEx method url key None r tgt ctx) k).
Proof.
  intros Hk s. unfold bind.
  destruct (doReqEx method url key None r tgt ctx s) as [[[ores err] tgt'] s1| |] eqn:Em.
  - apply Hk. intros -> ->. exact (doReqEx_not_nil_nil _ _ _ _ _ _ _ _ _ _ Em).
  - now apply doReqEx_never_panics in Em.
  - discriminate.
Qed.

End effects.

(** Proof steps for the three kinds of statement: take the bodies of the
    methods apart along their binds and branches. *)
Ltac dispatches_leaf :=
  first [ apply dispatches_ret | apply dispatches_panic | apply dispatches_get_client
        | apply dispatches_Now | apply dispatches_modify_client
        | apply doReqEx_dispatches; lia ].

Ltac dispatches_branches :=
  repeat first
    [ dispatches_leaf
    | match goal with
      | |- dispatches ?n (bind get_client _) =>
          apply (dispatches_bind 0 n); [apply dispatches_get_client | intros ?]
      | |- dispatches ?n (bind Now _) =>
          apply (dispatches_bind 0 n); [apply dispatches_Now | intros ?]
      | |- dispatches ?n (bind (modify_client _) _) =>
          apply (dispatches_bind 0 n); [apply dispatches_modify_client | intros ?]
      | |- dispatches ?n (bind (if _ then modify_client _ else ret _) _) =>
          apply (dispatches_bind 0 n);
          [match goal with |- dispatches _ (if ?b then _ else _) => destruct b end;
           dispatches_leaf | intros ?]
      | |- dispatches _ (match ?x with _ => _ end) => destruct x
      end ].


Section methods_effects.

Context {env : Env}.

Lemma getDirectory_dispatches ctx : dispatches 1 (getDirectory ctx).
Proof.
  unfold getDirectory, doReq. dispatches_branches.
  apply (dispatches_bind 1 0); [dispatches_leaf | intros ?]. dispatches_branches.
Qed.

Lemma getRegistrationURI_dispatches ctx : dispatches 2 (getRegistrationURI ctx).
Proof.
  unfold getRegistrationURI, doReq. dispatches_branches.
  apply (dispatches_bind 1 1); [apply getDirectory_dispatches | intros ?]. dispatches_branches.
  apply (dispatches_bind 1 0); [dispatches_leaf | intros ?]. dispatches_branches.
Qed.

Lemma UpsertRegistration_dispatches ctx : dispatches 4 (UpsertRegistration ctx).
Proof.
  unfold UpsertRegistration, doReq.
  apply (dispatches_bind 2 2); [apply getRegistrationURI_dispatches | intros ?]. dispatches_branches.
  apply (dispatches_bind 1 1); [dispatches_leaf | intros ?]. dispatches_branches.
  apply (dispatches_bind 1 0); [dispatches_leaf | intros ?]. dispatches_branches.
Qed.

Lemma LoadAuthorization_dispatches az ctx : dispatches 1 (LoadAuthorization az ctx).
Proof.
  unfold LoadAuthorization, doReq.
  apply (dispatches_bind 1 0); [dispatches_leaf | intros ?]. dispatches_branches.
Qed.

Lemma NewAuthorization_dispatches hostname ctx : dispatches 2 (NewAuthorization hostname ctx).
Proof.
  unfold NewAuthorization, doReq.
  apply (dispatches_bind 1 1); [apply getDirectory_dispatches | intros ?]. dispatches_branches.
  apply (dispatches_bind 1 0); [dispatches_leaf | intros ?]. dispatches_branches.
Qed.

Lemma LoadChallenge_dispatches ch ctx : dispatches 1 (LoadChallenge ch ctx).
Proof.
  unfold LoadChallenge, doReq.
  apply (dispatches_bind 1 0); [dispatches_leaf | intros ?]. dispatches_branches.
Qed.

Lemma body_dispatches crt res ctx : dispatches 1 (loadExtraCertificates_body crt res ctx).
Proof.
  unfold loadExtraCertificates_body, doReq. dispatches_branches.
  apply (dispatches_bind 1 0); [dispatches_leaf | intros ?]. dispatches_branches.
Qed.

Lemma loop_dispatches fuel : forall crt res ctx,
  dispatches fuel (loadExtraCertificates_loop fuel crt res ctx).
Proof.
  induction fuel as [|fuel IH]; intros crt res ctx.
  - intros s a s' H. discriminate.
  - simpl. apply (dispatches_bind 1 fuel); [apply body_dispatches | intros [r|[crt' res']]].
    + apply dispatches_ret.
    + apply IH.
Qed.

Lemma loadCertificate_dispatches fuel crt res ctx :
  dispatches fuel (loadCertificate fuel crt res ctx).
Proof.
  unfold loadCertificate, loadExtraCertificates. dispatches_branches.
  apply (dispatches_weaken _ (fuel + 0)); [lia|].
  apply (dispatches_bind fuel 0); [apply loop_dispatches | intros ?]. dispatches_branches.
Qed.

Lemma LoadCertificate_dispatches fuel crt ctx :
  dispatches (1 + fuel) (LoadCertificate fuel crt ctx).
Proof.
  unfold LoadCertificate, doReq.
  apply (dispatches_bind 1 fuel); [dispatches_leaf | intros ?]. dispatches_branches.
  apply loadCertificate_dispatches.
Qed.

Lemma RequestCertificate_dispatches fuel csrDER ctx :
  dispatches (2 + fuel) (RequestCertificate fuel csrDER ctx).
Proof.
  unfold RequestCertificate, doReq.
  apply (dispatches_bind 1 (1 + fuel)); [apply getDirectory_dispatches | intros ?]. dispatches_branches.
  apply (dispatches_bind 1 fuel); [dispatches_leaf | intros ?]. dispatches_branches.
  apply (dispatches_weaken _ (fuel + 0)); [lia|].
  apply (dispatches_bind fuel 0); [apply loadCertificate_dispatches | intros ?]. dispatches_branches.
Qed.

Lemma Revoke_dispatches der key ctx : dispatches 2 (Revoke der key ctx).
Proof.
  unfold Revoke.
  apply (dispatches_bind 1 1); [apply getDirectory_dispatches | intros ?]. dispatches_branches.
  apply (dispatches_bind 1 0); [dispatches_leaf | intros ?]. dispatches_branches.
Qed.

Lemma waitUntil_dispatches t ctx pick : dispatches 0 (waitUntil t ctx pick).
Proof.
  unfold waitUntil. dispatches_branches.
  intros s0 a0 s0' [= <- <-]. exists []. simpl. rewrite app_nil_r.
  split; [reflexivity|]. split; [simpl; lia | constructor].
Qed.













End methods_effects.

Ltac np_steps :=
  repeat first
    [ apply np_ret | apply np_get_client | apply np_Now | apply np_modify_client
    | apply doReqEx_never_panics
    | match goal with
      | H : None = None -> None <> None |- _ => exfalso; exact (H eq_refl eq_refl)
      | H : context [never_panics] |- _ => apply H
      end
    | apply np_bind_doReqEx; intros ? ? ? ?
    | apply np_bind; [|intros ?]
    | match goal with
      | |- never_panics (match ?x with _ => _ end) => destruct x
      end ].

Section methods_never_panic.

Context {env : Env}.

Lemma LoadAuthorization_np az ctx : never_panics (LoadAuthorization az ctx).
Proof. unfold LoadAuthorization, doReq. np_steps. Qed.

Lemma LoadChallenge_np ch ctx : never_panics (LoadChallenge ch ctx).
Proof. unfold LoadChallenge, doReq. np_steps. Qed.

Lemma body_np crt res ctx : never_panics (loadExtraCertificates_body crt res ctx).
Proof. unfold loadExtraCertificates_body, doReq. np_steps. Qed.

Lemma loop_np fuel : forall crt res ctx,
  never_panics (loadExtraCertificates_loop fuel crt res ctx).
Proof.
  induction fuel as [|fuel IH]; intros crt res ctx.
  - intros s. discriminate.
  - simpl. apply np_bind; [apply body_np | intros [r|[crt' res']]].
    + apply np_ret.
    + apply IH.
Qed.

Lemma loadCertificate_np fuel crt res ctx :
  never_panics (loadCertificate fuel crt res ctx).
Proof.
  pose proof (loop_np fuel). unfold loadCertificate, loadExtraCertificates. np_steps.
Qed.

Lemma LoadCertificate_np fuel crt ctx : never_panics (LoadCertificate fuel crt ctx).
Proof.
  pose proof (loadCertificate_np fuel). unfold LoadCertificate, doReq. np_steps.
Qed.

Lemma waitUntil_np t ctx pick : never_panics (waitUntil t ctx pick).
Proof. unfold waitUntil. np_steps. intros s0. discriminate. Qed.

Lemma WaitLoadCertificate_np fuel crt ctx pick :
  never_panics (WaitLoadCertificate fuel crt ctx pick).
Proof.
  pose proof (LoadCertificate_np fuel). pose proof (waitUntil_np (crt_retryAt crt) ctx pick).
  unfold WaitLoadCertificate. np_steps.
Qed.

Lemma WaitForCertificate_np fuel walk : forall crt ctx picks,
  never_panics (WaitForCertificate fuel walk crt ctx picks).
Proof.
  induction fuel as [|fuel IH]; intros crt ctx picks.
  - intros s. discriminate.
  - simpl. destruct (0 <? length (crt_Certificate crt))%nat; [apply np_ret|].
    apply np_bind; [apply WaitLoadCertificate_np | intros [[e|] crt']].
    + apply np_ret.
    + apply IH.
Qed.

End methods_never_panic.

Section waits_effects.

Context {env : Env}.


Lemma WaitLoadAuthorization_dispatches az ctx pick :
  dispatches 1 (WaitLoadAuthorization az ctx pick).
Proof.
  unfold WaitLoadAuthorization.
  apply (dispatches_bind 0 1); [apply waitUntil_dispatches | intros [e|]].
  - apply dispatches_ret.
  - apply LoadAuthorization_dispatches.
Qed.

Lemma WaitLoadChallenge_dispatches ch ctx pick : dispatches 1 (WaitLoadChallenge ch ctx pick).
Proof.
  unfold WaitLoadChallenge.
  apply (dispatches_bind 0 1); [apply waitUntil_dispatches | intros [e|]].
  - apply dispatches_ret.
  - apply LoadChallenge_dispatches.
Qed.



End waits_effects.

(** X6: no method repeats a request of its own.  Counting the requests
    that [doReqEx] hands to [ctxhttp.Do], and so not what the nonce
    source of the signer may send while a payload is signed: when it
    returns, [getDirectory], [LoadAuthorization], [LoadChallenge] and
    their waiting forms have handed over at most one request,
    [getRegistrationURI], [NewAuthorization] and [Revoke] at most two,
    and [UpsertRegistration] at most four; each of these requests went to
    a URL that [ValidURL] accepts and had the headers [doReqEx] sets. *)
Theorem methods_dispatch_few_requests {env : Env} (ctx : Context) :
  dispatches 1 (getDirectory ctx)
  /\ dispatches 2 (getRegistrationURI ctx)
  /\ dispatches 4 (UpsertRegistration ctx)
  /\ (forall az, dispatches 1 (LoadAuthorization az ctx))
  /\ (forall az pick, dispatches 1 (WaitLoadAuthorization az ctx pick))
  /\ (forall hostname, dispatches 2 (NewAuthorization hostname ctx))
  /\ (forall ch, dispatches 1 (LoadChallenge ch ctx))
  /\ (forall ch pick, dispatches 1 (WaitLoadChallenge ch ctx pick))
  /\ (forall der key, dispatches 2 (Revoke der key ctx)).
Proof.
  split; [apply getDirectory_dispatches|].
  split; [apply getRegistrationURI_dispatches|].
  split; [apply UpsertRegistration_dispatches|].
  split; [intros; apply LoadAuthorization_dispatches|].
  split; [intros; apply WaitLoadAuthorization_dispatches|].
  split; [intros; apply NewAuthorization_dispatches|].
  split; [intros; apply LoadChallenge_dispatches|].
  split; [intros; apply WaitLoadChallenge_dispatches|].
  intros; apply Revoke_dispatches.
Qed.

Lemma methods_dispatch_few_requests_witness :
  let E := Toy.env Toy.registrar in
  let s := Toy.start Toy.registrar
             (Toy.client (Some (rsa_PrivateKey 1)) ["https://ca/tos/v2"] "") in
  exists s',
    UpsertRegistration (env := E) Toy.background s = Done None s'
    /\ length (st_sent s') = 3%nat
    /\ exists reqs,
         st_sent s' = (st_sent s ++ reqs)%list
         /\ (length reqs <= 4)%nat
         /\ Forall (well_formed_request (env := E)) reqs.
Proof.
  intros E s. eexists.
  assert (Hrun : UpsertRegistration (env := E) Toy.background s
                 = ltac:(let r := eval vm_compute in
                           (UpsertRegistration (env := E) Toy.background s)
                         in exact r))
    by (vm_compute; reflexivity).
  split; [exact Hrun|]. split; [reflexivity|].
  exact (proj1 (proj2 (proj2 (methods_dispatch_few_requests (env := E) Toy.background)))
           _ _ _ Hrun).
Defined.



(** X8: the loads never panic: [LoadAuthorization], [LoadChallenge],
    [LoadCertificate], [WaitLoadCertificate] and [WaitForCertificate]
    dereference the response of a request only when [doReqEx] returned
    one, and [doReqEx] returns one whenever its error is nil. *)
Theorem loads_never_panic {env : Env} (ctx : Context) :
  (forall az, never_panics (LoadAuthorization az ctx))
  /\ (forall ch, never_panics (LoadChallenge ch ctx))
  /\ (forall fuel crt, never_panics (LoadCertificate fuel crt ctx))
  /\ (forall fuel crt pick, never_panics (WaitLoadCertificate fuel crt ctx pick))
  /\ (forall fuel walk crt picks, never_panics (WaitForCertificate fuel walk crt ctx picks)).
Proof.
  split; [intros; apply LoadAuthorization_np|].
  split; [intros; apply LoadChallenge_np|].
  split; [intros; apply LoadCertificate_np|].
  split; [intros; apply WaitLoadCertificate_np|].
  intros; apply WaitForCertificate_np.
Qed.

Lemma loads_never_panic_witness :
  let E := Toy.env Toy.nowhere in
  let s := Toy.start Toy.nowhere (Toy.client None [] "") in
  LoadAuthorization (env := E) (Toy.authorization "") Toy.background s <> Panicked
  /\ LoadCertificate (env := E) 3 (Toy.certificate "https://ca/cert/5")
       Toy.background s <> Panicked.
Proof.
  intros E s. split.
  - exact (proj1 (loads_never_panic (env := E) Toy.background) (Toy.authorization "") s).
  - exact (proj1 (proj2 (proj2 (loads_never_panic (env := E) Toy.background)))
             3%nat (Toy.certificate "https://ca/cert/5") s).
Defined.

(** ** The directory *)

Section getDirectory_facts.

Context {env : Env}.

Lemma getDirectory_fetch ctx s :
  c_dir (st_client s) = None ->
  getDirectory ctx s =
  match doReq "GET" (c_DirectoryURL (st_client (with_default_DirectoryURL s))) None
          (Some json_Decode_directoryInfo) None ctx (with_default_DirectoryURL s) with
  | Done (_, err, d) s1 =>
      match err with
      | Some e => Done (None, Some e) (with_client (set_dir d) s1)
      | None =>
          match d with
          | None => Panicked
          | Some di =>
              if negb (ValidURL (NewReg di)) || negb (ValidURL (NewAuthz di))
                 || negb (ValidURL (NewCert di))
              then Done (None, Some ErrDirectory)
                     (with_client (set_dir None) (with_client (set_dir d) s1))
              else Done (Some di, None) (with_client (set_dir d) s1)
          end
      end
  | Panicked => Panicked
  | OutOfFuel => OutOfFuel
  end.
Proof.
  intros Hnil. unfold getDirectory, bind, get_client, with_default_DirectoryURL.
  rewrite Hnil.
  destruct (Go.streq (c_DirectoryURL (st_client s)) ""); simpl; rewrite Hnil;
    (destruct (doReq "GET" _ None _ None ctx _) as [[[ores err] d] s1| |];
     [|reflexivity|reflexivity]);
    unfold modify_client, ret, panic;
    (destruct err; [reflexivity|]); (destruct d as [di|]; [|reflexivity]);
    destruct (negb _ || negb _ || negb _); reflexivity.
Qed.

End getDirectory_facts.

(** X9: [getDirectory] returns either a directory or an error, never both
    and never neither.  A directory it returns is cached in the client,
    so that the next call returns it again and leaves the state alone,
    sending nothing; when it had to be fetched, its new-reg, new-authz
    and new-cert URLs pass [ValidURL].  A cached directory is returned
    without any effect, and a fetch with an empty DirectoryURL sets it to
    the default. *)
Theorem getDirectory_caching {env : Env} (ctx : Context) (s : St)
    (odi : option directoryInfo) (err : option Error) (s' : St) :
  getDirectory ctx s = Done (odi, err) s' ->
  (err = None ->
   exists di,
     odi = Some di
     /\ c_dir (st_client s') = Some di
     /\ getDirectory ctx s' = Done (Some di, None) s'
     /\ (c_dir (st_client s) = None ->
         ValidURL (NewReg di) = true /\ ValidURL (NewAuthz di) = true
         /\ ValidURL (NewCert di) = true))
  /\ (err <> None -> odi = None)
  /\ (c_dir (st_client s) <> None -> s' = s /\ odi = c_dir (st_client s) /\ err = None)
  /\ (c_dir (st_client s) = None -> c_DirectoryURL (st_client s) = "" ->
      c_DirectoryURL (st_client s') = DefaultDirectoryURL)
  /\ (c_dir (st_client s) = None -> c_DirectoryURL (st_client s) <> "" ->
      c_DirectoryURL (st_client s') = c_DirectoryURL (st_client s)).
Proof.
  intros H. destruct (c_dir (st_client s)) as [di0|] eqn:Hdir.
  - rewrite (getDirectory_cached ctx s di0 Hdir) in H. injection H as <- <- <-.
    split; [|split; [|split; [|split]]]; try congruence.
    + intros _. exists di0. split; [reflexivity|]. split; [exact Hdir|].
      split; [now apply getDirectory_cached | discriminate].
    + auto.
  - rewrite (getDirectory_fetch ctx s Hdir) in H. unfold doReq in H.
    destruct (doReqEx "GET" _ None None (Some json_Decode_directoryInfo) None ctx
                (with_default_DirectoryURL s)) as [[[ores e0] d] s1| |] eqn:Hrun;
      try discriminate.
    destruct (doReqEx_frame _ _ _ _ _ _ _ _ _ _ Hrun) as (_ & _ & Hurl & _).
    assert (Hdef : c_DirectoryURL (st_client (with_default_DirectoryURL s))
                   = if Go.streq (c_DirectoryURL (st_client s)) ""
                     then DefaultDirectoryURL else c_DirectoryURL (st_client s)).
    { unfold with_default_DirectoryURL. destruct (Go.streq _ ""); reflexivity. }
    assert (Hurl' : c_DirectoryURL (st_client s')
                    = if Go.streq (c_DirectoryURL (st_client s)) ""
                      then DefaultDirectoryURL else c_DirectoryURL (st_client s)).
    { rewrite <- Hdef, <- Hurl.
      destruct e0; [now injection H as _ _ <-|].
      destruct d as [di|]; [|discriminate].
      destruct (negb _ || negb _ || negb _); now injection H as _ _ <-. }
    split; [|split; [|split; [|split]]].
    + intros ->. destruct e0; [discriminate|]. destruct d as [di|]; [|discriminate].
      destruct (negb (ValidURL (NewReg di)) || negb (ValidURL (NewAuthz di))
                || negb (ValidURL (NewCert di))) eqn:Hv; [discriminate|].
      injection H as <- <-. exists di. split; [reflexivity|]. split; [reflexivity|].
      split; [now apply getDirectory_cached|]. intros _.
      apply orb_false_iff in Hv. destruct Hv as [Hv H3].
      apply orb_false_iff in Hv. destruct Hv as [H1 H2].
      apply negb_false_iff in H1, H2, H3. auto.
    + intros Hne. destruct e0; [now injection H as <- _ _|].
      destruct d as [di|]; [|discriminate].
      destruct (negb _ || negb _ || negb _); injection H as <- <- _; congruence.
    + congruence.
    + intros _ Hemp. rewrite Hurl', Hemp. reflexivity.
    + intros _ Hne. rewrite Hurl'. apply streq_false in Hne. now rewrite Hne.
Qed.

Lemma getDirectory_caching_witness :
  let E := Toy.env Toy.directories in
  let s := Toy.start Toy.directories (Toy.uncached None "") in
  exists s',
    getDirectory (env := E) Toy.background s = Done (Some Toy.directory, None) s'
    /\ c_dir (st_client s') = Some Toy.directory
    /\ c_DirectoryURL (st_client s') = DefaultDirectoryURL
    /\ getDirectory (env := E) Toy.background s' = Done (Some Toy.directory, None) s'
    /\ ValidURL (env := E) (NewReg Toy.directory) = true.
Proof.
  intros E s. eexists.
  assert (Hrun : getDirectory (env := E) Toy.background s
                 = ltac:(let r := eval vm_compute in
                           (getDirectory (env := E) Toy.background s)
                         in exact r))
    by (vm_compute; reflexivity).
  split; [exact Hrun|].
  destruct (getDirectory_caching (env := E) _ _ _ _ _ Hrun) as (Hok & _ & _ & Hdef & _).
  destruct (Hok eq_refl) as (di & Hdi & Hc & Hagain & Hvalid).
  injection Hdi as <-.
  split; [exact Hc|]. split; [exact (Hdef eq_refl eq_refl)|].
  split; [exact Hagain|]. exact (proj1 (Hvalid eq_refl)).
Defined.

(** X10: [getDirectory] panics in exactly one case: no directory is
    cached, the GET of the directory is answered with a status code
    outside 400..599 and the Content-Type application/json, and the body
    decodes without error to a nil directory, as the document [null]
    does; [c.dir.NewReg] is then read through a nil pointer. *)
Theorem getDirectory_panics_iff {env : Env} (ctx : Context) (s : St) :
  getDirectory ctx s = Panicked <->
  c_dir (st_client s) = None
  /\ exists res s1,
       round_trip "GET" (c_DirectoryURL (st_client (with_default_DirectoryURL s)))
         None None ctx (with_default_DirectoryURL s) res s1
       /\ ~ 400 <= http.StatusCode res < 600
       /\ http.Get (http.Header_ res) "Content-Type" = "application/json"
       /\ json_Decode_directoryInfo (http.Body res) None = (None, None).
Proof.
  split.
  - intros H. destruct (c_dir (st_client s)) as [di0|] eqn:Hdir.
    + rewrite (getDirectory_cached ctx s di0 Hdir) in H. discriminate.
    + split; [reflexivity|]. rewrite (getDirectory_fetch ctx s Hdir) in H.
      unfold doReq in H.
      destruct (doReqEx "GET" _ None None (Some json_Decode_directoryInfo) None ctx
                  (with_default_DirectoryURL s)) as [[[ores e0] d] s1| |] eqn:Hrun;
        try discriminate.
      * destruct e0; [discriminate|]. destruct d as [di|].
        -- destruct (negb _ || negb _ || negb _); discriminate.
        -- destruct (doReqEx_ok_inv _ _ _ _ _ _ _ _ _ _ _ Hrun) as (res & -> & Hrt & Hh).
           destruct (handleResponse_ok _ _ _ _ _ Hh) as (_ & Hs & Hct & Hdec).
           exists res, s1. auto.
      * now apply doReqEx_never_panics in Hrun.
  - intros (Hdir & res & s1 & Hrt & Hs & Hct & Hdec).
    rewrite (getDirectory_fetch ctx s Hdir). unfold doReq.
    rewrite (doReqEx_round_trip _ _ _ _ (Some json_Decode_directoryInfo) None _ _ _ _ Hrt).
    pose proof (handleResponse_decoded json_Decode_directoryInfo None res None
                  Hs Hct Hdec) as Hh.
    destruct (handleResponse _ _ _) as [[ores e0] d] eqn:E.
    injection Hh as -> -> ->. reflexivity.
Qed.

Lemma getDirectory_panics_iff_witness :
  let E := Toy.env Toy.directories in
  let s := Toy.start Toy.directories (Toy.uncached None "https://ca/directory") in
  let res := Toy.response 200 [("Content-Type", "application/json")] "null" in
  c_dir (st_client s) = None
  /\ (exists s1,
        round_trip (env := E) "GET" "https://ca/directory" None None Toy.background s res s1
        /\ json_Decode_directoryInfo (Env := E) (http.Body res) None = (None, None))
  /\ getDirectory (env := E) Toy.background s = Panicked.
Proof.
  intros E s res.
  set (s1 := with_client (env := E) (keepNonce res)
               (@Build_St E (st_client s) ((1%nat, Toy.epoch) : Toy.W)
                  [NewRequest "GET" "https://ca/directory" None])).
  assert (Hrt : round_trip (env := E) "GET" "https://ca/directory" None None
                  Toy.background s res s1).
  { split; [reflexivity|]. exists None, s, ((1%nat, Toy.epoch) : Toy.W).
    split; [split; reflexivity|]. split; reflexivity. }
  assert (Hdec : json_Decode_directoryInfo (Env := E) (http.Body res) None = (None, None))
    by (vm_compute; reflexivity).
  split; [reflexivity|]. split; [exists s1; split; assumption|].
  apply (proj2 (getDirectory_panics_iff (env := E) Toy.background s)).
  split; [reflexivity|]. exists res, s1. split; [exact Hrt|].
  split; [simpl; lia|]. split; [vm_compute; reflexivity | exact Hdec].
Defined.

(** ** Validation of an authorization *)

(** X11: [validate] touches nothing of an authorization but its
    combinations, and those only when they were nil and there is a
    challenge; the error about malformed combinations is never raised
    against combinations it made up itself; and an authorization it has
    accepted is accepted again, unchanged. *)
Theorem validate_idempotent (az : Authorization) (err : option Error)
    (az' : Authorization) :
  validate az = (err, az') ->
  az' = set_az_Combinations (az_Combinations az') az
  /\ (az_Combinations az <> None \/ az_Challenges az = [] -> az' = az)
  /\ (az_Combinations az = None -> err = None \/ err = Some ErrNoChallenges)
  /\ (err = None ->
      az_Challenges az' <> [] /\ az_Combinations az' <> None
      /\ validate az' = (None, az')).
Proof.
  rewrite validate_eq.
  destruct (length (az_Challenges az) =? 0)%nat eqn:El.
  - intros [= <- <-]. split; [now destruct az|]. split; [reflexivity|].
    split; [auto | discriminate].
  - cbv zeta.
    assert (Hne : az_Challenges az <> []).
    { intros Hnil. rewrite Hnil in El. discriminate. }
    assert (Hkept : az_Combinations az <> None \/ az_Challenges az = [] ->
                    set_az_Combinations (Some (validated_combinations az)) az = az).
    { intros [Hc|Hc]; [|contradiction]. unfold validated_combinations.
      destruct az as [u r i st e chs [cs|] t]; [reflexivity | contradiction]. }
    destruct (combinations_malformed _ _) eqn:Em; intros [= <- <-].
    + split; [reflexivity|]. split; [exact Hkept|]. split; [|discriminate].
      intros Hnil. exfalso.
      unfold validated_combinations in Em. rewrite Hnil in Em.
      apply combinations_malformed_true in Em.
      destruct Em as (c & i & [<-|[]] & Hi & Hle). apply indices_lt in Hi. lia.
    + split; [reflexivity|]. split; [exact Hkept|]. split; [auto|]. intros _.
      split; [exact Hne|]. split; [discriminate|].
      rewrite validate_eq. simpl az_Challenges. rewrite El. cbv zeta.
      change (validated_combinations
                (set_az_Combinations (Some (validated_combinations az)) az))
        with (validated_combinations az).
      rewrite Em. reflexivity.
Qed.

Lemma validate_idempotent_witness :
  let az := set_az_Combinations (Some [[0]; [-1; 1]])
              {| az_URI := "https://ca/authz/1";
                 az_Resource := "authz";
                 az_Identifier := {| id_Type := "dns"; id_Value := "example.com" |};
                 az_Status := "pending";
                 az_Expires := time.zero;
                 az_Challenges := [Some (Toy.challenge "https://ca/chal/a");
                                   Some (Toy.challenge "https://ca/chal/b")];
                 az_Combinations := None;
                 az_retryAt := time.zero |} in
  validate az = (None, az) /\ az_Combinations az <> None.
Proof.
  intros az.
  assert (Hrun : validate az = (None, az)) by reflexivity.
  destruct (validate_idempotent az None az Hrun) as (_ & _ & _ & Hok).
  destruct (Hok eq_refl) as (_ & Hc & Hagain).
  split; [exact Hagain | exact Hc].
Defined.

(** ** Waiting for an instant *)

(** X12: [waitUntil] always returns, and returns nil or the error of the
    context; it dispatches nothing and leaves the client alone.  With
    [fires] the instant the wait is over (now, or the instant [t] when
    that is later), a context that is never done gives nil, one that is
    done before [fires] gives its error, and one that is done only after
    [fires] gives nil. *)
Theorem waitUntil_outcome {env : Env} (t : Time) (ctx : Context) (pick : bool) (s : St) :
  let now := time_Now (st_world s) in
  let fires := if time.After t now then time.Add now (time.Sub t now) else now in
  exists err s',
    waitUntil t ctx pick s = Done err s'
    /\ st_client s' = st_client s /\ st_sent s' = st_sent s
    /\ (err = None \/ err = Some (Err ctx))
    /\ now <= fires
    /\ (Done_at ctx = None -> err = None)
    /\ (forall d, Done_at ctx = Some d -> d < fires -> err = Some (Err ctx))
    /\ (forall d, Done_at ctx = Some d -> fires < d -> err = None)
    /\ (err = Some (Err ctx) -> exists d, Done_at ctx = Some d /\ d <= fires).
Proof.
  cbv zeta. unfold waitUntil, bind, Now, waitUntil_select, cancelled, ret.
  set (now := time_Now (st_world s)).
  assert (Hsub : time.After t now = true -> 0 < time.Sub t now).
  { unfold time.After, time.Sub, time.maxDuration, time.minDuration.
    intros H. apply Z.ltb_lt in H.
    destruct (2 ^ 63 - 1 <? t - now); [lia|].
    destruct (Z.ltb_spec (t - now) (- 2 ^ 63)); lia. }
  destruct (time.After t now) eqn:Ea.
  - specialize (Hsub eq_refl). unfold time.Add.
    destruct (Done_at ctx) as [d|] eqn:Hd.
    + destruct (Z.leb_spec d now) as [Hc|Hc].
      * eexists _, _. split; [reflexivity|]. repeat (split; [reflexivity|]).
        split; [auto|]. split; [lia|]. split; [discriminate|].
        split; [reflexivity|]. split; [intros d' [= <-]; lia|].
        intros _. exists d. split; [reflexivity | lia].
      * destruct (Z.ltb_spec d (now + time.Sub t now)) as [H1|H1].
        -- eexists _, _. split; [reflexivity|]. repeat (split; [reflexivity|]).
           split; [auto|]. split; [lia|]. split; [discriminate|].
           split; [reflexivity|]. split; [intros d' [= <-]; lia|].
           intros _. exists d. split; [reflexivity | lia].
        -- destruct (Z.ltb_spec (now + time.Sub t now) d) as [H2|H2].
           ++ eexists _, _. split; [reflexivity|]. repeat (split; [reflexivity|]).
              split; [auto|]. split; [lia|]. split; [discriminate|].
              split; [intros d' [= <-]; lia|]. split; [reflexivity | discriminate].
           ++ destruct pick.
              ** eexists _, _. split; [reflexivity|]. repeat (split; [reflexivity|]).
                 split; [auto|]. split; [lia|]. split; [discriminate|].
                 split; [reflexivity|]. split; [intros d' [= <-]; lia|].
                 intros _. exists d. split; [reflexivity | lia].
              ** eexists _, _. split; [reflexivity|]. repeat (split; [reflexivity|]).
                 split; [auto|]. split; [lia|]. split; [discriminate|].
                 split; [intros d' [= <-]; lia|]. split; [reflexivity | discriminate].
    + eexists _, _. split; [reflexivity|]. repeat (split; [reflexivity|]).
      split; [auto|]. split; [lia|]. split; [reflexivity|].
      split; [discriminate|]. split; [reflexivity | discriminate].
  - destruct (Done_at ctx) as [d|] eqn:Hd.
    + destruct (Z.leb_spec d now) as [Hc|Hc].
      * eexists _, _. split; [reflexivity|]. repeat (split; [reflexivity|]).
        split; [auto|]. split; [lia|]. split; [discriminate|].
        split; [reflexivity|]. split; [intros d' [= <-]; lia|].
        intros _. exists d. split; [reflexivity | lia].
      * eexists _, _. split; [reflexivity|]. repeat (split; [reflexivity|]).
        split; [auto|]. split; [lia|]. split; [discriminate|].
        split; [intros d' [= <-]; lia|]. split; [reflexivity | discriminate].
    + eexists _, _. split; [reflexivity|]. repeat (split; [reflexivity|]).
      split; [auto|]. split; [lia|]. split; [reflexivity|].
      split; [discriminate|]. split; [reflexivity | discriminate].
Qed.

Lemma waitUntil_outcome_witness :
  let E := Toy.env Toy.nowhere in
  let s := Toy.start Toy.nowhere (Toy.client None [] "") in
  let t := Toy.epoch + 30 * time.Second in
  (* a deadline ten seconds away ends a wait of thirty seconds *)
  (exists s', waitUntil (env := E) t (Toy.cancelled_at (Toy.epoch + 10 * time.Second))
                false s = Done (Some (ErrLib "context canceled")) s')
  (* and one a minute away does not *)
  /\ (exists s', waitUntil (env := E) t (Toy.cancelled_at (Toy.epoch + 60 * time.Second))
                   false s = Done None s').
Proof.
  intros E s t. split.
  - destruct (waitUntil_outcome (env := E) t
                (Toy.cancelled_at (Toy.epoch + 10 * time.Second)) false s)
      as (err & s' & Hrun & _ & _ & _ & _ & _ & Hbefore & _).
    rewrite (Hbefore _ eq_refl) in Hrun by (vm_compute; reflexivity).
    exists s'. exact Hrun.
  - destruct (waitUntil_outcome (env := E) t
                (Toy.cancelled_at (Toy.epoch + 60 * time.Second)) false s)
      as (err & s' & Hrun & _ & _ & _ & _ & _ & _ & Hafter & _).
    rewrite (Hafter _ eq_refl) in Hrun by (vm_compute; reflexivity).
    exists s'. exact Hrun.
Defined.

(** ** Where a panic can come from *)

Section panic_sources.

Context {env : Env}.

(** [getDirectory] returns a directory exactly when it returns no error. *)
Lemma getDirectory_result ctx s odi err s' :
  getDirectory ctx s = Done (odi, err) s' ->
  (err = None /\ exists di, odi = Some di) \/ (odi = None /\ err <> None).
Proof.
  destruct (c_dir (st_client s)) as [di0|] eqn:Hdir.
  - rewrite (getDirectory_cached ctx s di0 Hdir). intros [= <- <- _]. left. eauto.
  - rewrite (getDirectory_fetch ctx s Hdir).
    destruct (doReq "GET" _ None _ None ctx _) as [[[ores e0] d] s1| |];
      try discriminate.
    destruct e0 as [e|]; [intros [= <- <- _]; right; split; [reflexivity | discriminate]|].
    destruct d as [di|]; [|discriminate].
    destruct (negb _ || negb _ || negb _); intros [= <- <- _].
    + right. split; [reflexivity | discriminate].
    + left. eauto.
Qed.

Lemma doReqEx_signing_panics {T} method url key v (r : option (Decoder T)) tgt ctx s :
  doReqEx method url key (Some v) r tgt ctx s = Panicked <-> signing_panics url key v s.
Proof.
  rewrite doReqEx_panics. unfold signing_panics. split.
  - intros (Hurl & (p & b & [= <-] & Hm) & Hk). eauto.
  - intros (Hurl & (b & Hm) & Hk). eauto 7.
Qed.

(** A signed request followed by steps that do not panic: the panic, if
    any, is in the signing. *)
Lemma bind_doReqEx_panics {T B} method url key v (r : option (Decoder T)) tgt ctx
    (k : option Response * option Error * T -> M B) s :
  (forall ores err tgt', (ores = None -> err <> None) -> never_panics (k (ores, err, tgt'))) ->
  bind (doReqEx method url key (Some v) r tgt ctx) k s = Panicked <->
  signing_panics url key v s.
Proof.
  intros Hk. rewrite <- (doReqEx_signing_panics method url key v r tgt ctx s).
  unfold bind.
  destruct (doReqEx method url key (Some v) r tgt ctx s) as [[[ores err] tgt'] s1| |] eqn:Em.
  - split; [|discriminate]. intros H. exfalso. revert H. apply Hk.
    intros -> ->. exact (doReqEx_not_nil_nil _ _ _ _ _ _ _ _ _ _ Em).
  - split; reflexivity.
  - now apply doReqEx_not_OutOfFuel in Em.
Qed.

(** The directory, then steps that panic only as [P] says. *)
Lemma bind_getDirectory_panics {B} ctx
    (k : option directoryInfo * option Error -> M B) (P : directoryInfo -> St -> Prop) s :
  (forall di s1, k (Some di, None) s1 = Panicked <-> P di s1) ->
  (forall odi e, never_panics (k (odi, Some e))) ->
  bind (getDirectory ctx) k s = Panicked <->
  getDirectory ctx s = Panicked
  \/ exists di s1, getDirectory ctx s = Done (Some di, None) s1 /\ P di s1.
Proof.
  intros Hok Herr. unfold bind.
  destruct (getDirectory ctx s) as [[odi err] s1| |] eqn:Hd.
  - destruct (getDirectory_result _ _ _ _ _ Hd) as [[-> [di ->]] | [-> Hne]].
    + rewrite Hok. split; [eauto|].
      intros [H | (di' & s1' & [= <- <-] & H)]; [discriminate | exact H].
    + destruct err as [e|]; [|congruence]. split.
      * intros H. now apply Herr in H.
      * intros [H | (di' & s1' & [=] & _)]. discriminate.
  - split; [auto | reflexivity].
  - split; [discriminate|]. intros [H | (di' & s1' & H & _)]; discriminate.
Qed.

Lemma getRegistrationURI_panics ctx s :
  getRegistrationURI ctx s = Panicked <->
  RegistrationURI (c_AccountInfo (st_client s)) = ""
  /\ (getDirectory ctx s = Panicked
      \/ exists di s1,
           getDirectory ctx s = Done (Some di, None) s1
           /\ signing_panics (NewReg di) None (P_regInfo (new_reg (st_client s1))) s1).
Proof.
  unfold getRegistrationURI at 1. unfold bind at 1. unfold get_client at 1.
  destruct (Go.streq (RegistrationURI (c_AccountInfo (st_client s))) "") eqn:Ek.
  - apply streq_true in Ek. change (negb true) with false. cbv iota.
    rewrite (bind_getDirectory_panics ctx _
               (fun di s1 =>
                  signing_panics (NewReg di) None (P_regInfo (new_reg (st_client s1))) s1));
      [tauto| |].
    + intros di s1. unfold bind at 1. unfold get_client at 1. unfold doReq.
      apply bind_doReqEx_panics. intros ores err ri Hnn. np_steps.
    + intros odi e. np_steps.
  - apply streq_false in Ek. simpl. split; [discriminate | tauto].
Qed.

Lemma NewAuthorization_panics hostname ctx s :
  NewAuthorization hostname ctx s = Panicked <->
  getDirectory ctx s = Panicked
  \/ exists di s1,
       getDirectory ctx s = Done (Some di, None) s1
       /\ signing_panics (NewAuthz di) None (P_Authorization (new_authz hostname)) s1.
Proof.
  unfold NewAuthorization.
  apply (bind_getDirectory_panics ctx _
           (fun di s1 =>
              signing_panics (NewAuthz di) None (P_Authorization (new_authz hostname)) s1)).
  - intros di s1. unfold doReq. apply bind_doReqEx_panics.
    intros ores err az Hnn. np_steps.
  - intros odi e. np_steps.
Qed.

Lemma RequestCertificate_panics fuel csrDER ctx s :
  RequestCertificate fuel csrDER ctx s = Panicked <->
  getDirectory ctx s = Panicked
  \/ exists di s1,
       getDirectory ctx s = Done (Some di, None) s1
       /\ signing_panics (NewCert di) None (P_Certificate (new_cert csrDER)) s1.
Proof.
  unfold RequestCertificate.
  apply (bind_getDirectory_panics ctx _
           (fun di s1 =>
              signing_panics (NewCert di) None (P_Certificate (new_cert csrDER)) s1)).
  - intros di s1. unfold doReq. apply bind_doReqEx_panics.
    intros ores err u Hnn. pose proof (loadCertificate_np fuel). np_steps.
  - intros odi e. np_steps.
Qed.

Lemma Revoke_panics der key ctx s :
  Revoke der key ctx s = Panicked <->
  getDirectory ctx s = Panicked
  \/ exists di s1,
       getDirectory ctx s = Done (Some di, None) s1
       /\ signing_panics (RevokeCert di) key
            (P_revokeReq {| rr_Resource := "revoke-cert"; rr_Certificate := der |}) s1.
Proof.
  unfold Revoke.
  apply (bind_getDirectory_panics ctx _
           (fun di s1 =>
              signing_panics (RevokeCert di) key
                (P_revokeReq {| rr_Resource := "revoke-cert"; rr_Certificate := der |}) s1)).
  - intros di s1. apply bind_doReqEx_panics. intros ores err u Hnn. np_steps.
  - intros odi e. np_steps.
Qed.

(** The key that has signed one request does not make the next one
    panic. *)
Lemma doReqEx_signs_again {T T'} method url p (r : option (Decoder T)) tgt ctx s
    ores tgt' s' method' url' p' (r' : option (Decoder T')) tgt2 ctx' :
  doReqEx method url None (Some p) r tgt ctx s = Done (ores, None, tgt') s' ->
  doReqEx method' url' None (Some p') r' tgt2 ctx' s' <> Panicked.
Proof.
  intros Hrun Hp. apply doReqEx_panics in Hp. destruct Hp as (_ & _ & Hk).
  destruct (doReqEx_ok_inv _ _ _ _ _ _ _ _ _ _ _ Hrun)
    as (res0 & _ & (_ & rdr & s0 & w & (jws & Hsign & _) & _) & _).
  apply signBody_signed in Hsign.
  rewrite (proj1 (doReqEx_frame _ _ _ _ _ _ _ _ _ _ Hrun)) in Hk. contradiction.
Qed.

Lemma UpsertRegistration_panics ctx s :
  UpsertRegistration ctx s = Panicked <->
  getRegistrationURI ctx s = Panicked
  \/ exists regURI s1,
       getRegistrationURI ctx s = Done (regURI, None) s1
       /\ (signing_panics regURI None (P_regInfo (reg (st_client s1))) s1
           \/ exists res s2,
                doReq "POST" regURI (Some (P_regInfo (reg (st_client s1))))
                  (Some json_Decode_regInfo) None ctx s1 = Done (Some res, None, None) s2
                /\ link_ParseResponse res !! "terms-of-service" <> None).
Proof.
  unfold UpsertRegistration at 1. unfold bind at 1.
  destruct (getRegistrationURI ctx s) as [[regURI err] s1| |] eqn:Hreg.
  - destruct err as [e|].
    + split; [discriminate|]. intros [H|(u & t1 & H & _)]; discriminate.
    + unfold bind at 1. unfold get_client at 1. unfold bind at 1.
      destruct (doReq "POST" regURI (Some (P_regInfo (reg (st_client s1))))
                  (Some json_Decode_regInfo) None ctx s1)
        as [[[ores err] ri] s2| |] eqn:Hpost.
      * assert (Hnosign : ~ signing_panics regURI None (P_regInfo (reg (st_client s1))) s1).
        { intros Hp.
          apply (doReqEx_signing_panics "POST" regURI None _ (Some json_Decode_regInfo)
                   None ctx s1) in Hp.
          unfold doReq in Hpost. congruence. }
        destruct err as [e|].
        { split; [discriminate|].
          intros [H|(u & t1 & [= <- <-] & [Hp | (r & t2 & Hp & _)])];
            [discriminate | contradiction | rewrite Hpost in Hp; discriminate]. }
        destruct ores as [res|];
          [|exfalso; exact (doReqEx_not_nil_nil _ _ _ _ _ _ _ _ _ _ Hpost)].
        destruct (link_ParseResponse res !! "terms-of-service") as [l|] eqn:Htos.
        -- destruct ri as [ri|].
           ++ split.
              ** intros H. exfalso. revert H.
                 destruct (negb (Go.streq _ _)); [|discriminate].
                 unfold bind, get_client.
                 destruct (negb (bool_decide _)); [discriminate|].
                 unfold doReq.
                 destruct (doReqEx "POST" regURI None _ _ (Some ri) ctx s2)
                   as [[[r2 e2] i2] s3| |] eqn:Hagain; try discriminate.
                 --- destruct e2; discriminate.
                 --- intros _. exact (doReqEx_signs_again _ _ _ _ _ _ _ _ _ _ _ _ _ _ _ _
                                        Hpost Hagain).
              ** intros [H|(u & t1 & [= <- <-] & [Hp | (r & t2 & Hp & _)])];
                   [discriminate | contradiction | rewrite Hpost in Hp; discriminate].
           ++ split; [|reflexivity]. intros _. right.
              exists regURI, s1. split; [reflexivity|]. right.
              exists res, s2. split; [exact Hpost|]. rewrite Htos. discriminate.
        -- split; [discriminate|].
           intros [H|(u & t1 & [= <- <-] & [Hp | (r & t2 & Hp & Hl)])];
             [discriminate | contradiction |].
           rewrite Hpost in Hp. injection Hp as <- _ _. contradiction.
      * split; [|reflexivity]. intros _. right. exists regURI, s1.
        split; [reflexivity|]. left. unfold doReq in Hpost.
        now apply doReqEx_signing_panics in Hpost.
      * exfalso. now apply doReqEx_not_OutOfFuel in Hpost.
  - split; [auto | reflexivity].
  - split; [discriminate|]. intros [H|(u & t1 & H & _)]; discriminate.
Qed.

End panic_sources.

(** X13: what [getRegistrationURI], [NewAuthorization],
    [RequestCertificate], [Revoke] and [UpsertRegistration] can panic on.
    Each of the first four panics in exactly two cases: its call of
    [getDirectory] panics ([getRegistrationURI] calls it only when no
    registration URI is known), or its POST comes to sign the payload with
    an ECDSA key that has no curve, on which [algorithmFromKey] panics.
    [UpsertRegistration] panics when [getRegistrationURI] does, when its
    first POST comes to sign with such a key, and when that POST was
    answered without error by a response with a terms-of-service link
    whose body decoded to a nil registration. *)
Theorem methods_panic_iff {env : Env} (ctx : Context) (s : St) :
  (getRegistrationURI ctx s = Panicked <->
   RegistrationURI (c_AccountInfo (st_client s)) = ""
   /\ (getDirectory ctx s = Panicked
       \/ exists di s1,
            getDirectory ctx s = Done (Some di, None) s1
            /\ signing_panics (NewReg di) None (P_regInfo (new_reg (st_client s1))) s1))
  /\ (forall hostname,
        NewAuthorization hostname ctx s = Panicked <->
        getDirectory ctx s = Panicked
        \/ exists di s1,
             getDirectory ctx s = Done (Some di, None) s1
             /\ signing_panics (NewAuthz di) None
                  (P_Authorization (new_authz hostname)) s1)
  /\ (forall fuel csrDER,
        RequestCertificate fuel csrDER ctx s = Panicked <->
        getDirectory ctx s = Panicked
        \/ exists di s1,
             getDirectory ctx s = Done (Some di, None) s1
             /\ signing_panics (NewCert di) None (P_Certificate (new_cert csrDER)) s1)
  /\ (forall der key,
        Revoke der key ctx s = Panicked <->
        getDirectory ctx s = Panicked
        \/ exists di s1,
             getDirectory ctx s = Done (Some di, None) s1
             /\ signing_panics (RevokeCert di) key
                  (P_revokeReq {| rr_Resource := "revoke-cert";
                                  rr_Certificate := der |}) s1)
  /\ (UpsertRegistration ctx s = Panicked <->
      getRegistrationURI ctx s = Panicked
      \/ exists regURI s1,
           getRegistrationURI ctx s = Done (regURI, None) s1
           /\ (signing_panics regURI None (P_regInfo (reg (st_client s1))) s1
               \/ exists res s2,
                    doReq "POST" regURI (Some (P_regInfo (reg (st_client s1))))
                      (Some json_Decode_regInfo) None ctx s1
                    = Done (Some res, None, None) s2
                    /\ link_ParseResponse res !! "terms-of-service" <> None)).
Proof.
  split; [apply getRegistrationURI_panics|].
  split; [intros; apply NewAuthorization_panics|].
  split; [intros; apply RequestCertificate_panics|].
  split; [intros; apply Revoke_panics|].
  apply UpsertRegistration_panics.
Qed.

Lemma methods_panic_iff_witness :
  let E := Toy.env Toy.directories in
  let s := Toy.start Toy.directories (Toy.uncached None "https://ca/directory") in
  let k := Toy.start Toy.chain (Toy.client (Some (rsa_PrivateKey 1)) [] "") in
  let der := list_byte_of_string "DER" in
  (* a directory document that is null *)
  (getDirectory (env := E) Toy.background s = Panicked
   /\ NewAuthorization (env := E) "example.com" Toy.background s = Panicked
   /\ UpsertRegistration (env := E) Toy.background s = Panicked)
  (* a revocation key that is an ECDSA key without a curve *)
  /\ (signing_panics (env := Toy.env Toy.chain) "https://ca/revoke-cert"
        (Some ecdsa_PrivateKey_without_curve)
        (P_revokeReq {| rr_Resource := "revoke-cert"; rr_Certificate := der |}) k
      /\ Revoke (env := Toy.env Toy.chain) der (Some ecdsa_PrivateKey_without_curve)
           Toy.background k = Panicked).
Proof.
  intros E s k der. split.
  - assert (Hdir : getDirectory (env := E) Toy.background s = Panicked)
      by (vm_compute; reflexivity).
    pose proof (methods_panic_iff (env := E) Toy.background s)
      as (Hreg & Haz & _ & _ & Hup).
    split; [exact Hdir|]. split; [exact (proj2 (Haz "example.com") (or_introl Hdir))|].
    apply (proj2 Hup). left. apply (proj2 Hreg). split; [reflexivity | left; exact Hdir].
  - assert (Hsign : signing_panics (env := Toy.env Toy.chain) "https://ca/revoke-cert"
                      (Some ecdsa_PrivateKey_without_curve)
                      (P_revokeReq {| rr_Resource := "revoke-cert";
                                      rr_Certificate := der |}) k).
    { split; [vm_compute; reflexivity|]. split; [|reflexivity].
      exists (list_byte_of_string "{}"). reflexivity. }
    split; [exact Hsign|].
    pose proof (methods_panic_iff (env := Toy.env Toy.chain) Toy.background k)
      as (_ & _ & _ & Hrev & _).
    apply (proj2 (Hrev der (Some ecdsa_PrivateKey_without_curve))). right.
    exists Toy.directory, k. split; [reflexivity | exact Hsign].
Defined.

(** ** What loading a certificate leaves behind *)

Section chain_effect.

Context {env : Env}.

(** One turn of the chain walk: it sends at most one request, a GET
    without a body; a turn that goes on has sent exactly one and has
    appended the body of its answer to the chain. *)
Lemma body_effect crt res ctx s out s' :
  loadExtraCertificates_body crt res ctx s = Done out s' ->
  match out with
  | inl (err, crt') =>
      crt' = crt
      /\ (err = None -> s' = s)
      /\ exists reqs,
           st_sent s' = (st_sent s ++ reqs)%list /\ (length reqs <= 1)%nat
           /\ Forall (fun req => http.Method req = "GET" /\ http.ReqBody req = None) reqs
  | inr (crt', res') =>
      exists der req,
        crt' = set_crt_ExtraCertificates (crt_ExtraCertificates crt ++ [der]) crt
        /\ st_sent s' = (st_sent s ++ [req])%list
        /\ http.Method req = "GET" /\ http.ReqBody req = None
  end.
Proof.
  unfold loadExtraCertificates_body, bind, doReq, ret, panic.
  destruct (link_ParseResponse res !! "up") as [up|].
  2:{ intros [= <- <-]. split; [reflexivity|]. split; [reflexivity|].
      exists []. rewrite app_nil_r. split; [reflexivity|]. split; [simpl; lia | constructor]. }
  destruct (url_Parse (crt_URI crt)) as [crtURI|].
  2:{ intros [= <- <-]. split; [reflexivity|]. split; [discriminate|].
      exists []. rewrite app_nil_r. split; [reflexivity|]. split; [simpl; lia | constructor]. }
  destruct (url_Parse (link_URI up)) as [upURI|].
  2:{ intros [= <- <-]. split; [reflexivity|]. split; [discriminate|].
      exists []. rewrite app_nil_r. split; [reflexivity|]. split; [simpl; lia | constructor]. }
  destruct (doReqEx "GET" _ None None None tt ctx s) as [[[ores err] u] s1| |] eqn:Hrun;
    try discriminate.
  assert (Hsent : exists reqs,
            st_sent s1 = (st_sent s ++ reqs)%list /\ (length reqs <= 1)%nat
            /\ Forall (fun req => http.Method req = "GET" /\ http.ReqBody req = None) reqs
            /\ (err = None -> length reqs = 1%nat)).
  { destruct (doReqEx_sent _ _ _ _ _ _ _ _ _ _ Hrun)
      as [[Hs [e He]] | (_ & rdr & Hs & Hrdr)].
    - exists []. rewrite app_nil_r. split; [exact Hs|]. split; [simpl; lia|].
      split; [constructor|]. injection He as _ -> _. discriminate.
    - rewrite (proj2 Hrdr eq_refl) in Hs. eexists. split; [exact Hs|].
      split; [simpl; lia|]. split; [|reflexivity].
      constructor; [split; reflexivity | constructor]. }
  destruct Hsent as (reqs & Hs & Hn & Hall & Hone).
  destruct err as [e|].
  { intros [= <- <-]. split; [reflexivity|]. split; [discriminate|]. eauto. }
  destruct ores as [res'|]; [|discriminate].
  destruct (negb _).
  { intros [= <- <-]. split; [reflexivity|]. split; [discriminate|]. eauto. }
  destruct (ReadAll res') as [der [e|]].
  { intros [= <- <-]. split; [reflexivity|]. split; [discriminate|]. eauto. }
  intros [= <- <-]. specialize (Hone eq_refl).
  destruct reqs as [|req [|req' reqs]]; try discriminate.
  apply Forall_cons in Hall. destruct Hall as [[Hm Hb] _].
  exists der, req. auto.
Qed.

Lemma set_crt_ExtraCertificates_same crt :
  set_crt_ExtraCertificates (crt_ExtraCertificates crt ++ []) crt = crt.
Proof. rewrite app_nil_r. now destruct crt. Qed.

(** The whole walk: the chain grows by the bodies fetched, one request
    each; a walk that fails may have sent one request more. *)
Lemma loop_effect ctx fuel : forall crt res s err crt' s',
  loadExtraCertificates_loop fuel crt res ctx s = Done (err, crt') s' ->
  exists ders reqs,
    crt' = set_crt_ExtraCertificates (crt_ExtraCertificates crt ++ ders) crt
    /\ st_sent s' = (st_sent s ++ reqs)%list
    /\ Forall (fun req => http.Method req = "GET" /\ http.ReqBody req = None) reqs
    /\ (length ders <= length reqs <= S (length ders))%nat
    /\ (err = None -> length reqs = length ders).
Proof.
  induction fuel as [|fuel IH]; intros crt res s err crt' s'; [discriminate|].
  rewrite loop_S.
  destruct (loadExtraCertificates_body crt res ctx s) as [[[e c]|[c r]] s1| |] eqn:Hb;
    try discriminate.
  - apply body_effect in Hb. destruct Hb as (-> & Hsame & reqs & Hs & Hn & Hall).
    intros [= <- <- <-]. exists [], reqs.
    split; [now rewrite set_crt_ExtraCertificates_same|]. split; [exact Hs|].
    split; [exact Hall|]. split; [simpl; lia|].
    intros ->. rewrite (Hsame eq_refl), <- (app_nil_r (st_sent s)) in Hs at 1.
    apply app_inv_head in Hs. now subst reqs.
  - apply body_effect in Hb. destruct Hb as (der & req & -> & Hs & Hm & Hbody).
    intros Hl. apply IH in Hl.
    destruct Hl as (ders & reqs & -> & Hs' & Hall & Hn & Hok).
    exists (der :: ders), (req :: reqs). simpl crt_ExtraCertificates.
    split; [unfold set_crt_ExtraCertificates; simpl; now rewrite <- app_assoc|].
    split; [rewrite Hs', Hs, <- app_assoc; reflexivity|].
    split; [constructor; [split; assumption | exact Hall]|].
    split; [simpl; lia|]. intros He. simpl. now rewrite Hok.
Qed.

End chain_effect.

(** X14: what [loadCertificate] does with a response of type
    application/pkix-cert.  When the body cannot be read the certificate
    and the state are untouched.  Otherwise the body becomes the
    [Certificate] and the earlier [ExtraCertificates] are dropped, whether
    or not the chain walk then succeeds: the result is the same for any
    earlier contents of the two fields; [URI], [Resource] and [CSR] stay;
    the requests sent are GETs without a body, one for each certificate of
    the chain when the call succeeds and at most one more when it fails;
    on success the retry instant comes from the headers of that first
    response. *)
Theorem loadCertificate_chain {env : Env} (fuel : nat) (crt : Certificate)
    (res : Response) (ctx : Context) (s : St) (err : option Error)
    (crt' : Certificate) (s' : St) :
  http.Get (http.Header_ res) "Content-Type" = "application/pkix-cert" ->
  loadCertificate fuel crt res ctx s = Done (err, crt') s' ->
  (forall e der, ReadAll res = (der, Some e) -> err = Some e /\ crt' = crt /\ s' = s)
  /\ (forall der, ReadAll res = (der, None) ->
      crt_Certificate crt' = der
      /\ crt_URI crt' = crt_URI crt /\ crt_Resource crt' = crt_Resource crt
      /\ crt_CSR crt' = crt_CSR crt
      /\ (forall leaf0 chain0,
            loadCertificate fuel
              (set_crt_Certificate leaf0 (set_crt_ExtraCertificates chain0 crt))
              res ctx s = Done (err, crt') s')
      /\ (err = None ->
          crt_retryAt crt'
          = retryAtDefault (time_Now (st_world s')) (http.Header_ res) ten_seconds)
      /\ exists reqs,
           st_sent s' = (st_sent s ++ reqs)%list
           /\ Forall (fun req => http.Method req = "GET" /\ http.ReqBody req = None) reqs
           /\ (length (crt_ExtraCertificates crt') <= length reqs
               <= S (length (crt_ExtraCertificates crt')))%nat
           /\ (err = None -> length reqs = length (crt_ExtraCertificates crt'))).
Proof.
  intros Hct Hrun. split.
  - intros e der Hder. unfold loadCertificate in Hrun.
    rewrite Hct, streq_refl, Hder in Hrun. now injection Hrun as <- <- <-.
  - intros der Hder.
    assert (Hunfold : forall c0,
              loadCertificate fuel c0 res ctx s =
              match loadExtraCertificates_loop fuel
                      (set_crt_ExtraCertificates [] (set_crt_Certificate der c0))
                      res ctx s with
              | Done (Some e, c) s1 => Done (Some e, c) s1
              | Done (None, c) s1 =>
                  Done (None,
                        set_crt_retryAt
                          (retryAtDefault (time_Now (st_world s1)) (http.Header_ res)
                             ten_seconds) c) s1
              | Panicked => Panicked
              | OutOfFuel => OutOfFuel
              end).
    { intros c0. unfold loadCertificate. rewrite Hct, streq_refl, Hder.
      unfold bind, loadExtraCertificates.
      destruct (loadExtraCertificates_loop _ _ _ _ _) as [[[e|] c] s1| |]; reflexivity. }
    assert (Hindep : forall leaf0 chain0,
              loadCertificate fuel
                (set_crt_Certificate leaf0 (set_crt_ExtraCertificates chain0 crt))
                res ctx s = loadCertificate fuel crt res ctx s).
    { intros leaf0 chain0. rewrite !Hunfold. reflexivity. }
    rewrite Hunfold in Hrun.
    destruct (loadExtraCertificates_loop _ _ _ _ _) as [[e c] s1| |] eqn:Hloop;
      try discriminate.
    destruct (loop_effect _ _ _ _ _ _ _ _ Hloop)
      as (ders & reqs & -> & Hs & Hall & Hn & Hok).
    simpl in Hn, Hok.
    destruct e as [e|]; injection Hrun as <- <- <-; simpl.
    + repeat (split; [reflexivity|]).
      split; [intros; rewrite Hindep, Hunfold, Hloop; reflexivity|].
      split; [discriminate|]. exists reqs. auto.
    + repeat (split; [reflexivity|]).
      split; [intros; rewrite Hindep, Hunfold, Hloop; reflexivity|].
      split; [reflexivity|]. exists reqs. auto.
Qed.

Lemma loadCertificate_chain_witness :
  let E := Toy.env Toy.chain in
  let s := Toy.start Toy.chain (Toy.client None [] "") in
  let old := set_crt_Certificate (list_byte_of_string "OLD")
               (set_crt_ExtraCertificates [list_byte_of_string "OLDROOT"]
                  (Toy.certificate "https://ca/cert/5")) in
  let res := Toy.cert_with_up "/ca/root" in
  exists crt' s',
    loadCertificate (env := E) 5 old res Toy.background s = Done (None, crt') s'
    /\ crt_Certificate crt' = list_byte_of_string "DER"
    /\ crt_ExtraCertificates crt' = [list_byte_of_string "ROOT"]
    /\ length (st_sent s') = 1%nat
    /\ loadCertificate (env := E) 5 (Toy.certificate "https://ca/cert/5") res
         Toy.background s = Done (None, crt') s'.
Proof.
  intros E s old res. eexists _, _.
  assert (Hrun : loadCertificate (env := E) 5 old res Toy.background s
                 = ltac:(let r := eval vm_compute in
                           (loadCertificate (env := E) 5 old res Toy.background s)
                         in exact r))
    by (vm_compute; reflexivity).
  split; [exact Hrun|].
  assert (Hct : http.Get (http.Header_ res) "Content-Type" = "application/pkix-cert")
    by (vm_compute; reflexivity).
  destruct (proj2 (loadCertificate_chain (env := E) 5 old res Toy.background s _ _ _
                     Hct Hrun) (list_byte_of_string "DER") eq_refl)
    as (Hleaf & _ & _ & _ & Hindep & _).
  split; [exact Hleaf|]. split; [reflexivity|]. split; [reflexivity|].
  exact (Hindep [] []).
Defined.

(** ** Requesting a certificate *)

Section RequestCertificate_facts.

Context {env : Env}.

(** [RequestCertificate] once the directory is there and the POST has
    been answered. *)
Lemma RequestCertificate_answered fuel csrDER ctx s di s1 res s2 :
  getDirectory ctx s = Done (Some di, None) s1 ->
  round_trip "POST" (NewCert di) None (Some (P_Certificate (new_cert csrDER)))
    ctx s1 res s2 ->
  RequestCertificate fuel csrDER ctx s =
  if (400 <=? http.StatusCode res) && (http.StatusCode res <? 600)
  then Done (None, Some (newHTTPError res)) s2
  else if negb (http.StatusCode res =? 201)
  then Done (None, Some (ErrUnexpectedStatusCode (http.StatusCode res))) s2
  else if negb (ValidURL (http.Get (http.Header_ res) "Location"))
  then Done (None, Some (ErrInvalidURI (http.Get (http.Header_ res) "Location"))) s2
  else
    match loadCertificate fuel
            (set_crt_URI (http.Get (http.Header_ res) "Location") (new_cert csrDER))
            res ctx s2 with
    | Done (Some e, _) s3 => Done (None, Some e) s3
    | Done (None, crt) s3 => Done (Some crt, None) s3
    | Panicked => Panicked
    | OutOfFuel => OutOfFuel
    end.
Proof.
  intros Hdir Hrt. unfold RequestCertificate, bind, doReq. rewrite Hdir.
  rewrite (doReqEx_round_trip _ _ _ _ None tt _ _ _ _ Hrt).
  destruct ((400 <=? http.StatusCode res) && (http.StatusCode res <? 600)) eqn:Es.
  - rewrite handleResponse_error_status by (apply andb_true_iff in Es; lia).
    reflexivity.
  - rewrite handleResponse_no_target
      by (intros Hs; apply andb_false_iff in Es; destruct Es; lia).
    destruct (negb (http.StatusCode res =? 201)); [reflexivity|].
    destruct (negb (ValidURL _)); [reflexivity|].
    destruct (loadCertificate _ _ _ _ _) as [[[e|] c] s3| |]; reflexivity.
Qed.

(** The fields [loadCertificate] never writes. *)
Lemma loadCertificate_frame fuel crt res ctx s err crt' s' :
  loadCertificate fuel crt res ctx s = Done (err, crt') s' ->
  crt_URI crt' = crt_URI crt /\ crt_Resource crt' = crt_Resource crt
  /\ crt_CSR crt' = crt_CSR crt.
Proof.
  unfold loadCertificate, bind, Now, ret.
  destruct (Go.streq _ "application/pkix-cert").
  - destruct (ReadAll res) as [der [e|]]; [now intros [= <- <- <-]|].
    unfold loadExtraCertificates.
    destruct (loadExtraCertificates_loop _ _ _ _ _) as [[e c] s1| |] eqn:Hloop;
      try discriminate.
    destruct (loop_effect _ _ _ _ _ _ _ _ Hloop) as (ders & reqs & -> & _).
    destruct e; intros [= <- <- <-]; repeat split.
  - destruct (http.StatusCode res =? 200); intros [= <- <- <-]; repeat split.
Qed.

Lemma RequestCertificate_inv fuel csrDER ctx s ocrt err s' :
  RequestCertificate fuel csrDER ctx s = Done (ocrt, err) s' ->
  (ocrt = None /\ err <> None)
  \/ (err = None /\
      exists crt di s1 res s2,
        ocrt = Some crt
        /\ getDirectory ctx s = Done (Some di, None) s1
        /\ round_trip "POST" (NewCert di) None (Some (P_Certificate (new_cert csrDER)))
             ctx s1 res s2
        /\ http.StatusCode res = 201
        /\ loadCertificate fuel
             (set_crt_URI (http.Get (http.Header_ res) "Location") (new_cert csrDER))
             res ctx s2 = Done (None, crt) s'
        /\ crt_URI crt = http.Get (http.Header_ res) "Location"
        /\ ValidURL (crt_URI crt) = true
        /\ crt_Resource crt = "new-cert"
        /\ crt_CSR crt = csrDER).
Proof.
  intros Hrun.
  destruct (getDirectory ctx s) as [[odi derr] s1| |] eqn:Hdir;
    [|unfold RequestCertificate, bind in Hrun; rewrite Hdir in Hrun; discriminate..].
  destruct (getDirectory_result _ _ _ _ _ Hdir) as [[-> [di ->]] | [-> Hne]].
  2:{ unfold RequestCertificate, bind in Hrun. rewrite Hdir in Hrun.
      destruct derr as [e|]; [|congruence]. injection Hrun as <- <- <-.
      left. split; [reflexivity | discriminate]. }
  destruct (doReqEx_cases "POST" (NewCert di) None
              (Some (P_Certificate (new_cert csrDER))) (@None (Decoder unit)) tt ctx s1)
    as [(e & s2 & Hpost) | [(res & s2 & Hrt) | Hpanic]].
  { unfold RequestCertificate, bind, doReq in Hrun. rewrite Hdir, Hpost in Hrun.
    injection Hrun as <- <- <-. left. split; [reflexivity | discriminate]. }
  2:{ unfold RequestCertificate, bind, doReq in Hrun. rewrite Hdir, Hpanic in Hrun.
      discriminate. }
  rewrite (RequestCertificate_answered fuel csrDER ctx s di s1 res s2 Hdir Hrt) in Hrun.
  destruct ((400 <=? http.StatusCode res) && (http.StatusCode res <? 600));
    [injection Hrun as <- <- <-; left; split; [reflexivity | discriminate]|].
  destruct (http.StatusCode res =? 201) eqn:H201; simpl in Hrun;
    [|injection Hrun as <- <- <-; left; split; [reflexivity | discriminate]].
  destruct (ValidURL (http.Get (http.Header_ res) "Location")) eqn:Hloc; simpl in Hrun;
    [|injection Hrun as <- <- <-; left; split; [reflexivity | discriminate]].
  destruct (loadCertificate _ _ _ _ _) as [[[e|] c] s3| |] eqn:Hload; try discriminate;
    injection Hrun as <- <- <-; [left; split; [reflexivity | discriminate]|].
  right. split; [reflexivity|].
  destruct (loadCertificate_frame _ _ _ _ _ _ _ _ Hload) as (Hu & Hr & Hc).
  simpl in Hu, Hr, Hc. apply Z.eqb_eq in H201.
  exists c, di, s1, res, s2. rewrite Hu.
  repeat (split; [reflexivity || assumption|]). exact Hc.
Qed.

End RequestCertificate_facts.

(** X15: [RequestCertificate] returns a certificate or an error, never
    both and never neither.  A certificate it returns answers a POST of
    the CSR to the new-cert URL of the directory that came back with
    status 201; its URI is the Location header of that response, which
    [ValidURL] accepts; it carries the CSR and the resource new-cert.
    After an answer to the POST, a status from 400 to 599 fails with the
    HTTP error, any other status but 201 with an unexpected-status error,
    and a 201 without a valid Location with an invalid-URI error; a 201
    with a valid Location whose body is not a certificate gives a
    certificate with an empty [Certificate], to be polled. *)
Theorem RequestCertificate_outcome {env : Env} (fuel : nat) (csrDER : list byte)
    (ctx : Context) (s : St) :
  (forall ocrt err s',
     RequestCertificate fuel csrDER ctx s = Done (ocrt, err) s' ->
     (ocrt = None /\ err <> None)
     \/ (err = None /\
         exists crt di s1 res s2,
           ocrt = Some crt
           /\ getDirectory ctx s = Done (Some di, None) s1
           /\ round_trip "POST" (NewCert di) None
                (Some (P_Certificate (new_cert csrDER))) ctx s1 res s2
           /\ http.StatusCode res = 201
           /\ crt_URI crt = http.Get (http.Header_ res) "Location"
           /\ ValidURL (crt_URI crt) = true
           /\ crt_Resource crt = "new-cert"
           /\ crt_CSR crt = csrDER))
  /\ (forall di s1 res s2,
        getDirectory ctx s = Done (Some di, None) s1 ->
        round_trip "POST" (NewCert di) None (Some (P_Certificate (new_cert csrDER)))
          ctx s1 res s2 ->
        let loc := http.Get (http.Header_ res) "Location" in
        (400 <= http.StatusCode res < 600 ->
         RequestCertificate fuel csrDER ctx s = Done (None, Some (newHTTPError res)) s2)
        /\ (~ 400 <= http.StatusCode res < 600 -> http.StatusCode res <> 201 ->
            RequestCertificate fuel csrDER ctx s
            = Done (None, Some (ErrUnexpectedStatusCode (http.StatusCode res))) s2)
        /\ (http.StatusCode res = 201 -> ValidURL loc = false ->
            RequestCertificate fuel csrDER ctx s = Done (None, Some (ErrInvalidURI loc)) s2)
        /\ (http.StatusCode res = 201 -> ValidURL loc = true ->
            http.Get (http.Header_ res) "Content-Type" <> "application/pkix-cert" ->
            exists crt,
              RequestCertificate fuel csrDER ctx s = Done (Some crt, None) s2
              /\ crt_Certificate crt = [] /\ crt_ExtraCertificates crt = []
              /\ crt_retryAt crt
                 = retryAtDefault (time_Now (st_world s2)) (http.Header_ res) ten_seconds)).
Proof.
  split.
  - intros ocrt err s' Hrun.
    destruct (RequestCertificate_inv _ _ _ _ _ _ _ Hrun)
      as [H | (-> & crt & di & s1 & res & s2 & -> & Hdir & Hrt & H201 & _ & H)];
      [left; exact H|].
    right. split; [reflexivity|]. exists crt, di, s1, res, s2. auto.
  - intros di s1 res s2 Hdir Hrt. cbv zeta.
    pose proof (RequestCertificate_answered fuel csrDER ctx s di s1 res s2 Hdir Hrt) as Heq.
    split; [|split; [|split]].
    + intros Hs. rewrite Heq.
      replace ((400 <=? http.StatusCode res) && (http.StatusCode res <? 600)) with true
        by (symmetry; apply andb_true_iff; lia).
      reflexivity.
    + intros Hs Hne. rewrite Heq.
      replace ((400 <=? http.StatusCode res) && (http.StatusCode res <? 600)) with false
        by (symmetry; apply andb_false_iff; lia).
      replace (http.StatusCode res =? 201) with false by lia. reflexivity.
    + intros H201 Hloc. rewrite Heq, H201, Hloc. reflexivity.
    + intros H201 Hloc Hct. rewrite Heq, H201, Hloc. simpl.
      rewrite loadCertificate_not_ready by (try assumption; lia).
      eexists. split; [reflexivity|]. repeat split.
Qed.

Lemma RequestCertificate_outcome_witness :
  let E := Toy.env Toy.chain in
  let s := Toy.start Toy.chain (Toy.client (Some (rsa_PrivateKey 1)) [] "") in
  let csr := list_byte_of_string "CSR" in
  exists crt s',
    RequestCertificate (env := E) 5 csr Toy.background s = Done (Some crt, None) s'
    /\ crt_URI crt = "https://ca/cert/5"
    /\ ValidURL (env := E) (crt_URI crt) = true
    /\ crt_CSR crt = csr.
Proof.
  intros E s csr. eexists _, _.
  assert (Hrun : RequestCertificate (env := E) 5 csr Toy.background s
                 = ltac:(let r := eval vm_compute in
                           (RequestCertificate (env := E) 5 csr Toy.background s)
                         in exact r))
    by (vm_compute; reflexivity).
  split; [exact Hrun|]. split; [reflexivity|].
  destruct (proj1 (RequestCertificate_outcome (env := E) 5 csr Toy.background s)
              _ _ _ Hrun)
    as [[Hno _] | (_ & crt & di & s1 & res & s2 & Hcrt & _ & _ & _ & _ & Hvalid & _ & Hcsr)];
    [discriminate|].
  injection Hcrt as <-. split; [exact Hvalid | exact Hcsr].
Defined.

(** ** Revocation *)

(** X16: [Revoke] succeeds exactly through a POST of the revocation
    request to the revoke-cert URL of the directory, signed with the given
    key (the account key when that is nil), that is answered with a status
    code outside 400..599; the body of the answer plays no part.  [getDirectory] does not look at the
    revoke-cert URL: when [ValidURL] rejects it [Revoke] fails with the
    invalid-URL error in the state [getDirectory] left, so without
    sending the POST.  An answer with a status from 400 to 599 fails with
    the HTTP error. *)
Theorem Revoke_outcome {env : Env} (certificateDER : list byte)
    (revocationKey : option PrivateKey) (ctx : Context) (s : St) :
  let req := Some (P_revokeReq {| rr_Resource := "revoke-cert";
                                  rr_Certificate := certificateDER |}) in
  (forall s',
     Revoke certificateDER revocationKey ctx s = Done None s' ->
     exists di s1 res,
       getDirectory ctx s = Done (Some di, None) s1
       /\ round_trip "POST" (RevokeCert di) revocationKey req ctx s1 res s'
       /\ ~ 400 <= http.StatusCode res < 600)
  /\ (forall di s1,
        getDirectory ctx s = Done (Some di, None) s1 ->
        (ValidURL (rewriteURL (RevokeCert di)) = false ->
         Revoke certificateDER revocationKey ctx s
         = Done (Some (ErrInvalidURL (rewriteURL (RevokeCert di)))) s1)
        /\ (forall res s2,
              round_trip "POST" (RevokeCert di) revocationKey req ctx s1 res s2 ->
              (400 <= http.StatusCode res < 600 ->
               Revoke certificateDER revocationKey ctx s
               = Done (Some (newHTTPError res)) s2)
              /\ (~ 400 <= http.StatusCode res < 600 ->
                  Revoke certificateDER revocationKey ctx s = Done None s2))).
Proof.
  cbv zeta. split.
  - intros s' Hrun. unfold Revoke, bind in Hrun.
    destruct (getDirectory ctx s) as [[odi derr] s1| |] eqn:Hdir; try discriminate.
    destruct (getDirectory_result _ _ _ _ _ Hdir) as [[-> [di ->]] | [-> Hne]];
      [|destruct derr; [discriminate | congruence]].
    destruct (doReqEx "POST" (RevokeCert di) revocationKey _ None tt ctx s1)
      as [[[ores e] u] s2| |] eqn:Hpost; try discriminate.
    destruct e as [e|]; [discriminate|]. injection Hrun as <-.
    destruct (doReqEx_ok_inv _ _ _ _ _ _ _ _ _ _ _ Hpost) as (res & -> & Hrt & Hh).
    destruct (handleResponse_ok _ _ _ _ _ Hh) as (_ & Hs & _).
    exists di, s1, res. auto.
  - intros di s1 Hdir. split.
    + intros Hurl. unfold Revoke, bind. rewrite Hdir. unfold doReqEx.
      rewrite Hurl. reflexivity.
    + intros res s2 Hrt. unfold Revoke, bind. rewrite Hdir.
      rewrite (doReqEx_round_trip _ _ _ _ None tt _ _ _ _ Hrt). split; intros Hs.
      * rewrite handleResponse_error_status by exact Hs. reflexivity.
      * rewrite handleResponse_no_target by exact Hs. reflexivity.
Qed.

Lemma Revoke_outcome_witness :
  let E := Toy.env Toy.chain in
  let s := Toy.start Toy.chain (Toy.client (Some (rsa_PrivateKey 1)) [] "") in
  let der := list_byte_of_string "DER" in
  exists s' res,
    Revoke (env := E) der None Toy.background s = Done None s'
    /\ round_trip (env := E) "POST" "https://ca/revoke-cert" None
         (Some (P_revokeReq {| rr_Resource := "revoke-cert"; rr_Certificate := der |}))
         Toy.background s res s'
    /\ ~ 400 <= http.StatusCode res < 600.
Proof.
  intros E s der.
  assert (Hrun : Revoke (env := E) der None Toy.background s
                 = ltac:(let r := eval vm_compute in
                           (Revoke (env := E) der None Toy.background s)
                         in exact r))
    by (vm_compute; reflexivity).
  destruct (proj1 (Revoke_outcome (env := E) der None Toy.background s) _ Hrun)
    as (di & s1 & res & Hdir & Hrt & Hs).
  assert (Hd : getDirectory (env := E) Toy.background s = Done (Some Toy.directory, None) s)
    by reflexivity.
  rewrite Hd in Hdir. injection Hdir as <- <-.
  eexists _, res. split; [exact Hrun|]. split; [exact Hrt | exact Hs].
Defined.

(** ** Waiting for a certificate *)

Section WaitForCertificate_facts.

Context {env : Env}.

Lemma LoadCertificate_frame fuel crt ctx s err crt' s' :
  LoadCertificate fuel crt ctx s = Done (err, crt') s' ->
  crt_URI crt' = crt_URI crt /\ crt_Resource crt' = crt_Resource crt
  /\ crt_CSR crt' = crt_CSR crt.
Proof.
  unfold LoadCertificate, bind, doReq.
  destruct (doReqEx "GET" (crt_URI crt) None None None tt ctx s)
    as [[[ores e] u] s1| |]; try discriminate.
  destruct e as [e|]; [intros [= <- <- <-]; auto|].
  destruct ores as [res|]; [|discriminate]. apply loadCertificate_frame.
Qed.

Lemma WaitLoadCertificate_frame fuel crt ctx pick s err crt' s' :
  WaitLoadCertificate fuel crt ctx pick s = Done (err, crt') s' ->
  crt_URI crt' = crt_URI crt /\ crt_Resource crt' = crt_Resource crt
  /\ crt_CSR crt' = crt_CSR crt.
Proof.
  unfold WaitLoadCertificate, bind.
  destruct (waitUntil (crt_retryAt crt) ctx pick s) as [[e|] s1| |]; try discriminate.
  - intros [= <- <- <-]. auto.
  - apply LoadCertificate_frame.
Qed.

Lemma WaitForCertificate_issued walk ctx fuel : forall crt picks s crt' s',
  WaitForCertificate fuel walk crt ctx picks s = Done (None, crt') s' ->
  (0 < length (crt_Certificate crt'))%nat
  /\ crt_URI crt' = crt_URI crt /\ crt_Resource crt' = crt_Resource crt
  /\ crt_CSR crt' = crt_CSR crt.
Proof.
  induction fuel as [|fuel IH]; intros crt picks s crt' s'; [discriminate|].
  simpl. destruct (0 <? length (crt_Certificate crt))%nat eqn:El.
  - intros [= <- <-]. apply Nat.ltb_lt in El. auto.
  - unfold bind.
    destruct (WaitLoadCertificate walk crt ctx (picks 0%nat) s) as [[e c] s1| |] eqn:Hw;
      try discriminate.
    destruct e as [e|]; [discriminate|]. intros Hrest. apply IH in Hrest.
    destruct (WaitLoadCertificate_frame _ _ _ _ _ _ _ _ Hw) as (Hu & Hr & Hc).
    destruct Hrest as (Hl & -> & -> & ->). auto.
Qed.

End WaitForCertificate_facts.

(** X17: [WaitForCertificate] is a no-op on a certificate that has been
    issued: it returns nil at once, dispatches nothing and waits for nothing.
    When it returns nil the certificate has a non-empty [Certificate], and
    the same [URI], [Resource] and [CSR] as before.  On a certificate not
    yet issued, a context that is already cancelled makes it return the
    error of the context with the certificate and the state untouched. *)
Theorem WaitForCertificate_returns {env : Env} (fuel walk : nat) (crt : Certificate)
    (ctx : Context) (picks : nat -> bool) (s : St) :
  ((0 < length (crt_Certificate crt))%nat ->
   WaitForCertificate (S fuel) walk crt ctx picks s = Done (None, crt) s)
  /\ (forall crt' s',
        WaitForCertificate fuel walk crt ctx picks s = Done (None, crt') s' ->
        (0 < length (crt_Certificate crt'))%nat
        /\ crt_URI crt' = crt_URI crt /\ crt_Resource crt' = crt_Resource crt
        /\ crt_CSR crt' = crt_CSR crt)
  /\ (crt_Certificate crt = [] ->
      cancelled ctx (time_Now (st_world s)) = true ->
      WaitForCertificate (S fuel) walk crt ctx picks s = Done (Some (Err ctx), crt) s).
Proof.
  split; [|split].
  - intros Hl. simpl. apply Nat.ltb_lt in Hl. rewrite Hl. reflexivity.
  - apply WaitForCertificate_issued.
  - intros Hnil Hc. simpl. rewrite Hnil. simpl.
    unfold bind at 1. unfold WaitLoadCertificate, bind.
    rewrite waitUntil_cancelled by exact Hc. reflexivity.
Qed.

Lemma WaitForCertificate_returns_witness :
  let E := Toy.env Toy.chain in
  let s := Toy.start Toy.chain (Toy.client None [] "") in
  let issued := set_crt_Certificate (list_byte_of_string "DER")
                  (Toy.certificate "https://ca/cert/5") in
  let pending := Toy.certificate "https://ca/cert/5" in
  WaitForCertificate (env := E) 1 0 issued Toy.background (fun _ => false) s
  = Done (None, issued) s
  /\ (exists crt' s',
        WaitForCertificate (env := E) 3 5 pending Toy.background (fun _ => false) s
        = Done (None, crt') s'
        /\ (0 < length (crt_Certificate crt'))%nat)
  /\ WaitForCertificate (env := E) 1 0 pending (Toy.cancelled_at Toy.epoch)
       (fun _ => false) s
     = Done (Some (ErrLib "context canceled"), pending) s.
Proof.
  intros E s issued pending. split; [|split].
  - apply (proj1 (WaitForCertificate_returns (env := E) 0 0 issued Toy.background
                    (fun _ => false) s)).
    simpl. lia.
  - eexists _, _.
    assert (Hrun : WaitForCertificate (env := E) 3 5 pending Toy.background
                     (fun _ => false) s
                   = ltac:(let r := eval vm_compute in
                             (WaitForCertificate (env := E) 3 5 pending Toy.background
                                (fun _ => false) s)
                           in exact r))
      by (vm_compute; reflexivity).
    split; [exact Hrun|].
    exact (proj1 (proj1 (proj2 (WaitForCertificate_returns (env := E) 3 5 pending
                                  Toy.background (fun _ => false) s)) _ _ Hrun)).
  - apply (proj2 (proj2 (WaitForCertificate_returns (env := E) 0 0 pending
                           (Toy.cancelled_at Toy.epoch) (fun _ => false) s)));
      reflexivity.
Defined.

(** ** Loading a challenge *)

(** X18: [LoadChallenge] succeeds exactly through a GET of the URI of the
    challenge that is answered with a status code outside 400..599 and
    the Content-Type application/json and whose body decodes into the
    challenge; the challenge is then what the decoder left, with the
    retry instant taken from the headers of the response.  An answer with
    a status from 400 to 599, or with another Content-Type, fails and
    leaves the challenge as it was; a body that does not decode fails with
    the decoder's error and leaves what the decoder left. *)
Theorem LoadChallenge_outcome {env : Env} (ch : Challenge) (ctx : Context) (s : St) :
  (forall ch' s',
     LoadChallenge ch ctx s = Done (None, ch') s' ->
     exists res ch1,
       round_trip "GET" (ch_URI ch) None None ctx s res s'
       /\ ~ 400 <= http.StatusCode res < 600
       /\ http.Get (http.Header_ res) "Content-Type" = "application/json"
       /\ json_Decode_Challenge (http.Body res) ch = (None, ch1)
       /\ ch' = set_ch_retryAt
                  (retryAtDefault (time_Now (st_world s')) (http.Header_ res) ten_seconds)
                  ch1)
  /\ (forall res s',
        round_trip "GET" (ch_URI ch) None None ctx s res s' ->
        let ct := http.Get (http.Header_ res) "Content-Type" in
        (400 <= http.StatusCode res < 600 ->
         LoadChallenge ch ctx s = Done (Some (newHTTPError res), ch) s')
        /\ (~ 400 <= http.StatusCode res < 600 -> ct <> "application/json" ->
            LoadChallenge ch ctx s = Done (Some (ErrUnexpectedContentType ct), ch) s')
        /\ (~ 400 <= http.StatusCode res < 600 -> ct = "application/json" ->
            forall ch1,
              (json_Decode_Challenge (http.Body res) ch = (None, ch1) ->
               LoadChallenge ch ctx s
               = Done (None,
                       set_ch_retryAt
                         (retryAtDefault (time_Now (st_world s')) (http.Header_ res)
                            ten_seconds) ch1) s')
              /\ (forall e,
                    json_Decode_Challenge (http.Body res) ch = (Some e, ch1) ->
                    LoadChallenge ch ctx s = Done (Some e, ch1) s'))).
Proof.
  split.
  - intros ch' s'. unfold LoadChallenge, doReq, bind.
    destruct (doReqEx "GET" (ch_URI ch) None None (Some json_Decode_Challenge) ch ctx s)
      as [[[ores e] ch1] s1| |] eqn:Hrun; try discriminate.
    destruct e as [e|]; [discriminate|].
    destruct (doReqEx_ok_inv _ _ _ _ _ _ _ _ _ _ _ Hrun) as (res & -> & Hrt & Hh).
    destruct (handleResponse_ok _ _ _ _ _ Hh) as (_ & Hs & Hct & Hdec).
    unfold Challenge_validate, Now, ret. intros [= <- <-].
    exists res, ch1. auto.
  - intros res s' Hrt. cbv zeta.
    assert (Heq : LoadChallenge ch ctx s =
              match handleResponse (Some json_Decode_Challenge) ch res with
              | (_, Some e, ch1) => Done (Some e, ch1) s'
              | (None, None, _) => Panicked
              | (Some res, None, ch1) =>
                  Done (None,
                        set_ch_retryAt
                          (retryAtDefault (time_Now (st_world s')) (http.Header_ res)
                             ten_seconds) ch1) s'
              end).
    { unfold LoadChallenge, doReq, bind.
      rewrite (doReqEx_round_trip _ _ _ _ (Some json_Decode_Challenge) ch _ _ _ _ Hrt).
      destruct (handleResponse _ _ _) as [[[r|] [e|]] c]; reflexivity. }
    split; [|split; [|intros Hs Hct ch1; split]].
    + intros Hs. rewrite Heq, handleResponse_error_status by exact Hs. reflexivity.
    + intros Hs Hct. rewrite Heq. unfold handleResponse.
      replace ((400 <=? http.StatusCode res) && (http.StatusCode res <? 600)) with false
        by (symmetry; apply andb_false_iff; lia).
      apply streq_false in Hct. rewrite Hct. reflexivity.
    + intros Hdec. rewrite Heq.
      pose proof (handleResponse_decoded json_Decode_Challenge ch res ch1 Hs Hct Hdec) as Hh.
      destruct (handleResponse _ _ _) as [[r e] c]. injection Hh as -> -> ->.
      reflexivity.
    + intros e Hdec. rewrite Heq. unfold handleResponse.
      replace ((400 <=? http.StatusCode res) && (http.StatusCode res <? 600)) with false
        by (symmetry; apply andb_false_iff; lia).
      rewrite Hct, streq_refl. simpl negb. cbv iota.
      destruct (json_Decode_Challenge (http.Body res) ch) as [e0 c0].
      injection Hdec as -> ->. reflexivity.
Qed.

Lemma LoadChallenge_outcome_witness :
  let E := Toy.env Toy.challenges in
  let s := Toy.start Toy.challenges (Toy.client None [] "") in
  let ch := Toy.challenge "https://ca/chal/a" in
  exists ch' s',
    LoadChallenge (env := E) ch Toy.background s = Done (None, ch') s'
    /\ ch_Status ch' = "valid"
    /\ ch_retryAt ch' = Toy.epoch + 5 * time.Second
    /\ exists res, round_trip (env := E) "GET" (ch_URI ch) None None Toy.background s res s'.
Proof.
  intros E s ch. eexists _, _.
  assert (Hrun : LoadChallenge (env := E) ch Toy.background s
                 = ltac:(let r := eval vm_compute in
                           (LoadChallenge (env := E) ch Toy.background s)
                         in exact r))
    by (vm_compute; reflexivity).
  split; [exact Hrun|]. split; [reflexivity|]. split; [reflexivity|].
  destruct (proj1 (LoadChallenge_outcome (env := E) ch Toy.background s) _ _ Hrun)
    as (res & ch1 & Hrt & _).
  exists res. exact Hrt.
Defined.

(** ** Creating an authorization *)

Section NewAuthorization_facts.

Context {env : Env}.

(** An error of [NewAuthorization] comes without an authorization. *)
Lemma NewAuthorization_error hostname ctx s oaz e s' :
  NewAuthorization hostname ctx s = Done (oaz, Some e) s' -> oaz = None.
Proof.
  unfold NewAuthorization, doReq, bind, ret, panic.
  destruct (getDirectory ctx s) as [[odi derr] s1| |]; try discriminate.
  destruct derr; [now intros [= <- _ _]|].
  destruct odi as [di|]; [|discriminate].
  destruct (doReqEx "POST" (NewAuthz di) None _ _ (new_authz hostname) ctx s1)
    as [[[ores err] az1] s2| |]; try discriminate.
  destruct err; [now intros [= <- _ _]|].
  destruct ores as [res|]; [|discriminate].
  destruct (negb _ || negb _); [now intros [= <- _ _]|].
  destruct (validate _) as [[e1|] az2]; [now intros [= <- _ _] | discriminate].
Qed.

End NewAuthorization_facts.

(** X19: [NewAuthorization] returns an authorization or an error, never
    both and never neither.  An authorization it returns answers a POST to
    the new-authz URL of the directory that came back with status 201, and
    its URI is the Location header of that response, which [ValidURL]
    accepts.  A decoded answer with any other status, or without a valid
    Location, fails with the error that shows the response. *)
Theorem NewAuthorization_location {env : Env} (hostname : string) (ctx : Context)
    (s : St) :
  (forall oaz err s',
     NewAuthorization hostname ctx s = Done (oaz, err) s' ->
     (oaz = None /\ err <> None)
     \/ (err = None /\
         exists az di s1 res,
           oaz = Some az
           /\ getDirectory ctx s = Done (Some di, None) s1
           /\ round_trip "POST" (NewAuthz di) None
                (Some (P_Authorization (new_authz hostname))) ctx s1 res s'
           /\ http.StatusCode res = 201
           /\ az_URI az = http.Get (http.Header_ res) "Location"
           /\ ValidURL (az_URI az) = true))
  /\ (forall di s1 res s' j,
        getDirectory ctx s = Done (Some di, None) s1 ->
        round_trip "POST" (NewAuthz di) None
          (Some (P_Authorization (new_authz hostname))) ctx s1 res s' ->
        ~ 400 <= http.StatusCode res < 600 ->
        http.Get (http.Header_ res) "Content-Type" = "application/json" ->
        json_Authorization (http.Body res) (new_authz hostname) = inr j ->
        http.StatusCode res <> 201
        \/ ValidURL (http.Get (http.Header_ res) "Location") = false ->
        NewAuthorization hostname ctx s = Done (None, Some (ErrExpected201 res)) s').
Proof.
  split.
  - intros oaz [e|] s' Hrun.
    + left. split; [exact (NewAuthorization_error _ _ _ _ _ _ Hrun) | discriminate].
    + right. split; [reflexivity|].
      destruct (NewAuthorization_inv _ _ _ _ _ Hrun)
        as (di & s1 & res & j & az & -> & Hdir & Hrt & H201 & Hloc & Hj & Hv).
      apply validate_ok in Hv. destruct Hv as (_ & -> & _).
      exists (set_az_Combinations
                (Some (validated_combinations
                         (set_az_URI (http.Get (http.Header_ res) "Location")
                            (decode_into_Authorization j (new_authz hostname)))))
                (set_az_URI (http.Get (http.Header_ res) "Location")
                   (decode_into_Authorization j (new_authz hostname)))),
        di, s1, res.
      repeat (split; [reflexivity || assumption|]). exact Hloc.
  - intros di s1 res s' j Hdir Hrt Hs Hct Hj Hbad.
    unfold NewAuthorization, doReq, bind. rewrite Hdir.
    rewrite (doReqEx_round_trip _ _ _ _ (Some decode_Authorization)
               (new_authz hostname) _ _ _ _ Hrt).
    rewrite (handleResponse_decoded decode_Authorization _ res
               (decode_into_Authorization j (new_authz hostname)) Hs Hct)
      by (apply decode_Authorization_ok; eauto).
    replace (negb (http.StatusCode res =? 201)
             || negb (ValidURL (http.Get (http.Header_ res) "Location"))) with true;
      [reflexivity|].
    symmetry. apply orb_true_iff. destruct Hbad as [Hne | Hloc].
    + left. apply negb_true_iff. lia.
    + right. now rewrite Hloc.
Qed.

Lemma NewAuthorization_location_witness :
  let E := Toy.env Toy.ca in
  let s := Toy.start Toy.ca (Toy.client (Some (rsa_PrivateKey 1)) [] "") in
  exists az s',
    NewAuthorization (env := E) "example.com" Toy.background s = Done (Some az, None) s'
    /\ az_URI az = "https://ca/authz/9"
    /\ ValidURL (env := E) (az_URI az) = true.
Proof.
  intros E s. eexists _, _.
  assert (Hrun : NewAuthorization (env := E) "example.com" Toy.background s
                 = ltac:(let r := eval vm_compute in
                           (NewAuthorization (env := E) "example.com" Toy.background s)
                         in exact r))
    by (vm_compute; reflexivity).
  split; [exact Hrun|]. split; [reflexivity|].
  destruct (proj1 (NewAuthorization_location (env := E) "example.com" Toy.background s)
              _ _ _ Hrun)
    as [[Hno _] | (_ & az & di & s1 & res & Haz & _ & _ & _ & _ & Hvalid)];
    [discriminate|].
  injection Haz as <-. exact Hvalid.
Defined.

(** ** The registration URI, once found *)

Section registration_uri.

Context {env : Env}.

Lemma getRegistrationURI_known ctx s :
  RegistrationURI (c_AccountInfo (st_client s)) <> "" ->
  getRegistrationURI ctx s = Done (RegistrationURI (c_AccountInfo (st_client s)), None) s.
Proof.
  intros Hk. unfold getRegistrationURI, bind, get_client.
  apply streq_false in Hk. rewrite Hk. reflexivity.
Qed.

Lemma getRegistrationURI_post ctx s uri err s' :
  getRegistrationURI ctx s = Done (uri, err) s' ->
  (err = None /\ RegistrationURI (c_AccountInfo (st_client s')) = uri
   /\ (RegistrationURI (c_AccountInfo (st_client s)) = "" -> ValidURL uri = true))
  \/ (err <> None /\ uri = ""
      /\ RegistrationURI (c_AccountInfo (st_client s')) = ""
      /\ RegistrationURI (c_AccountInfo (st_client s)) = "").
Proof.
  destruct (Go.streq (RegistrationURI (c_AccountInfo (st_client s))) "") eqn:Ek.
  2:{ apply streq_false in Ek. rewrite (getRegistrationURI_known ctx s Ek).
      intros [= <- <- <-]. left. split; [reflexivity|]. split; [reflexivity|].
      intros H. contradiction. }
  apply streq_true in Ek.
  unfold getRegistrationURI, bind, get_client. rewrite Ek, streq_refl.
  change (negb true) with false. cbv beta iota. unfold ret, panic.
  destruct (getDirectory ctx s) as [[odi derr] s1| |] eqn:Hdir; try discriminate.
  pose proof (getDirectory_frame _ _ _ _ Hdir) as Hacc1.
  assert (Hk1 : RegistrationURI (c_AccountInfo (st_client s1)) = "")
    by (rewrite Hacc1; exact Ek).
  destruct derr as [e|].
  { intros [= <- <- <-]. right. split; [discriminate|]. auto. }
  destruct odi as [di|]; [|discriminate]. unfold doReq.
  destruct (doReqEx "POST" (NewReg di) None _ (Some json_Decode_regInfo) None ctx s1)
    as [[[ores err0] ri] s2| |] eqn:Hrun; try discriminate.
  destruct (doReqEx_frame _ _ _ _ _ _ _ _ _ _ Hrun) as (Hacc2 & _).
  assert (Hk2 : RegistrationURI (c_AccountInfo (st_client s2)) = "")
    by (rewrite Hacc2; exact Hk1).
  unfold ret, modify_client. destruct ores as [res|].
  - destruct ((http.StatusCode res =? 201) || (http.StatusCode res =? 409)).
    + destruct (ValidURL (http.Get (http.Header_ res) "Location")) eqn:Hloc; simpl negb;
        cbv iota.
      * intros [= <- <- <-]. left. split; [reflexivity|]. split; [reflexivity|].
        intros _. exact Hloc.
      * intros [= <- <- <-]. right. split; [discriminate|]. auto.
    + destruct err0; intros [= <- <- <-]; right; (split; [discriminate|]); auto.
  - intros [= <- <- <-]. right.
    split; [|auto]. intros ->. exact (doReqEx_not_nil_nil _ _ _ _ _ _ _ _ _ _ Hrun).
Qed.

End registration_uri.

(** X20: the URI that [getRegistrationURI] returns without error is the
    client's [RegistrationURI] from then on, and when it had to be
    discovered [ValidURL] accepts it; a non-empty one is returned again by
    the next call, which leaves the state alone and so dispatches nothing.
    The call fails only when no registration URI was known, and then it
    returns the empty string and the client still knows none. *)
Theorem getRegistrationURI_remembered {env : Env} (ctx : Context) (s : St)
    (uri : string) (err : option Error) (s' : St) :
  getRegistrationURI ctx s = Done (uri, err) s' ->
  (err = None ->
   RegistrationURI (c_AccountInfo (st_client s')) = uri
   /\ (RegistrationURI (c_AccountInfo (st_client s)) = "" -> ValidURL uri = true)
   /\ (uri <> "" -> getRegistrationURI ctx s' = Done (uri, None) s'))
  /\ (err <> None ->
      uri = ""
      /\ RegistrationURI (c_AccountInfo (st_client s)) = ""
      /\ RegistrationURI (c_AccountInfo (st_client s')) = "").
Proof.
  intros Hrun.
  destruct (getRegistrationURI_post _ _ _ _ _ Hrun)
    as [(-> & Huri & Hvalid) | (Hne & -> & Hk' & Hk)].
  - split; [|congruence]. intros _. split; [exact Huri|]. split; [exact Hvalid|].
    intros Hnz. rewrite <- Huri in Hnz |- *. now apply getRegistrationURI_known.
  - split; [intros ->; congruence | auto].
Qed.

Lemma getRegistrationURI_remembered_witness :
  let E := Toy.env Toy.registrar in
  let s := Toy.start Toy.registrar (Toy.client (Some (rsa_PrivateKey 1)) [] "") in
  exists s',
    getRegistrationURI (env := E) Toy.background s = Done ("https://ca/acct/1", None) s'
    /\ RegistrationURI (c_AccountInfo (st_client s')) = "https://ca/acct/1"
    /\ getRegistrationURI (env := E) Toy.background s' = Done ("https://ca/acct/1", None) s'.
Proof.
  intros E s. eexists.
  assert (Hrun : getRegistrationURI (env := E) Toy.background s
                 = ltac:(let r := eval vm_compute in
                           (getRegistrationURI (env := E) Toy.background s)
                         in exact r))
    by (vm_compute; reflexivity).
  split; [exact Hrun|].
  destruct (proj1 (getRegistrationURI_remembered (env := E) Toy.background s _ _ _ Hrun)
              eq_refl) as (Huri & _ & Hagain).
  split; [exact Huri|]. apply Hagain. discriminate.
Defined.

(** ** A reload that fails *)

(** X21: [LoadAuthorization] sets the combinations of the authorization
    to nil before it sends anything, and a failure does not bring them
    back.  When the URI is invalid, when the answer has a status from 400
    to 599 or when its Content-Type is not application/json, the call
    fails and leaves the authorization as it was but for its
    combinations, which are nil; in every failure either that is so or
    the body of an answer was handed to the decoder. *)
Theorem LoadAuthorization_failure {env : Env} (az : Authorization) (ctx : Context)
    (s : St) :
  (ValidURL (rewriteURL (az_URI az)) = false ->
   LoadAuthorization az ctx s
   = Done (Some (ErrInvalidURL (rewriteURL (az_URI az))), set_az_Combinations None az) s)
  /\ (forall res s',
        round_trip "GET" (az_URI az) None None ctx s res s' ->
        let ct := http.Get (http.Header_ res) "Content-Type" in
        (400 <= http.StatusCode res < 600 ->
         LoadAuthorization az ctx s
         = Done (Some (newHTTPError res), set_az_Combinations None az) s')
        /\ (~ 400 <= http.StatusCode res < 600 -> ct <> "application/json" ->
            LoadAuthorization az ctx s
            = Done (Some (ErrUnexpectedContentType ct), set_az_Combinations None az) s'))
  /\ (forall e az' s',
        LoadAuthorization az ctx s = Done (Some e, az') s' ->
        az' = set_az_Combinations None az
        \/ exists res,
             round_trip "GET" (az_URI az) None None ctx s res s'
             /\ ~ 400 <= http.StatusCode res < 600
             /\ http.Get (http.Header_ res) "Content-Type" = "application/json").
Proof.
  split; [|split].
  - intros Hurl. unfold LoadAuthorization, doReq, bind, doReqEx.
    change (az_URI (set_az_Combinations None az)) with (az_URI az).
    rewrite Hurl. reflexivity.
  - intros res s' Hrt. cbv zeta. unfold LoadAuthorization, doReq, bind.
    change (az_URI (set_az_Combinations None az)) with (az_URI az).
    rewrite (doReqEx_round_trip _ _ _ _ (Some decode_Authorization)
               (set_az_Combinations None az) _ _ _ _ Hrt).
    split.
    + intros Hs. rewrite handleResponse_error_status by exact Hs. reflexivity.
    + intros Hs Hct. unfold handleResponse.
      replace ((400 <=? http.StatusCode res) && (http.StatusCode res <? 600)) with false
        by (symmetry; apply andb_false_iff; lia).
      apply streq_false in Hct. rewrite Hct. reflexivity.
  - intros e az' s'. unfold LoadAuthorization, doReq, bind.
    change (az_URI (set_az_Combinations None az)) with (az_URI az).
    destruct (doReqEx_cases "GET" (az_URI az) None None (Some decode_Authorization)
                (set_az_Combinations None az) ctx s)
      as [(e0 & s1 & Hfail) | [(res & s1 & Hrt) | Hpanic]];
      [| |now apply doReqEx_never_panics in Hpanic].
    + rewrite Hfail. intros [= _ <- _]. left. reflexivity.
    + rewrite (doReqEx_round_trip _ _ _ _ (Some decode_Authorization)
                 (set_az_Combinations None az) _ _ _ _ Hrt).
      unfold handleResponse.
      destruct ((400 <=? http.StatusCode res) && (http.StatusCode res <? 600)) eqn:Es;
        [intros [= _ <- _]; left; reflexivity|].
      destruct (Go.streq (http.Get (http.Header_ res) "Content-Type") "application/json")
        eqn:Ect;
        [change (negb true) with false | change (negb false) with true]; cbv iota;
        [|intros [= _ <- _]; left; reflexivity].
      intros Hrun. right. exists res.
      assert (Hs' : s1 = s').
      { destruct (decode_Authorization (http.Body res) (set_az_Combinations None az))
          as [[e1|] az1]; cbv beta iota in Hrun; [now injection Hrun|].
        destruct (validate az1) as [[e2|] az2]; cbv beta iota in Hrun;
          [now injection Hrun | discriminate]. }
      subst s1. split; [exact Hrt|].
      split; [intros Hs; apply andb_false_iff in Es; destruct Es; lia|].
      now apply streq_true.
Qed.

Lemma LoadAuthorization_failure_witness :
  let E := Toy.env Toy.nowhere in
  let s := Toy.start Toy.nowhere (Toy.client None [] "") in
  let az := set_az_Combinations (Some [[0]]) (Toy.authorization "https://ca/authz/1") in
  exists e az' s',
    LoadAuthorization (env := E) az Toy.background s = Done (Some e, az') s'
    /\ az_Combinations az = Some [[0]]
    /\ az_Combinations az' = None.
Proof.
  intros E s az.
  set (res := Toy.response 404 [("Content-Type", "text/plain")] "not found").
  set (s' := with_client (env := E) (keepNonce res)
               (@Build_St E (st_client s) ((1%nat, Toy.epoch) : Toy.W)
                  [NewRequest "GET" "https://ca/authz/1" None])).
  assert (Hrt : round_trip (env := E) "GET" (az_URI az) None None Toy.background s res s').
  { split; [reflexivity|]. exists None, s, ((1%nat, Toy.epoch) : Toy.W).
    split; [split; reflexivity|]. split; reflexivity. }
  assert (Hs : 400 <= http.StatusCode res < 600) by (simpl; lia).
  exists (newHTTPError res), (set_az_Combinations None az), s'.
  split; [|split; reflexivity].
  exact (proj1 (proj1 (proj2 (LoadAuthorization_failure (env := E) az Toy.background s))
                  res s' Hrt) Hs).
Defined.

(** ** Signing the payload *)



(** ** A registration that went through *)

(** X23: when [UpsertRegistration] returns nil, the registration was
    POSTed to the URI [getRegistrationURI] gave and answered without
    error, and that URI is the client's [RegistrationURI] afterwards.  If
    the answer linked to terms of service, then either the registration
    had already agreed to them, or they are among the agreement URIs the
    client accepted beforehand and the registration was POSTed once more,
    again without error: it never succeeds over terms that nobody
    accepted. *)
Theorem UpsertRegistration_success {env : Env} (ctx : Context) (s s' : St) :
  UpsertRegistration ctx s = Done None s' ->
  exists regURI s1 res ri s2,
    getRegistrationURI ctx s = Done (regURI, None) s1
    /\ doReq "POST" regURI (Some (P_regInfo (reg (st_client s1))))
         (Some json_Decode_regInfo) None ctx s1 = Done (Some res, None, ri) s2
    /\ RegistrationURI (c_AccountInfo (st_client s')) = regURI
    /\ (link_ParseResponse res !! "terms-of-service" = None -> s' = s2)
    /\ (forall l,
          link_ParseResponse res !! "terms-of-service" = Some l ->
          exists i,
            ri = Some i
            /\ ((link_URI l = ri_AgreementURI i /\ s' = s2)
                \/ (link_URI l <> ri_AgreementURI i
                    /\ link_URI l ∈ AgreementURIs (c_AccountInfo (st_client s))
                    /\ exists res2 ri2,
                         doReq "POST" regURI
                           (Some (P_regInfo (set_ri_AgreementURI (link_URI l)
                                               (reg (st_client s1)))))
                           (Some json_Decode_regInfo) (Some i) ctx s2
                         = Done (res2, None, ri2) s'))).
Proof.
  intros Hrun. unfold UpsertRegistration in Hrun. unfold bind at 1 in Hrun.
  destruct (getRegistrationURI ctx s) as [[regURI err] s1| |] eqn:Hreg; try discriminate.
  destruct err as [e|]; [discriminate|].
  unfold bind at 1 in Hrun. unfold get_client at 1 in Hrun. unfold bind at 1 in Hrun.
  destruct (doReq "POST" regURI (Some (P_regInfo (reg (st_client s1))))
              (Some json_Decode_regInfo) None ctx s1) as [[[ores err] ri] s2| |] eqn:Hpost;
    try discriminate.
  destruct err as [e|]; [discriminate|].
  destruct ores as [res|]; [|discriminate].
  assert (Huri1 : RegistrationURI (c_AccountInfo (st_client s1)) = regURI).
  { destruct (getRegistrationURI_post _ _ _ _ _ Hreg) as [(_ & H & _) | (H & _)];
      [exact H | congruence]. }
  assert (Hacc2 : c_AccountInfo (st_client s2) = c_AccountInfo (st_client s1))
    by exact (proj1 (doReqEx_frame _ _ _ _ _ _ _ _ _ _ Hpost)).
  assert (Hagr : AgreementURIs (c_AccountInfo (st_client s2))
                 = AgreementURIs (c_AccountInfo (st_client s))).
  { rewrite Hacc2. exact (proj1 (getRegistrationURI_frame _ _ _ _ Hreg)). }
  exists regURI, s1, res, ri, s2. split; [reflexivity|]. split; [exact Hpost|].
  destruct (link_ParseResponse res !! "terms-of-service") as [l|] eqn:Htos.
  - destruct ri as [i|]; [|discriminate].
    destruct (Go.streq (ri_AgreementURI i) (link_URI l)) eqn:Eagr.
    + apply streq_true in Eagr. injection Hrun as <-.
      split; [now rewrite Hacc2|]. split; [discriminate|].
      intros l0 [= <-]. exists i. split; [reflexivity|]. left. auto.
    + apply streq_false in Eagr. change (negb false) with true in Hrun.
      cbv iota in Hrun. unfold bind at 1 in Hrun. unfold get_client at 1 in Hrun.
      destruct (bool_decide (link_URI l ∈ AgreementURIs (c_AccountInfo (st_client s2))))
        eqn:Ein; [|discriminate].
      apply bool_decide_eq_true in Ein. rewrite Hagr in Ein.
      change (negb true) with false in Hrun. cbv iota in Hrun.
      unfold bind at 1 in Hrun.
      destruct (doReq "POST" regURI _ (Some json_Decode_regInfo) (Some i) ctx s2)
        as [[[res2 err2] ri2] s3| |] eqn:Hagain; try discriminate.
      destruct err2 as [e|]; [discriminate|]. injection Hrun as <-.
      split.
      { rewrite (proj1 (doReqEx_frame _ _ _ _ _ _ _ _ _ _ Hagain)), Hacc2. exact Huri1. }
      split; [discriminate|].
      intros l0 [= <-]. exists i. split; [reflexivity|]. right.
      split; [congruence|]. split; [exact Ein|]. eauto.
  - injection Hrun as <-. split; [now rewrite Hacc2|]. split; [reflexivity|].
    discriminate.
Qed.

Lemma UpsertRegistration_success_witness :
  let E := Toy.env Toy.registrar in
  let s := Toy.start Toy.registrar
             (Toy.client (Some (rsa_PrivateKey 1)) ["https://ca/tos/v2"] "") in
  exists s',
    UpsertRegistration (env := E) Toy.background s = Done None s'
    /\ RegistrationURI (c_AccountInfo (st_client s')) = "https://ca/acct/1".
Proof.
  intros E s. eexists.
  assert (Hrun : UpsertRegistration (env := E) Toy.background s
                 = ltac:(let r := eval vm_compute in
                           (UpsertRegistration (env := E) Toy.background s)
                         in exact r))
    by (vm_compute; reflexivity).
  split; [exact Hrun|].
  destruct (UpsertRegistration_success (env := E) Toy.background s _ Hrun)
    as (regURI & s1 & res & ri & s2 & Hreg & _ & Huri & _).
  assert (Hr : getRegistrationURI (env := E) Toy.background s
               = ltac:(let r := eval vm_compute in
                         (getRegistrationURI (env := E) Toy.background s)
                       in exact r))
    by (vm_compute; reflexivity).
  rewrite Hr in Hreg. injection Hreg as <- _. exact Huri.
Defined.

(** ** Polling no earlier than asked *)

(** X24: when the instant [t] to wait for lies ahead (by no more than the
    largest [Duration]) and the context is not done by then, [waitUntil]
    returns nil in a state that differs from the one it was called in by
    the world only: the client is the same and no request has been handed
    to [ctxhttp.Do].  Provided a blocked [select] wakes up no earlier than
    the instant it waits for, the clock of that world reads [t] or later.
    The three polling functions are the plain loads run in that state. *)
Theorem polling_waits {env : Env} (t : Time) (ctx : Context) (pick : bool) (s : St) :
  let now := time_Now (st_world s) in
  let s1 := {| st_client := st_client s;
               st_world := after_wait t (st_world s);
               st_sent := st_sent s |} in
  (forall u w, u <= time_Now (after_wait u w)) ->
  now < t -> t - now <= time.maxDuration ->
  (forall d, Done_at ctx = Some d -> t < d) ->
  waitUntil t ctx pick s = Done None s1
  /\ t <= time_Now (st_world s1)
  /\ st_client s1 = st_client s /\ st_sent s1 = st_sent s
  /\ (forall az, az_retryAt az = t ->
        WaitLoadAuthorization az ctx pick s = LoadAuthorization az ctx s1)
  /\ (forall ch, ch_retryAt ch = t ->
        WaitLoadChallenge ch ctx pick s = LoadChallenge ch ctx s1)
  /\ (forall fuel crt, crt_retryAt crt = t ->
        WaitLoadCertificate fuel crt ctx pick s = LoadCertificate fuel crt ctx s1).
Proof.
  cbv zeta. intros Hclock Hlt Hfit Hctx.
  assert (Hwait : waitUntil t ctx pick s
                  = Done None {| st_client := st_client s;
                                 st_world := after_wait t (st_world s);
                                 st_sent := st_sent s |}).
  { unfold waitUntil, bind, Now, waitUntil_select, cancelled.
    replace (time.After t (time_Now (st_world s))) with true
      by (symmetry; apply Z.ltb_lt; exact Hlt).
    assert (Hsub : time.Add (time_Now (st_world s)) (time.Sub t (time_Now (st_world s))) = t).
    { unfold time.Add, time.Sub.
      replace (time.maxDuration <? t - time_Now (st_world s)) with false by lia.
      replace (t - time_Now (st_world s) <? time.minDuration) with false
        by (unfold time.minDuration; lia).
      lia. }
    rewrite Hsub.
    destruct (Done_at ctx) as [d|] eqn:Hd; [|reflexivity].
    specialize (Hctx d eq_refl).
    replace (d <=? time_Now (st_world s)) with false by lia.
    replace (d <? t) with false by lia.
    replace (t <? d) with true by lia. reflexivity. }
  split; [exact Hwait|]. split; [apply Hclock|].
  split; [reflexivity|]. split; [reflexivity|]. split; [|split].
  - intros az <-. unfold WaitLoadAuthorization, bind. rewrite Hwait. reflexivity.
  - intros ch <-. unfold WaitLoadChallenge, bind. rewrite Hwait. reflexivity.
  - intros fuel crt <-. unfold WaitLoadCertificate, bind. rewrite Hwait. reflexivity.
Qed.

Lemma polling_waits_witness :
  let E := Toy.env Toy.challenges in
  let s := Toy.start Toy.challenges (Toy.client None [] "") in
  let t := Toy.epoch + 5 * time.Second in
  let ch := set_ch_retryAt t (Toy.challenge "https://ca/chal/a") in
  exists ch' s',
    WaitLoadChallenge (env := E) ch Toy.background false s = Done (None, ch') s'
    /\ time_Now (Env := E) (st_world s') = t
    /\ ch_retryAt ch' = t + 5 * time.Second.
Proof.
  intros E s t ch.
  assert (Hclock : forall u w, u <= time_Now (Env := E) (after_wait (Env := E) u w))
    by (intros u w; simpl; lia).
  assert (Hlt : time_Now (Env := E) (st_world s) < t) by (vm_compute; reflexivity).
  assert (Hfit : t - time_Now (Env := E) (st_world s) <= time.maxDuration)
    by (vm_compute; discriminate).
  assert (Hctx : forall d, Done_at Toy.background = Some d -> t < d) by discriminate.
  destruct (polling_waits (env := E) t Toy.background false s Hclock Hlt Hfit Hctx)
    as (_ & _ & _ & _ & _ & Hch & _).
  rewrite (Hch ch eq_refl). eexists _, _.
  split; [vm_compute; reflexivity|]. split; vm_compute; reflexivity.
Defined.
